(** * DS2438 one-wire driver (ds2438.c): shallow embedding and verification

    The driver bit-bangs a 1-Wire bus through one GPIO pin.  The pin-level
    wave forms of a reset pulse, a read slot and a write slot depend on real
    time; here each of the three is one primitive operation of an abstract
    bus, and everything the driver builds on top of them (byte I/O, the ROM
    search, the scratchpad transaction, the measurement sequence) is
    translated from the C source.  Integers are [Z] with the C conversions
    to [uint8_t] / [uint16_t] written out; a [float] is the rational it
    denotes, with the rounding of each operation written out. *)

From Stdlib Require Import ZArith QArith Qround Qabs Lia Bool.
From stdpp Require Import base list strings pretty.

Local Open Scope Z_scope.

(** ** Machine integers *)

(** Conversion to [uint8_t]. *)
Definition u8 (z : Z) : Z := z mod 256.

(** Conversion to [uint16_t]. *)
Definition u16 (z : Z) : Z := z mod 65536.

(** Value of a byte read as [int8_t] (two's complement). *)
Definition s8 (z : Z) : Z := if u8 z <? 128 then u8 z else u8 z - 256.

Definition is_byte (z : Z) : Prop := 0 <= z < 256.

(** ** Constants of ds2438.c *)

Definition kConvertTCommand : Z := 0x44.
Definition kConvertVCommand : Z := 0xB4.
Definition kRecallPage : Z := 0xB8.
Definition kReadScatchPad : Z := 0xBE.

Definition kScratchPad_TLSB : nat := 1.
Definition kScratchPad_TMSB : nat := 2.
Definition kScratchPad_VLSB : nat := 3.
Definition kScratchPad_VMSB : nat := 4.
Definition kScratchPad_CRC : nat := 8.

Definition kDS2438_DeviceNotFound : Z := 0xA800.
Definition kDS2438_CrcCheckFailed : Z := 0x5000.

(** States of ROM search reads (the enum local to [_search_next]). *)
Definition kConflict : Z := 0.
Definition kZero : Z := 2.
Definition kOne : Z := 1.

(** ** The bus and the effects of the driver *)

(** What the driver does to the outside world, in the order it happens:
    a reset pulse (with the presence it observed), a read slot (with the
    level sampled), a write slot (with the bit sent), and a [memcpy] of a
    ROM code into the caller's buffer. *)
Inductive event : Type :=
  | EvReset (presence : bool)
  | EvReadBit (level : bool)
  | EvWriteBit (bit : bool)
  | EvStore (offset : Z) (code : list Z).

(** The 1-Wire line seen through [gpin_t]: sampling the line after the
    master reset pulse, sampling it inside a read slot, and driving a write
    slot.  Levels are [true] for high. *)
Class OneWireBus (B : Type) : Type := {
  bus_reset_sample : B -> bool * B;
  bus_read_slot : B -> bool * B;
  bus_write_slot : bool -> B -> B
}.

(** [struct onewire_search_state]. *)
Record onewire_search_state : Type := mkState {
  lastZeroBranch : Z;
  done : bool;
  address : list Z
}.

Definition set_done (s : onewire_search_state) (d : bool) : onewire_search_state :=
  mkState (lastZeroBranch s) d (address s).

Definition set_lastZeroBranch (s : onewire_search_state) (z : Z) : onewire_search_state :=
  mkState z (done s) (address s).

Definition set_address (s : onewire_search_state) (a : list Z) : onewire_search_state :=
  mkState (lastZeroBranch s) (done s) a.

(** ** CRC-8 *)

(** One shift of the Dallas/Maxim CRC register (polynomial x^8+x^5+x^4+1,
    reflected: 0x8C). *)
Definition crc_shift (crc : Z) : Z :=
  if Z.testbit crc 0 then Z.lxor (Z.shiftr crc 1) 0x8C else Z.shiftr crc 1.

(** Modelled from the spec: [_crc_ibutton_update] comes from avr-libc's
    <util/crc16.h>, which is not part of the sources; the spec describes it
    as the bitwise update over the Dallas/Maxim (iButton) polynomial,
    applied byte by byte to a register seeded at 0.  The register is xored
    with the data byte and shifted eight times. *)
Definition _crc_ibutton_update (crc data : Z) : Z :=
  Nat.iter 8 crc_shift (Z.lxor crc data).

(** The [for] loop of [crc8]: [n] iterations left, index [i]. *)
Fixpoint crc8_loop (data : list Z) (n : nat) (i : nat) (crc : Z) : Z :=
  match n with
  | O => crc
  | S n' => crc8_loop data n' (S i) (_crc_ibutton_update crc (data !!! i))
  end.

(** [crc8(data, len)]; [len] is a [uint8_t]. *)
Definition crc8 (data : list Z) (len : Z) : Z :=
  crc8_loop data (Z.to_nat (u8 len)) 0%nat 0.

(** [onewire_check_rom_crc]: bytes 0..6 against the CRC in byte 7. *)
Definition onewire_check_rom_crc (state : onewire_search_state) : bool :=
  address state !!! 7%nat =? crc8 (address state) 7.

(** ** Single-precision numbers *)

(** [float] is IEEE 754 binary32: 24 significant bits, every operation
    rounded to the nearest representable value, ties to the even
    significand.  A finite [float] is modelled by the rational it denotes.
    [binary32 x] is the [float] nearest to [x], for magnitudes in the normal
    range (from 2^-126 up to 2^128), which is where the temperature
    arithmetic of [ds2438_measure] stays; infinities, NaN and subnormal
    numbers are not modelled. *)
Definition round_half_even (n d : Z) : Z :=
  let q := n / d in
  match 2 * (n mod d) ?= d with
  | Lt => q
  | Gt => q + 1
  | Eq => if Z.even q then q else q + 1
  end.

Definition binary32 (x : Q) : Q :=
  let n := Z.abs (Qnum x) in
  let d := Zpos (Qden x) in
  if n =? 0 then 0%Q
  else
    let e0 := Z.log2 n - Z.log2 d in
    let e := if (if 0 <=? e0 then d * 2 ^ e0 <=? n else d <=? n * 2 ^ (- e0))
             then e0 else e0 - 1 in
    let s := 23 - e in
    let v := if 0 <=? s
             then Qred (Qmake (round_half_even (n * 2 ^ s) d) (Z.to_pos (2 ^ s)))
             else inject_Z (round_half_even n (d * 2 ^ (- s)) * 2 ^ (- s)) in
    if Qnum x <? 0 then Qopp v else v.

(** Conversion of an integer to [float], and [float] division and
    addition. *)
Definition float_of_int (n : Z) : Q := binary32 (inject_Z n).

Definition float_div (x y : Q) : Q := binary32 (Qdiv x y).

Definition float_add (x y : Q) : Q := binary32 (Qplus x y).

(** ** The driver over an arbitrary bus *)

Section Driver.
Context {B : Type} `{OneWireBus B}.

(** A computation on the bus: it returns a value, the bus afterwards and
    the events it caused, oldest first. *)
Definition M (A : Type) : Type := B -> A * B * list event.

Definition ret {A : Type} (a : A) : M A := fun b => (a, b, []).

Definition bind {A C : Type} (m : M A) (k : A -> M C) : M C :=
  fun b =>
    let '(a, b1, t1) := m b in
    let '(c, b2, t2) := k a b1 in
    (c, b2, t1 ++ t2).

Definition emit (e : event) : M unit := fun b => (tt, b, [e]).

(** What is left of a [bind] once its first computation has run. *)
Definition bind_rest {C : Type} (r : C * B * list event) (t1 : list event)
    : C * B * list event :=
  let '(c, b2, t2) := r in (c, b2, t1 ++ t2).

Notation "'let*' x ':=' m 'in' k" := (bind m (fun x => k))
  (at level 10, x pattern, m at level 100, k at level 200).

(** [onewire_reset]: true when a slave pulled the line low. *)
Definition onewire_reset : M bool :=
  fun b =>
    let '(result, b') := bus_reset_sample b in
    (negb result, b', [EvReset (negb result)]).

(** [onewire_write_bit]: a write-1 slot unless [bit] is zero. *)
Definition onewire_write_bit (bit : Z) : M unit :=
  fun b =>
    let v := negb (bit =? 0) in
    (tt, bus_write_slot v b, [EvWriteBit v]).

(** The [for (i = 8; i != 0; --i)] loop of [onewire_write]. *)
Fixpoint onewire_write_loop (i : nat) (byte : Z) : M unit :=
  match i with
  | O => ret tt
  | S i' =>
      let* _ := onewire_write_bit (Z.land byte 1) in
      onewire_write_loop i' (Z.shiftr byte 1)
  end.

Definition onewire_write (byte : Z) : M unit :=
  onewire_write_loop 8 (u8 byte).

(** [onewire_read_bit]: 0 or 1. *)
Definition onewire_read_bit : M Z :=
  fun b =>
    let '(level, b') := bus_read_slot b in
    ((if level then 1 else 0), b', [EvReadBit level]).

(** The [for (bit = 0x01; bit; bit <<= 1)] loop of [onewire_read]; the
    mask is a [uint8_t], so the eighth shift makes it zero. *)
Fixpoint onewire_read_loop (fuel : nat) (bit buffer : Z) : M Z :=
  match fuel with
  | O => ret buffer
  | S fuel' =>
      if bit =? 0 then ret buffer
      else
        let* r := onewire_read_bit in
        let buffer' := if r =? 0 then buffer else u8 (Z.lor buffer bit) in
        onewire_read_loop fuel' (u8 (Z.shiftl bit 1)) buffer'
  end.

Definition onewire_read : M Z := onewire_read_loop 9 1 0.

(** *** ROM search *)

(** The [switch (reading)] of [_search_next] at one bit position:
    [Some (bitValue, localLastZeroBranch)] or [None] for the [default]
    case, which makes the function return false. *)
Definition search_switch (state : onewire_search_state)
    (bitPosition byteIndex bitIndex localLastZeroBranch reading : Z) : option (Z * Z) :=
  if (reading =? kZero) || (reading =? kOne) then
    Some (Z.land reading 1, localLastZeroBranch)
  else if reading =? kConflict then
    let bitValue :=
      if bitPosition =? lastZeroBranch state then 1
      else if bitPosition <? lastZeroBranch state then
        u8 (Z.land (address state !!! Z.to_nat byteIndex) (Z.shiftl 1 bitIndex))
      else 0 in
    Some (bitValue, if bitValue =? 0 then bitPosition else localLastZeroBranch)
  else None.

(** "Write bit into address". *)
Definition write_address (addr : list Z) (byteIndex bitIndex bitValue : Z) : list Z :=
  let old := addr !!! Z.to_nat byteIndex in
  if bitValue =? 0 then
    <[Z.to_nat byteIndex := u8 (Z.land old (Z.lnot (Z.shiftl 1 bitIndex)))]> addr
  else
    <[Z.to_nat byteIndex := u8 (Z.lor old (Z.shiftl bitValue bitIndex))]> addr.

(** The [for (bitPosition = 0; bitPosition < 64; ++bitPosition)] loop with
    [n] positions left.  The result is the flag "no early return", the
    state and [localLastZeroBranch]. *)
Fixpoint search_bits (n : nat) (bitPosition : Z) (state : onewire_search_state)
    (localLastZeroBranch : Z) : M (bool * onewire_search_state * Z) :=
  match n with
  | O => ret (true, state, localLastZeroBranch)
  | S n' =>
      let byteIndex := u8 (Z.quot bitPosition 8) in
      let bitIndex := u8 (Z.rem bitPosition 8) in
      let* r0 := onewire_read_bit in
      let* r1 := onewire_read_bit in
      let reading := Z.lor (Z.lor 0 r0) (Z.shiftl r1 1) in
      match search_switch state bitPosition byteIndex bitIndex localLastZeroBranch reading with
      | None => ret (false, state, localLastZeroBranch)
      | Some (bitValue, local') =>
          let state' :=
            set_address state (write_address (address state) byteIndex bitIndex bitValue) in
          let* _ := onewire_write_bit bitValue in
          search_bits n' (bitPosition + 1) state' local'
      end
  end.

Definition _search_next (state : onewire_search_state) : M (bool * onewire_search_state) :=
  let* (complete, state', localLastZeroBranch) := search_bits 64 0 state (-1) in
  if complete then
    if localLastZeroBranch =? -1 then ret (true, set_done state' true)
    else ret (true, set_lastZeroBranch state' localLastZeroBranch)
  else ret (false, state').

Definition _search_devices (command : Z) (state : onewire_search_state)
    : M (bool * onewire_search_state) :=
  if done state then ret (false, state)
  else
    let* presence := onewire_reset in
    if negb presence then ret (false, state)
    else
      let* _ := onewire_write command in
      _search_next state.

Definition onewire_search (state : onewire_search_state) : M (bool * onewire_search_state) :=
  _search_devices 0xF0 state.

(** *** Enumeration entry point *)

(** [memcpy(&dst[off], src, n)] on byte arrays. *)
Definition memcpy (dst : list Z) (off : nat) (src : list Z) (n : nat) : list Z :=
  foldl (fun d k => <[(off + k)%nat := src !!! k]> d) dst (seq 0 n).

(** The [while] loop of [ds2438_search].  The C loop runs for as long as
    the bus keeps yielding addresses; [fuel] bounds the number of search
    calls and [None] means the bound was hit.  The counter [i] is a
    [uint8_t]. *)
Fixpoint ds2438_search_loop (fuel : nat) (len : Z) (state : onewire_search_state)
    (i : Z) (buf : list Z) : M (option (Z * list Z)) :=
  match fuel with
  | O => ret None
  | S fuel' =>
      let* (found_one, state') := onewire_search state in
      if found_one && (8 * (i + 1) <=? len) then
        if onewire_check_rom_crc state' then
          let* _ := emit (EvStore (8 * i) (take 8 (address state'))) in
          ds2438_search_loop fuel' len state' (u8 (i + 1))
            (memcpy buf (Z.to_nat (8 * i)) (address state') 8)
        else ds2438_search_loop fuel' len state' i buf
      else ret (Some (i, buf))
  end.

Definition fresh_state : onewire_search_state :=
  mkState (-1) false (replicate 8 0).

(** [ds2438_search]: the result is [( *found, buf )]; [len] is a
    [uint16_t]. *)
Definition ds2438_search (fuel : nat) (buf : list Z) (len : Z) : M (option (Z * list Z)) :=
  ds2438_search_loop fuel (u16 len) fresh_state 0 buf.

(** *** Scratchpad transaction *)

(** The [for (i = 0; i < 9; ++i) buffer[i] = onewire_read(io)] loop. *)
Fixpoint read_scratchpad (n : nat) (i : nat) (buffer : list Z) : M (list Z) :=
  match n with
  | O => ret buffer
  | S n' =>
      let* v := onewire_read in
      read_scratchpad n' (S i) (<[i := v]> buffer)
  end.

Definition ds2438_read_slave (page : Z) (buffer : list Z) : M (Z * list Z) :=
  let* alive := onewire_reset in
  if negb alive then ret (kDS2438_DeviceNotFound, buffer)
  else
    let* _ := onewire_write 0xCC in
    let* _ := onewire_write kRecallPage in
    let* _ := onewire_write page in
    let* alive' := onewire_reset in
    if negb alive' then ret (kDS2438_DeviceNotFound, buffer)
    else
      let* _ := onewire_write 0xCC in
      let* _ := onewire_write kReadScatchPad in
      let* _ := onewire_write page in
      let* buffer' := read_scratchpad 9 0 buffer in
      if negb (crc8 buffer' 8 =? buffer' !!! kScratchPad_CRC)
      then ret (kDS2438_CrcCheckFailed, buffer')
      else ret (0, buffer').

(** *** Measurement entry point *)

(** [((buffer[VMSB] << 8) | buffer[VLSB]) * 10] stored in a [uint16_t]. *)
Definition raw_voltage (buffer : list Z) : Z :=
  u16 (Z.lor (Z.shiftl (buffer !!! kScratchPad_VMSB) 8) (buffer !!! kScratchPad_VLSB) * 10).

(** [const uint8_t temp_integer = buffer[kScratchPad_TMSB]]. *)
Definition temp_integer (buffer : list Z) : Z :=
  u8 (buffer !!! kScratchPad_TMSB).

(** [const uint16_t temp_frac = (buffer[kScratchPad_TLSB] >> 3) * 32]. *)
Definition temp_frac (buffer : list Z) : Z :=
  u16 (Z.shiftr (buffer !!! kScratchPad_TLSB) 3 * 32).

(** [float temperature = temp_integer + temp_frac / 1000.0f]: both
    integers are converted to [float], the division and the sum are
    [float] operations. *)
Definition temperature (t_int t_frac : Z) : Q :=
  float_add (float_of_int t_int) (float_div (float_of_int t_frac) (binary32 (inject_Z 1000))).

(** The two [%0.3f] fields of the [sprintf].  The first is the decimal
    rendering of [temperature]; the second is the rendering of
    [sensor_rh], the humidity formula over [vad], [vdd] and [temperature],
    which divides by [vdd].  Both are left to the environment. *)
Variable render_temperature : Q -> string.
Variable render_humidity : Z -> Z -> Q -> string.

Definition CRLF : string :=
  String (Ascii.ascii_of_nat 13) (String (Ascii.ascii_of_nat 10) EmptyString).

(** [sprintf(output, "TH;%0.3f;%0.3f\r\n", temperature, sensor_rh)]. *)
Definition sprintf_TH (vad vdd : Z) (t : Q) : string :=
  "TH;" +:+ render_temperature t +:+ ";" +:+ render_humidity vad vdd t +:+ CRLF.

(** [ds2438_measure]: the result is the returned flag and the contents of
    [output] afterwards.  The local [buffer] is uninitialised in C and is
    never read before [ds2438_read_slave] has filled it on the success
    path; it starts here as nine zero bytes. *)
Definition ds2438_measure (output : string) : M (bool * string) :=
  let buffer := replicate 9 0 in
  let* p1 := onewire_reset in
  if negb p1 then ret (false, output) else
  let* _ := onewire_write 0xCC in
  let* _ := onewire_write 0x4E in
  let* _ := onewire_write 0x00 in
  let* _ := onewire_write 0x00 in
  let* p2 := onewire_reset in
  if negb p2 then ret (false, output) else
  let* _ := onewire_write 0xCC in
  let* _ := onewire_write kConvertTCommand in
  let* p3 := onewire_reset in
  if negb p3 then ret (false, output) else
  let* _ := onewire_write 0xCC in
  let* _ := onewire_write kConvertVCommand in
  let* (reading, buffer) := ds2438_read_slave 0 buffer in
  if reading =? kDS2438_CrcCheckFailed then ret (false, output) else
  if reading =? kDS2438_DeviceNotFound then ret (false, output) else
  let vad := raw_voltage buffer in
  let* p4 := onewire_reset in
  if negb p4 then ret (false, output) else
  let* _ := onewire_write 0xCC in
  let* _ := onewire_write 0x4E in
  let* _ := onewire_write 0x00 in
  let* _ := onewire_write 0x08 in
  let* p5 := onewire_reset in
  if negb p5 then ret (false, output) else
  let* _ := onewire_write 0xCC in
  let* _ := onewire_write kConvertVCommand in
  let* p6 := onewire_reset in
  if negb p6 then ret (false, output) else
  let* (reading', buffer') := ds2438_read_slave 0 buffer in
  if reading' =? kDS2438_CrcCheckFailed then ret (false, output) else
  if reading' =? kDS2438_DeviceNotFound then ret (false, output) else
  let vdd := raw_voltage buffer' in
  let t := temperature (temp_integer buffer') (temp_frac buffer') in
  ret (true, sprintf_TH vad vdd t).

End Driver.

(** ** Simulated buses *)

(** Little-endian packing of ROM codes: byte 0 holds bit positions 0..7. *)
Fixpoint rom_of_bytes (bytes : list Z) : Z :=
  match bytes with
  | [] => 0
  | b :: rest => Z.lor (u8 b) (Z.shiftl (rom_of_bytes rest) 8)
  end.

Fixpoint bytes_of_rom (n : nat) (rom : Z) : list Z :=
  match n with
  | O => []
  | S n' => u8 rom :: bytes_of_rom n' (rom / 256)
  end.

Fixpoint byte_of_bits (bits : list bool) : Z :=
  match bits with
  | [] => 0
  | b :: rest => (if b then 1 else 0) + 2 * byte_of_bits rest
  end.

(** What the slaves on the line are doing. *)
Inductive sim_phase : Type :=
  | SimIdle
  | SimCommand (received : list bool)
  | SimSearch (active : list Z) (pos : Z) (slot : nat).

Record sim_bus : Type := mkSim {
  sim_devices : list Z;
  sim_phase_of : sim_phase
}.

(** Modelled from the spec: the slave devices are hardware, not part of the
    sources.  The line is a wired AND: it reads low as soon as one
    responding device pulls it low, and high when nobody does.  Every device
    answers a reset with a presence pulse and then listens for a command
    byte, least significant bit first.  After "Search ROM" (0xF0) each
    responding device sends, for each of its 64 address bits in turn, the
    bit, then its complement, then reads the bit chosen by the master and
    drops off when it differs from its own. *)
Definition sim_reset (b : sim_bus) : bool * sim_bus :=
  match sim_devices b with
  | [] => (true, mkSim [] SimIdle)
  | ds => (false, mkSim ds (SimCommand []))
  end.

Definition sim_read (b : sim_bus) : bool * sim_bus :=
  match sim_phase_of b with
  | SimSearch active pos O =>
      (forallb (fun d => Z.testbit d pos) active,
       mkSim (sim_devices b) (SimSearch active pos 1))
  | SimSearch active pos (S O) =>
      (forallb (fun d => negb (Z.testbit d pos)) active,
       mkSim (sim_devices b) (SimSearch active pos 2))
  | _ => (true, b)
  end.

Definition sim_write (v : bool) (b : sim_bus) : sim_bus :=
  match sim_phase_of b with
  | SimCommand received =>
      let received' := received ++ [v] in
      if (List.length received' <? 8)%nat then mkSim (sim_devices b) (SimCommand received')
      else if byte_of_bits received' =? 0xF0
           then mkSim (sim_devices b) (SimSearch (sim_devices b) 0 0)
           else mkSim (sim_devices b) SimIdle
  | SimSearch active pos (S (S O)) =>
      let active' := List.filter (fun d => Bool.eqb (Z.testbit d pos) v) active in
      if pos + 1 <? 64 then mkSim (sim_devices b) (SimSearch active' (pos + 1) 0)
      else mkSim (sim_devices b) SimIdle
  | _ => mkSim (sim_devices b) SimIdle
  end.

#[export] Instance sim_OneWireBus : OneWireBus sim_bus := {
  bus_reset_sample := sim_reset;
  bus_read_slot := sim_read;
  bus_write_slot := sim_write
}.

(** The line with the devices [ds] attached, at rest. *)
Definition sim_with (ds : list Z) : sim_bus := mkSim ds SimIdle.

(** A scripted line for the transactions that read data: the answers to the
    successive resets (presence or not) and the levels of the successive
    read slots are fixed in advance; write slots are ignored.  When a script
    runs out, nobody is present and the line idles high. *)
Record script_bus : Type := mkScript {
  script_presence : list bool;
  script_levels : list bool
}.

Definition script_reset (b : script_bus) : bool * script_bus :=
  match script_presence b with
  | [] => (true, b)
  | p :: rest => (negb p, mkScript rest (script_levels b))
  end.

Definition script_read (b : script_bus) : bool * script_bus :=
  match script_levels b with
  | [] => (true, b)
  | l :: rest => (l, mkScript (script_presence b) rest)
  end.

#[export] Instance script_OneWireBus : OneWireBus script_bus := {
  bus_reset_sample := script_reset;
  bus_read_slot := script_read;
  bus_write_slot := fun _ b => b
}.

(** The levels a device sends for a list of bytes, least significant bit
    first. *)
Fixpoint bits_of_byte (n : nat) (byte : Z) : list bool :=
  match n with
  | O => []
  | S n' => Z.testbit byte 0 :: bits_of_byte n' (Z.shiftr byte 1)
  end.

Definition levels_of_bytes (bytes : list Z) : list bool :=
  concat (map (bits_of_byte 8) bytes).

(** A complete ROM code or scratchpad frame: the payload followed by its
    CRC-8. *)
Definition with_crc (payload : list Z) : list Z :=
  payload ++ [crc8 payload (Z.of_nat (List.length payload))].

(** Successive calls of [onewire_search], each on the state left by the
    previous one, until a call returns false or [fuel] calls were made: the
    addresses yielded, the final state and the line afterwards. *)
Fixpoint enumerate {B : Type} `{OneWireBus B} (fuel : nat) (state : onewire_search_state)
    (b : B) : list (list Z) * onewire_search_state * B :=
  match fuel with
  | O => ([], state, b)
  | S fuel' =>
      let '(ok, state', b', _) := onewire_search state b in
      if ok then
        let '(found, final, b'') := enumerate fuel' state' b' in
        (address state' :: found, final, b'')
      else ([], state', b')
  end.

(** ** Observations on runs *)

(** The events of a run, by kind. *)
Definition reset_results (tr : list event) : list bool :=
  omap (fun e => match e with EvReset v => Some v | _ => None end) tr.

Definition read_levels (tr : list event) : list bool :=
  omap (fun e => match e with EvReadBit v => Some v | _ => None end) tr.

Definition written_bits (tr : list event) : list bool :=
  omap (fun e => match e with EvWriteBit v => Some v | _ => None end) tr.

Definition stored_codes (tr : list event) : list (Z * list Z) :=
  omap (fun e => match e with EvStore off code => Some (off, code) | _ => None end) tr.

(** The scratchpad frames a run has read: the levels it sampled, cut into
    groups of 72, each group assembled into nine bytes the way
    [onewire_read] does. *)
Fixpoint bytes_of_levels (n : nat) (levels : list bool) : list Z :=
  match n with
  | O => []
  | S n' => byte_of_bits (take 8 levels) :: bytes_of_levels n' (drop 8 levels)
  end.

Fixpoint frames_of_levels (n : nat) (levels : list bool) : list (list Z) :=
  match n with
  | O => []
  | S n' => bytes_of_levels 9 (take 72 levels) :: frames_of_levels n' (drop 72 levels)
  end.

Definition frames_read (tr : list event) : list (list Z) :=
  frames_of_levels (length (read_levels tr) / 72)%nat (read_levels tr).

(** A non-negative value in thousandths, rounded to the nearest. *)
Definition millis (x : Q) : Z := Qfloor (Qplus (Qmult x (inject_Z 1000)) (Qmake 1 2)).

(** The events of [onewire_write(io, 0xF0)]. *)
Definition search_rom_command : list event :=
  map EvWriteBit [false; false; false; false; true; true; true; true].

(** The bit steps of a pass: for each position the two levels read (bit,
    complement) and the bit written. *)
Fixpoint pass_steps (tr : list event) : option (list (bool * bool * bool)) :=
  match tr with
  | [] => Some []
  | EvReadBit r0 :: EvReadBit r1 :: EvWriteBit w :: rest =>
      option_map (cons (r0, r1, w)) (pass_steps rest)
  | _ => None
  end.

(** The positions, counted from [p], of the ambiguous bits (both levels
    low) that were resolved to 0, in increasing order. *)
Fixpoint zero_branches (p : Z) (steps : list (bool * bool * bool)) : list Z :=
  match steps with
  | [] => []
  | (r0, r1, w) :: rest =>
      if negb r0 && negb r1 && negb w then p :: zero_branches (p + 1) rest
      else zero_branches (p + 1) rest
  end.

(** Bit [p] of a ROM code held LSB first in a byte array. *)
Definition address_bit (addr : list Z) (p : Z) : bool :=
  Z.testbit (addr !!! Z.to_nat (p / 8)) (p mod 8).

(** The reading assembled from the two sampled levels. *)
Definition reading_of (l0 l1 : bool) : Z :=
  Z.lor (Z.lor 0 (if l0 then 1 else 0)) (Z.shiftl (if l1 then 1 else 0) 1).

(** The value [_search_next] chooses at an ambiguous position [p]. *)
Definition conflict_value (st : onewire_search_state) (p : Z) : Z :=
  if p =? lastZeroBranch st then 1
  else if p <? lastZeroBranch st then
    u8 (Z.land (address st !!! Z.to_nat (p / 8)) (Z.shiftl 1 (p mod 8)))
  else 0.

(** The steps a lone device with address [d] produces from position [p]:
    it sends its bit, the complement, and the master echoes the bit. *)
Fixpoint single_steps (d p : Z) (n : nat) : list (bool * bool * bool) :=
  match n with
  | O => []
  | S n' =>
      (Z.testbit d p, negb (Z.testbit d p), Z.testbit d p) :: single_steps d (p + 1) n'
  end.

(** The array after [bytes] were stored from index [i] on. *)
Fixpoint fill_from (i : nat) (bytes : list Z) (buffer : list Z) : list Z :=
  match bytes with
  | [] => buffer
  | v :: rest => fill_from (S i) rest (<[i := v]> buffer)
  end.

(** ** CRC validation *)

(** Validation as the driver does it for ROM codes (8 bytes) and scratchpad
    frames (9 bytes): the last byte against the CRC-8 of the bytes before. *)
Definition crc_valid (frame : list Z) : bool :=
  match length frame with
  | O => false
  | S n => frame !!! n =? crc8 frame (Z.of_nat n)
  end.

(** Bit [k] of byte [i] inverted. *)
Definition flip_bit (frame : list Z) (i : nat) (k : Z) : list Z :=
  <[i := Z.lxor (frame !!! i) (Z.shiftl 1 k)]> frame.

(** The eight shifts of one CRC update. *)
Definition crc_shift8 (x : Z) : Z := Nat.iter 8 crc_shift x.

(** [crc8] as a fold over the first [len] bytes. *)
Definition crc_fold (l : list Z) (crc : Z) : Z := fold_left _crc_ibutton_update l crc.

(** All byte values, for properties checked by enumeration. *)
Definition all_bytes : list Z := map Z.of_nat (seq 0 256).

Definition is_byteb (z : Z) : bool := (0 <=? z) && (z <? 256).

(** ** Concrete lines and runs *)

(** A DS2438 ROM code (family 0x26) with serial number bytes [s1], [s2]. *)
Definition rom_code (s1 s2 : Z) : list Z := with_crc [0x26; s1; s2; 0; 0; 0; 0].

(** Four devices whose serial numbers differ in bits 9, 10 and 11. *)
Definition four_devices : list Z :=
  map (fun s => rom_of_bytes (rom_code s 0)) [0x00; 0x02; 0x0A; 0x06].

(** The four devices after "Search ROM". *)
Definition four_devices_line : sim_bus := mkSim four_devices (SimSearch four_devices 0 0).

Definition four_devices_pass : bool * onewire_search_state * sim_bus * list event :=
  Eval vm_compute in _search_next fresh_state four_devices_line.

(** Five bits spread over bit 0 and bits 4..7 of a byte. *)
Definition spread (k : Z) : Z := Z.lor (Z.land k 1) (Z.shiftl (Z.shiftr k 1) 4).

(** 257 devices with distinct serial numbers. *)
Definition many_devices : list Z :=
  map (fun k => rom_of_bytes (rom_code (spread (Z.of_nat k mod 32)) (spread (Z.of_nat k / 32))))
      (seq 0 257).

(** A scratchpad frame for -0.5 degrees: temperature MSB 0xFF, LSB 0x80. *)
Definition cold_frame : list Z := with_crc [0x00; 0x80; 0xFF; 0xF4; 0x01; 0; 0; 0].

(** The scratchpad frames of the end-to-end scenario: 25 degrees, VAD raw
    0x0064 and VDD raw 0x01F4. *)
Definition vad_frame : list Z := with_crc [0x00; 0x30; 0x19; 0x64; 0x00; 0; 0; 0].

Definition vdd_frame : list Z := with_crc [0x00; 0x30; 0x19; 0xF4; 0x01; 0; 0; 0].

(** A device that answers both resets of one scratchpad read and sends
    [vad_frame]. *)
Definition read_line : script_bus :=
  mkScript [true; true] (levels_of_bytes vad_frame).

Definition read_run : Z * list Z * script_bus * list event :=
  Eval vm_compute in ds2438_read_slave 0 (replicate 9 0) read_line.

(** A device that answers all ten resets of a measurement and sends the two
    frames. *)
Definition measure_line : script_bus :=
  mkScript (repeat true 10) (levels_of_bytes (vad_frame ++ vdd_frame)).

(** A device that answers all ten resets of a measurement and sends
    [cold_frame] for both reads. *)
Definition cold_line : script_bus :=
  mkScript (repeat true 10) (levels_of_bytes (cold_frame ++ cold_frame)).

(** Stand-ins for the floating point rendering in concrete runs. *)
Definition plain_temperature (t : Q) : string := "t".

(** A non-negative value with three decimals. *)
Definition three_decimals (t : Q) : string :=
  let m := millis t in
  pretty (m / 1000) +:+ "."
    +:+ (if m mod 1000 <? 100 then "0" else "")
    +:+ (if m mod 1000 <? 10 then "0" else "")
    +:+ pretty (m mod 1000).

Definition plain_humidity (vad vdd : Z) (t : Q) : string := "h".

Definition measure_run : bool * string * script_bus * list event :=
  Eval vm_compute in ds2438_measure plain_temperature plain_humidity "" measure_line.




(** ** Further observations *)

(** The events of a list of bit steps. *)
Definition steps_events (steps : list (bool * bool * bool)) : list event :=
  flat_map (fun s => [EvReadBit s.1.1; EvReadBit s.1.2; EvWriteBit s.2]) steps.

(** What the [switch] of [_search_next] allows for the step (bit level,
    complement level, bit sent) at position [q] when the previous pass left
    [lzb] in [lastZeroBranch]: never two high levels; an unambiguous bit is
    echoed; an ambiguous bit is resolved to 1 at [lzb] and to 0 above it. *)
Definition step_rule (lzb q : Z) (s : bool * bool * bool) : bool :=
  match s with
  | (true, true, _) => false
  | (true, false, w) => w
  | (false, true, w) => negb w
  | (false, false, w) =>
      if q =? lzb then w else if lzb <? q then negb w else true
  end.

Fixpoint steps_rule (lzb p : Z) (steps : list (bool * bool * bool)) : bool :=
  match steps with
  | [] => true
  | s :: rest => step_rule lzb p s && steps_rule lzb (p + 1) rest
  end.

(** The two high levels that make a pass give up. *)
Definition bus_fault : list event := [EvReadBit true; EvReadBit true].

(** A well-formed search state: eight address bytes and a
    [lastZeroBranch] that is -1 or a bit position. *)
Definition state_ok (st : onewire_search_state) : Prop :=
  length (address st) = 8%nat /\ Forall is_byte (address st)
  /\ -1 <= lastZeroBranch st < 64.

(** Whether the step [s] at position [p] leaves a 1 at the later position
    [q] of the address buffer: it does when [p] is an ambiguous position
    below [lzb] that was replayed as 1, [p mod 8] is 1, 2 or 3, and [q] is
    [p + p mod 8] (bit [2 * (p mod 8)] of the same byte). *)
Definition replay_spills (lzb p : Z) (s : bool * bool * bool) (q : Z) : bool :=
  match s with
  | (false, false, true) =>
      (p <? lzb) && (1 <=? p mod 8) && (p mod 8 <=? 3) && (q =? p + p mod 8)
  | _ => false
  end.

(** Whether one of the [steps], which start at position [p], leaves a 1 at
    position [q]. *)
Fixpoint spilled (lzb p : Z) (steps : list (bool * bool * bool)) (q : Z) : bool :=
  match steps with
  | [] => false
  | s :: rest => replay_spills lzb p s q || spilled lzb (p + 1) rest q
  end.

(** The search state and the line after the first two yields on
    [four_devices], the line then brought to the start of a pass. *)
Definition after_two_yields : list (list Z) * onewire_search_state * sim_bus :=
  Eval vm_compute in enumerate 2 fresh_state (sim_with four_devices).

Definition third_pass : bool * onewire_search_state * sim_bus * list event :=
  Eval vm_compute in _search_next after_two_yields.1.2 four_devices_line.

(** Two sensors whose serial numbers differ in bit 8, and the enumeration
    of that line into a buffer of 24 bytes. *)
Definition two_sensors : list Z :=
  map (fun s => rom_of_bytes (rom_code s 0)) [0x00; 0x01].

Definition two_sensors_run : option (Z * list Z) * sim_bus * list event :=
  Eval vm_compute in ds2438_search 5 (replicate 24 7) 24 (sim_with two_sensors).

(** The bits [onewire_write] sends for one byte and for a sequence of
    bytes, in the order they go out on the line. *)
Definition byte_bits (x : Z) : list bool := bits_of_byte 8 (u8 x).

Definition command_bits (bytes : list Z) : list bool := flat_map byte_bits bytes.

(** The bytes [ds2438_read_slave] writes for [page], and those a complete
    [ds2438_measure] writes. *)
Definition read_slave_commands (page : Z) : list Z :=
  [0xCC; kRecallPage; page; 0xCC; kReadScatchPad; page].

Definition measure_commands : list Z :=
  [0xCC; 0x4E; 0x00; 0x00; 0xCC; kConvertTCommand; 0xCC; kConvertVCommand]
  ++ read_slave_commands 0
  ++ [0xCC; 0x4E; 0x00; 0x08; 0xCC; kConvertVCommand]
  ++ read_slave_commands 0.

(** The lowest of the [n] bit positions from [p] at which [x] and [y]
    differ. *)
Fixpoint first_difference (n : nat) (p : Z) (x y : Z) : option Z :=
  match n with
  | O => None
  | S n' =>
      if Bool.eqb (Z.testbit x p) (Z.testbit y p) then first_difference n' (p + 1) x y
      else Some p
  end.

(** * Verification *)

(** ** CRC-8: detection of single-bit faults *)

Lemma in_all_bytes (x : Z) : is_byte x -> In x all_bytes.
Proof.
  intros Hx. unfold all_bytes. apply in_map_iff. exists (Z.to_nat x).
  split; [ unfold is_byte in Hx; lia | apply in_seq; unfold is_byte in Hx; lia ].
Qed.

Lemma byte_forall (P : Z -> bool) :
  forallb P all_bytes = true -> forall x, is_byte x -> P x = true.
Proof.
  intros Hall x Hx. rewrite forallb_forall in Hall. apply Hall, in_all_bytes, Hx.
Qed.

Lemma byte_forall2 (P : Z -> Z -> bool) :
  forallb (fun x => forallb (P x) all_bytes) all_bytes = true ->
  forall x y, is_byte x -> is_byte y -> P x y = true.
Proof.
  intros Hall x y Hx Hy.
  pose proof (byte_forall _ Hall x Hx) as Hrow. cbv beta in Hrow.
  exact (byte_forall _ Hrow y Hy).
Qed.

Lemma is_byteb_spec (z : Z) : is_byteb z = true <-> is_byte z.
Proof. unfold is_byteb, is_byte. rewrite andb_true_iff. lia. Qed.

Lemma crc_shift8_byte (x : Z) : is_byte x -> is_byte (crc_shift8 x).
Proof.
  intros Hx. apply is_byteb_spec.
  revert x Hx. apply byte_forall. vm_compute. reflexivity.
Qed.

Lemma crc_shift8_inj (x y : Z) :
  is_byte x -> is_byte y -> crc_shift8 x = crc_shift8 y -> x = y.
Proof.
  intros Hx Hy Heq.
  assert (Hchk : (negb (crc_shift8 x =? crc_shift8 y) || (x =? y)) = true).
  { revert x y Hx Hy Heq. intros x y Hx Hy _. revert x y Hx Hy.
    apply byte_forall2. vm_compute. reflexivity. }
  rewrite Heq, Z.eqb_refl in Hchk. simpl in Hchk. lia.
Qed.

Lemma lxor_byte (x y : Z) : is_byte x -> is_byte y -> is_byte (Z.lxor x y).
Proof.
  intros Hx Hy. apply is_byteb_spec. revert x y Hx Hy.
  apply byte_forall2. vm_compute. reflexivity.
Qed.

Lemma update_byte (c d : Z) : is_byte c -> is_byte d -> is_byte (_crc_ibutton_update c d).
Proof. intros Hc Hd. apply crc_shift8_byte, lxor_byte; assumption. Qed.

Lemma update_inj_data (c d d' : Z) :
  is_byte c -> is_byte d -> is_byte d' ->
  _crc_ibutton_update c d = _crc_ibutton_update c d' -> d = d'.
Proof.
  intros Hc Hd Hd' Heq.
  apply crc_shift8_inj in Heq; try (apply lxor_byte; assumption).
  apply (f_equal (Z.lxor c)) in Heq.
  rewrite <- !Z.lxor_assoc, !Z.lxor_nilpotent, !Z.lxor_0_l in Heq.
  exact Heq.
Qed.

Lemma update_inj_crc (c c' d : Z) :
  is_byte c -> is_byte c' -> is_byte d ->
  _crc_ibutton_update c d = _crc_ibutton_update c' d -> c = c'.
Proof.
  intros Hc Hc' Hd Heq.
  apply crc_shift8_inj in Heq; try (apply lxor_byte; assumption).
  apply (f_equal (fun z => Z.lxor z d)) in Heq.
  rewrite !Z.lxor_assoc, !Z.lxor_nilpotent, !Z.lxor_0_r in Heq.
  exact Heq.
Qed.

Lemma crc8_loop_fold (data : list Z) (n i : nat) (crc : Z) :
  (i + n <= length data)%nat ->
  crc8_loop data n i crc = crc_fold (take n (drop i data)) crc.
Proof.
  revert i crc. induction n as [|n IH]; intros i crc Hlen; [reflexivity|].
  simpl crc8_loop.
  destruct (lookup_lt_is_Some_2 data i ltac:(lia)) as [x Hx].
  rewrite (drop_S _ _ _ Hx). simpl.
  rewrite (list_lookup_total_correct _ _ _ Hx).
  rewrite IH by lia. reflexivity.
Qed.

Lemma crc8_fold (data : list Z) (n : nat) :
  (n <= 255)%nat -> (n <= length data)%nat ->
  crc8 data (Z.of_nat n) = crc_fold (take n data) 0.
Proof.
  intros Hn Hlen. unfold crc8, u8.
  rewrite Z.mod_small by lia. rewrite Nat2Z.id.
  rewrite crc8_loop_fold by lia. reflexivity.
Qed.

Lemma crc_fold_byte (l : list Z) (c : Z) :
  Forall is_byte l -> is_byte c -> is_byte (crc_fold l c).
Proof.
  revert c. induction l as [|d l IH]; intros c Hl Hc; [exact Hc|].
  inversion Hl; subst. simpl. apply IH; [assumption|]. apply update_byte; assumption.
Qed.

Lemma crc_fold_inj (l : list Z) (c c' : Z) :
  Forall is_byte l -> is_byte c -> is_byte c' ->
  crc_fold l c = crc_fold l c' -> c = c'.
Proof.
  revert c c'. induction l as [|d l IH]; intros c c' Hl Hc Hc' Heq; [exact Heq|].
  inversion Hl; subst. simpl in Heq.
  apply IH in Heq; try assumption; try (apply update_byte; assumption).
  eapply update_inj_crc; eassumption.
Qed.

Lemma crc_fold_app (l1 l2 : list Z) (c : Z) :
  crc_fold (l1 ++ l2) c = crc_fold l2 (crc_fold l1 c).
Proof. unfold crc_fold. apply fold_left_app. Qed.

Lemma flip_byte (b k : Z) :
  is_byte b -> 0 <= k < 8 ->
  is_byte (Z.lxor b (Z.shiftl 1 k)) /\ Z.lxor b (Z.shiftl 1 k) <> b.
Proof.
  intros Hb Hk.
  assert (Hk' : k = 0 \/ k = 1 \/ k = 2 \/ k = 3 \/ k = 4 \/ k = 5 \/ k = 6 \/ k = 7) by lia.
  assert (Hchk : forall j, In j [0;1;2;3;4;5;6;7] ->
            (is_byteb (Z.lxor b (Z.shiftl 1 j)) && negb (Z.lxor b (Z.shiftl 1 j) =? b)) = true).
  { intros j Hj. revert b Hb.
    apply (byte_forall (fun b => is_byteb (Z.lxor b (Z.shiftl 1 j))
                                 && negb (Z.lxor b (Z.shiftl 1 j) =? b))).
    simpl in Hj.
    destruct Hj as [<-|[<-|[<-|[<-|[<-|[<-|[<-|[<-|[]]]]]]]]]; vm_compute; reflexivity. }
  specialize (Hchk k). rewrite andb_true_iff, negb_true_iff, Z.eqb_neq, is_byteb_spec in Hchk.
  apply Hchk. simpl. lia.
Qed.

Lemma crc_valid_snoc (s : list Z) (c : Z) :
  (length s <= 255)%nat ->
  crc_valid (s ++ [c]) = (c =? crc_fold s 0).
Proof.
  intros Hlen. unfold crc_valid.
  rewrite length_app. simpl length. rewrite Nat.add_1_r.
  rewrite crc8_fold by (rewrite ?length_app; simpl; lia).
  rewrite take_app_length.
  rewrite (list_lookup_total_middle s [] c (length s) eq_refl).
  reflexivity.
Qed.

Lemma frame_split (frame : list Z) :
  frame <> [] -> exists s c, frame = s ++ [c].
Proof.
  intros Hne. destruct (exists_last Hne) as (s & c & ->). eauto.
Qed.

Lemma crc_fold_flip (s : list Z) (i : nat) (b' : Z) :
  Forall is_byte s -> (i < length s)%nat -> is_byte b' -> b' <> s !!! i ->
  crc_fold (<[i := b']> s) 0 <> crc_fold s 0.
Proof.
  intros Hs Hi Hb' Hne Heq.
  destruct (lookup_lt_is_Some_2 s i Hi) as [b Hb].
  rewrite (list_lookup_total_correct _ _ _ Hb) in Hne.
  rewrite insert_take_drop in Heq by exact Hi.
  rewrite <- (take_drop_middle s i b Hb) in Heq at 3.
  rewrite !crc_fold_app in Heq. simpl in Heq.
  assert (Hpre : is_byte (crc_fold (take i s) 0)).
  { apply crc_fold_byte; [apply Forall_take, Hs | unfold is_byte; lia]. }
  assert (Hb_byte : is_byte b).
  { rewrite Forall_forall in Hs. apply Hs. eapply list_elem_of_lookup_2, Hb. }
  apply crc_fold_inj in Heq;
    try (apply Forall_drop, Hs); try (apply update_byte; assumption).
  apply update_inj_data in Heq; try assumption. congruence.
Qed.

(** C9. A frame that passes the CRC-8 validation fails it after any single
    bit of any of its bytes is inverted, and a payload followed by its
    [crc8] passes the validation.  Frames are made of bytes and their
    payload length fits the [uint8_t] length parameter of [crc8]. *)
Theorem crc8_single_bit_detection_and_round_trip :
  (forall (frame : list Z) (i : nat) (k : Z),
      Forall is_byte frame -> (length frame <= 256)%nat ->
      crc_valid frame = true -> (i < length frame)%nat -> 0 <= k < 8 ->
      crc_valid (flip_bit frame i k) = false)
  /\ (forall s : list Z, (length s <= 255)%nat ->
      crc_valid (s ++ [crc8 s (Z.of_nat (length s))]) = true).
Proof.
  split.
  - intros frame i k Hbytes Hlen Hvalid Hi Hk.
    destruct (frame_split frame) as (s & c & ->).
    { intros ->. simpl in Hi. lia. }
    rewrite length_app in Hlen, Hi. simpl in Hlen, Hi.
    apply Forall_app in Hbytes as [Hs Hc].
    rewrite crc_valid_snoc in Hvalid by lia. apply Z.eqb_eq in Hvalid.
    unfold flip_bit.
    destruct (decide (i < length s)%nat) as [Hlt|Hge].
    + rewrite insert_app_l by exact Hlt.
      rewrite crc_valid_snoc by (rewrite length_insert; lia).
      apply Z.eqb_neq. rewrite Hvalid. intros Heq. symmetry in Heq. revert Heq.
      rewrite lookup_total_app_l by exact Hlt.
      destruct (flip_byte (s !!! i) k) as [Hb' Hne]; [|exact Hk|].
      { rewrite Forall_forall in Hs. apply Hs. apply list_elem_of_lookup_total_2. exact Hlt. }
      apply crc_fold_flip; assumption.
    + assert (i = length s) as -> by lia.
      rewrite (list_lookup_total_middle s [] c (length s) eq_refl).
      replace (length s) with (length s + 0)%nat at 1 by lia.
      rewrite insert_app_r. simpl.
      rewrite crc_valid_snoc by lia.
      apply Z.eqb_neq. rewrite <- Hvalid.
      apply flip_byte; [|exact Hk]. inversion Hc; assumption.
  - intros s Hlen. rewrite crc_valid_snoc by exact Hlen.
    rewrite crc8_fold by lia. rewrite firstn_all. apply Z.eqb_refl.
Qed.

(** ** Reading a search pass back from its events *)

Section SearchPass.
Context {B : Type} `{OneWireBus B}.

Lemma search_bits_S (n : nat) (p : Z) (st : onewire_search_state) (local : Z) (b : B) :
  search_bits (S n) p st local b =
    let '(l0, b0) := bus_read_slot b in
    let '(l1, b1) := bus_read_slot b0 in
    let reading := Z.lor (Z.lor 0 (if l0 then 1 else 0)) (Z.shiftl (if l1 then 1 else 0) 1) in
    match search_switch st p (u8 (Z.quot p 8)) (u8 (Z.rem p 8)) local reading with
    | None => (false, st, local, b1, [EvReadBit l0; EvReadBit l1])
    | Some (v, local') =>
        let '(res, b3, tr) :=
          search_bits n (p + 1)
            (set_address st (write_address (address st) (u8 (Z.quot p 8)) (u8 (Z.rem p 8)) v))
            local' (bus_write_slot (negb (v =? 0)) b1) in
        (res, b3, EvReadBit l0 :: EvReadBit l1 :: EvWriteBit (negb (v =? 0)) :: tr)
    end.
Proof.
  simpl search_bits. unfold bind, onewire_read_bit, onewire_write_bit, ret.
  destruct (bus_read_slot b) as [l0 b0]. destruct (bus_read_slot b0) as [l1 b1].
  cbv zeta.
  destruct (search_switch _ _ _ _ _ _) as [[v local']|]; [|reflexivity].
  destruct (search_bits n _ _ _ _) as [[res b3] tr]. reflexivity.
Qed.
End SearchPass.

(** ** Bits of the address buffer *)

Lemma u8_byte (x : Z) : is_byte (u8 x).
Proof. unfold is_byte, u8. apply Z.mod_pos_bound. lia. Qed.

Lemma u8_small (x : Z) : is_byte x -> u8 x = x.
Proof. unfold is_byte, u8. intros Hx. apply Z.mod_small. exact Hx. Qed.

Lemma testbit_u8 (x j : Z) : 0 <= j < 8 -> Z.testbit (u8 x) j = Z.testbit x j.
Proof.
  intros Hj. unfold u8. change 256 with (2 ^ 8).
  apply Z.mod_pow2_bits_low. lia.
Qed.

Lemma position_byteIndex (p : Z) : 0 <= p < 64 -> u8 (Z.quot p 8) = p / 8.
Proof.
  intros Hp. rewrite Z.quot_div_nonneg by lia.
  apply u8_small. unfold is_byte. split; [apply Z.div_pos; lia|].
  apply Z.div_lt_upper_bound; lia.
Qed.

Lemma position_bitIndex (p : Z) : 0 <= p < 64 -> u8 (Z.rem p 8) = p mod 8.
Proof.
  intros Hp. rewrite Z.rem_mod_nonneg by lia.
  apply u8_small. unfold is_byte. pose proof (Z.mod_pos_bound p 8). lia.
Qed.

Lemma land_mask_nonzero (x k : Z) :
  0 <= k -> Z.land x (Z.shiftl 1 k) <> 0 -> Z.testbit x k = true.
Proof.
  intros Hk Hne. destruct (Z.testbit x k) eqn:Hbit; [reflexivity|].
  exfalso. apply Hne. apply Z.bits_inj'. intros j Hj.
  rewrite Z.land_spec, Z.bits_0, Z.shiftl_1_l, Z.pow2_bits_eqb by lia.
  destruct (Z.eqb_spec k j) as [->|]; [rewrite Hbit; reflexivity|apply andb_false_r].
Qed.

Lemma write_address_length (a : list Z) (bi k v : Z) :
  length (write_address a bi k v) = length a.
Proof. unfold write_address. destruct (v =? 0); apply length_insert. Qed.

Lemma write_address_bytes (a : list Z) (bi k v : Z) :
  Forall is_byte a -> Forall is_byte (write_address a bi k v).
Proof.
  intros Ha. unfold write_address.
  destruct (v =? 0); apply Forall_insert; auto using u8_byte.
Qed.

Lemma write_address_bit_same (a : list Z) (p v : Z) :
  0 <= p < 64 -> length a = 8%nat ->
  v = 0 \/ v = 1 \/ address_bit a p = true ->
  address_bit (write_address a (p / 8) (p mod 8) v) p = negb (v =? 0).
Proof.
  intros Hp Hlen Hv.
  assert (Hidx : (Z.to_nat (p / 8) < length a)%nat).
  { rewrite Hlen. assert (p / 8 < 8) by (apply Z.div_lt_upper_bound; lia).
    assert (0 <= p / 8) by (apply Z.div_pos; lia). lia. }
  pose proof (Z.mod_pos_bound p 8 ltac:(lia)) as Hk.
  unfold address_bit, write_address.
  destruct (Z.eqb_spec v 0) as [->|Hnz]; simpl negb;
    rewrite list_lookup_total_insert_eq by exact Hidx;
    rewrite testbit_u8 by exact Hk.
  - rewrite Z.land_spec, Z.lnot_spec, Z.shiftl_1_l, Z.pow2_bits_eqb by lia.
    rewrite Z.eqb_refl. apply andb_false_r.
  - rewrite Z.lor_spec, Z.shiftl_spec, Z.sub_diag by lia.
    destruct Hv as [->|[->|Hold]]; [congruence|apply orb_true_r|].
    unfold address_bit in Hold. rewrite Hold. reflexivity.
Qed.

Lemma write_address_bit_below (a : list Z) (p q v : Z) :
  0 <= q < p -> p < 64 ->
  address_bit (write_address a (p / 8) (p mod 8) v) q = address_bit a q.
Proof.
  intros Hq Hp.
  pose proof (Z.mod_pos_bound p 8 ltac:(lia)) as Hk.
  pose proof (Z.mod_pos_bound q 8 ltac:(lia)) as Hj.
  assert (Hdiv : q / 8 <= p / 8) by (apply Z.div_le_mono; lia).
  assert (0 <= q / 8) by (apply Z.div_pos; lia).
  unfold address_bit.
  destruct (decide (q / 8 = p / 8)) as [Heq|Hne].
  - assert (Hlt : q mod 8 < p mod 8).
    { pose proof (Z.div_mod p 8 ltac:(lia)). pose proof (Z.div_mod q 8 ltac:(lia)). lia. }
    rewrite Heq.
    destruct (decide (Z.to_nat (p / 8) < length a)%nat) as [Hidx|Hout].
    + unfold write_address. destruct (v =? 0);
        rewrite list_lookup_total_insert_eq by exact Hidx;
        rewrite testbit_u8 by exact Hj.
      * rewrite Z.land_spec, Z.lnot_spec, Z.shiftl_1_l, Z.pow2_bits_eqb by lia.
        destruct (Z.eqb_spec (p mod 8) (q mod 8)); [lia|apply andb_true_r].
      * rewrite Z.lor_spec, Z.shiftl_spec by lia.
        rewrite (Z.testbit_neg_r v) by lia. apply orb_false_r.
    + unfold write_address. destruct (v =? 0); rewrite list_insert_ge by lia; reflexivity.
  - unfold write_address. destruct (v =? 0);
      rewrite list_lookup_total_insert_ne by lia; reflexivity.
Qed.

Lemma search_switch_levels (st : onewire_search_state) (p local : Z) (l0 l1 : bool) :
  search_switch st p (p / 8) (p mod 8) local (reading_of l0 l1) =
    match l0, l1 with
    | true, true => None
    | true, false => Some (1, local)
    | false, true => Some (0, local)
    | false, false =>
        Some (conflict_value st p, if conflict_value st p =? 0 then p else local)
    end.
Proof. destruct l0, l1; reflexivity. Qed.

Lemma conflict_value_ok (st : onewire_search_state) (p : Z) :
  0 <= p < 64 ->
  conflict_value st p = 0 \/ conflict_value st p = 1
  \/ address_bit (address st) p = true.
Proof.
  intros Hp. unfold conflict_value.
  destruct (p =? lastZeroBranch st); [auto|].
  destruct (p <? lastZeroBranch st); [|auto].
  pose proof (Z.mod_pos_bound p 8 ltac:(lia)) as Hk.
  set (m := Z.land _ _).
  destruct (Z.eq_dec (u8 m) 0) as [Hz|Hnz]; [auto|].
  right; right. unfold address_bit. apply land_mask_nonzero; [lia|].
  intros Hm. apply Hnz. fold m in Hm. rewrite Hm. reflexivity.
Qed.

(** How an ambiguous position is resolved: 1 at the previous
    [lastZeroBranch], 0 above it, and below it the bit that the address
    buffer holds at that moment. *)
Lemma conflict_value_resolution (st : onewire_search_state) (p : Z) :
  0 <= p < 64 ->
  (p = lastZeroBranch st -> conflict_value st p = 1)
  /\ (p < lastZeroBranch st ->
        negb (conflict_value st p =? 0) = address_bit (address st) p)
  /\ (lastZeroBranch st < p -> conflict_value st p = 0).
Proof.
  intros Hp. unfold conflict_value.
  pose proof (Z.mod_pos_bound p 8 ltac:(lia)) as Hk.
  split; [intros ->; rewrite Z.eqb_refl; reflexivity|]. split.
  - intros Hlt.
    destruct (Z.eqb_spec p (lastZeroBranch st)); [lia|].
    destruct (Z.ltb_spec p (lastZeroBranch st)); [|lia].
    unfold address_bit. set (x := address st !!! Z.to_nat (p / 8)).
    destruct (Z.testbit x (p mod 8)) eqn:Hbit.
    + assert (Hone : Z.testbit (u8 (Z.land x (Z.shiftl 1 (p mod 8)))) (p mod 8) = true).
      { rewrite testbit_u8 by exact Hk.
        rewrite Z.land_spec, Hbit, Z.shiftl_1_l, Z.pow2_bits_eqb, Z.eqb_refl by lia.
        reflexivity. }
      destruct (Z.eqb_spec (u8 (Z.land x (Z.shiftl 1 (p mod 8)))) 0) as [Hz|]; [|reflexivity].
      rewrite Hz, Z.bits_0 in Hone. discriminate.
    + destruct (Z.eqb_spec (u8 (Z.land x (Z.shiftl 1 (p mod 8)))) 0) as [|Hnz]; [reflexivity|].
      exfalso. assert (Hland : Z.land x (Z.shiftl 1 (p mod 8)) <> 0).
      { intros Hz. apply Hnz. rewrite Hz. reflexivity. }
      apply land_mask_nonzero in Hland; [congruence|lia].
  - intros Hgt.
    destruct (Z.eqb_spec p (lastZeroBranch st)); [lia|].
    destruct (Z.ltb_spec p (lastZeroBranch st)); [lia|reflexivity].
Qed.

Lemma default_last_cons (d x : Z) (l : list Z) :
  default d (last (x :: l)) = default x (last l).
Proof. rewrite last_cons. destruct (last l); reflexivity. Qed.

Lemma pass_steps_written (tr : list event) :
  forall steps, pass_steps tr = Some steps -> written_bits tr = steps.*2.
Proof.
  assert (Hbound : forall (m : nat) (t : list event), (length t <= m)%nat ->
            forall steps, pass_steps t = Some steps -> written_bits t = steps.*2).
  { induction m as [|m IH]; intros t Hlen steps Hsteps.
    - destruct t; [|simpl in Hlen; lia]. inversion Hsteps. reflexivity.
    - destruct t as [|[| r0 | |] [|[| r1 | |] [|[| | w |] rest]]];
        simpl in Hsteps; try discriminate.
      + inversion Hsteps. reflexivity.
      + destruct (pass_steps rest) as [steps'|] eqn:Hrest; simpl in Hsteps; [|discriminate].
        inversion Hsteps; subst. simpl. f_equal.
        apply IH; [simpl in Hlen; lia | exact Hrest]. }
  exact (Hbound (length tr) tr (Nat.le_refl _)).
Qed.

Section SearchPassFacts.
Context {B : Type} `{OneWireBus B}.

(** One pass over [n] positions from [p] that was not cut short: what the
    events say about the state it leaves. *)
Lemma search_bits_pass (n : nat) :
  forall (p : Z) (st : onewire_search_state) (local : Z) (b : B)
         (st' : onewire_search_state) (local' : Z) (b' : B) (tr : list event),
    0 <= p -> p + Z.of_nat n <= 64 -> length (address st) = 8%nat ->
    search_bits n p st local b = (true, st', local', b', tr) ->
    exists steps,
      pass_steps tr = Some steps /\ length steps = n
      /\ lastZeroBranch st' = lastZeroBranch st /\ done st' = done st
      /\ length (address st') = 8%nat
      /\ local' = default local (last (zero_branches p steps))
      /\ (forall i, (i < n)%nat ->
            address_bit (address st') (p + Z.of_nat i) = (steps !!! i).2)
      /\ (forall q, 0 <= q < p -> address_bit (address st') q = address_bit (address st) q)
      /\ (Forall is_byte (address st) -> Forall is_byte (address st')).
Proof.
  induction n as [|n IH]; intros p st local b st' local' b' tr Hp Hn Hlen Hrun.
  - simpl in Hrun. unfold ret in Hrun. inversion Hrun; subst.
    exists []. repeat split; auto. intros i Hi. lia.
  - rewrite search_bits_S in Hrun.
    destruct (bus_read_slot b) as [l0 b0]. destruct (bus_read_slot b0) as [l1 b1].
    cbv zeta in Hrun.
    rewrite position_byteIndex, position_bitIndex in Hrun by lia.
    change (Z.lor (Z.lor 0 (if l0 then 1 else 0)) (Z.shiftl (if l1 then 1 else 0) 1))
      with (reading_of l0 l1) in Hrun.
    rewrite search_switch_levels in Hrun.
    assert (Hcase : exists v local1,
               match l0, l1 with
               | true, true => None
               | true, false => Some (1, local)
               | false, true => Some (0, local)
               | false, false =>
                   Some (conflict_value st p, if conflict_value st p =? 0 then p else local)
               end = Some (v, local1)
               /\ (v = 0 \/ v = 1 \/ address_bit (address st) p = true)
               /\ local1 = (if negb l0 && negb l1 && negb (negb (v =? 0)) then p else local)).
    { destruct l0, l1; try discriminate; eauto 10.
      exists (conflict_value st p), (if conflict_value st p =? 0 then p else local).
      split; [reflexivity|]. split; [apply conflict_value_ok; lia|].
      simpl. destruct (conflict_value st p =? 0); reflexivity. }
    destruct Hcase as (v & local1 & Hsw & Hv & Hlocal1). rewrite Hsw in Hrun.
    destruct (search_bits n _ _ _ _) as [[[[res st2] local2] b3] tr'] eqn:Hrest.
    inversion Hrun; subst res st2 local2 b3 tr. clear Hrun.
    apply IH in Hrest; [|lia|lia|simpl; rewrite write_address_length; exact Hlen].
    destruct Hrest
      as (steps & Hsteps & Hcount & Hlzb & Hdone & Hlen' & Hloc & Hbits & Hbelow & Hbytes).
    exists ((l0, l1, negb (v =? 0)) :: steps).
    simpl pass_steps. rewrite Hsteps. simpl.
    repeat split; auto.
    + rewrite Hloc, Hlocal1.
      destruct (negb l0 && negb l1 && negb (negb (v =? 0)));
        [rewrite default_last_cons|]; reflexivity.
    + intros [|i] Hi.
      * rewrite Z.add_0_r. rewrite Hbelow by lia. simpl.
        apply write_address_bit_same; [lia|exact Hlen|exact Hv].
      * simpl. replace (p + Z.of_nat (S i)) with (p + 1 + Z.of_nat i) by lia.
        apply Hbits. lia.
    + intros q Hq. rewrite Hbelow by lia. simpl.
      apply write_address_bit_below; lia.
    + intros Hst. apply Hbytes. simpl. apply write_address_bytes, Hst.
Qed.
End SearchPassFacts.

Lemma zero_branches_range (steps : list (bool * bool * bool)) :
  forall p y, In y (zero_branches p steps) -> p <= y < p + Z.of_nat (length steps).
Proof.
  induction steps as [|[[r0 r1] w] rest IH]; intros p y Hin; [destruct Hin|].
  simpl in Hin. simpl length.
  destruct (negb r0 && negb r1 && negb w).
  - destruct Hin as [<-|Hin]; [lia|]. apply IH in Hin. lia.
  - apply IH in Hin. lia.
Qed.

Lemma zero_branches_last_highest (steps : list (bool * bool * bool)) :
  forall p z, last (zero_branches p steps) = Some z ->
    Forall (fun y => y <= z) (zero_branches p steps).
Proof.
  induction steps as [|[[r0 r1] w] rest IH]; intros p z Hlast; [constructor|].
  simpl in *. destruct (negb r0 && negb r1 && negb w); [|apply IH, Hlast].
  rewrite last_cons in Hlast.
  destruct (last (zero_branches (p + 1) rest)) as [z'|] eqn:Hrest.
  - inversion Hlast; subst z'. constructor; [|apply IH, Hrest].
    apply last_Some_elem_of, list_elem_of_In, zero_branches_range in Hrest. lia.
  - inversion Hlast; subst z. apply last_None in Hrest. rewrite Hrest.
    constructor; [lia|constructor].
Qed.

Section SearchPassResults.
Context {B : Type} `{OneWireBus B}.

Lemma search_next_true (st st' : onewire_search_state) (b b' : B) (tr : list event) :
  _search_next st b = (true, st', b', tr) ->
  exists st1 local,
    search_bits 64 0 st (-1) b = (true, st1, local, b', tr)
    /\ st' = (if local =? -1 then set_done st1 true else set_lastZeroBranch st1 local).
Proof.
  unfold _search_next, bind, ret.
  destruct (search_bits 64 0 st (-1) b) as [[[[complete st1] local] b1] tr1].
  destruct complete.
  - destruct (local =? -1) eqn:Hl; intros Heq; inversion Heq; subst;
      exists st1, local; rewrite Hl, app_nil_r; auto.
  - intros Heq. inversion Heq.
Qed.
End SearchPassResults.

(** C4. After a search pass that returns true, bit [p mod 8] of address byte
    [p / 8] is the bit that was chosen and sent for position [p], for every
    [p] from 0 to 63, and the buffer still consists of eight bytes: nothing
    written for another position survives the pass. *)
Theorem search_next_address_holds_chosen_bits :
  forall (B : Type) (bus : OneWireBus B) (st st' : onewire_search_state)
         (b b' : B) (tr : list event),
    length (address st) = 8%nat -> Forall is_byte (address st) ->
    _search_next st b = (true, st', b', tr) ->
    length (written_bits tr) = 64%nat
    /\ length (address st') = 8%nat /\ Forall is_byte (address st')
    /\ forall p, 0 <= p < 64 ->
         address_bit (address st') p = written_bits tr !!! Z.to_nat p.
Proof.
  intros B bus st st' b b' tr Hlen Hbytes Hrun.
  apply search_next_true in Hrun as (st1 & local & Hpass & ->).
  apply search_bits_pass in Hpass; [|lia|simpl; lia|exact Hlen].
  destruct Hpass as (steps & Hsteps & Hcount & _ & _ & Hlen1 & _ & Hbits & _ & Hbytes1).
  rewrite (pass_steps_written _ _ Hsteps).
  assert (Haddr : address (if local =? -1 then set_done st1 true
                           else set_lastZeroBranch st1 local) = address st1)
    by (destruct (local =? -1); reflexivity).
  rewrite Haddr. repeat split; auto.
  - rewrite length_fmap. exact Hcount.
  - intros p Hp. specialize (Hbits (Z.to_nat p) ltac:(lia)).
    rewrite Z.add_0_l, Z2Nat.id in Hbits by lia. rewrite Hbits.
    rewrite (list_lookup_total_fmap snd steps (Z.to_nat p)) by lia. reflexivity.
Qed.

(** ** A line with a single device *)

Lemma single_steps_no_zero_branch (d : Z) (n : nat) :
  forall p q, zero_branches q (single_steps d p n) = [].
Proof.
  induction n as [|n IH]; intros p q; [reflexivity|].
  simpl. destruct (Z.testbit d p); simpl; apply IH.
Qed.

Lemma single_steps_lookup (d : Z) (n : nat) :
  forall p i, (i < n)%nat -> (single_steps d p n !!! i).2 = Z.testbit d (p + Z.of_nat i).
Proof.
  induction n as [|n IH]; intros p i Hi; [lia|].
  destruct i as [|i]; simpl.
  - rewrite Z.add_0_r. reflexivity.
  - rewrite IH by lia. f_equal. lia.
Qed.

Lemma search_bits_single (ds : list Z) (d : Z) (n : nat) :
  forall (p : Z) (st : onewire_search_state) (local : Z),
    0 <= p -> p + Z.of_nat n <= 64 ->
    exists st' local' b' tr,
      search_bits n p st local (mkSim ds (SimSearch [d] p 0)) = (true, st', local', b', tr)
      /\ pass_steps tr = Some (single_steps d p n).
Proof.
  induction n as [|n IH]; intros p st local Hp Hn.
  - eexists _, _, _, _. split; reflexivity.
  - rewrite search_bits_S.
    change (bus_read_slot (mkSim ds (SimSearch [d] p 0)))
      with (Z.testbit d p && true, mkSim ds (SimSearch [d] p 1)).
    cbv iota beta.
    change (bus_read_slot (mkSim ds (SimSearch [d] p 1)))
      with (negb (Z.testbit d p) && true, mkSim ds (SimSearch [d] p 2)).
    cbv iota beta zeta.
    rewrite position_byteIndex, position_bitIndex by lia.
    rewrite !andb_true_r.
    change (Z.lor (Z.lor 0 (if Z.testbit d p then 1 else 0))
              (Z.shiftl (if negb (Z.testbit d p) then 1 else 0) 1))
      with (reading_of (Z.testbit d p) (negb (Z.testbit d p))).
    rewrite search_switch_levels.
    set (st1 v := set_address st (write_address (address st) (p / 8) (p mod 8) v)).
    assert (Hwrite : forall v : Z, Z.testbit d p = negb (v =? 0) ->
              bus_write_slot (negb (v =? 0)) (mkSim ds (SimSearch [d] p 2)) =
              if p + 1 <? 64 then mkSim ds (SimSearch [d] (p + 1) 0) else mkSim ds SimIdle).
    { intros v Hv. change (bus_write_slot ?x ?y) with (sim_write x y).
      unfold sim_write. simpl. rewrite Hv, eqb_reflx. reflexivity. }
    assert (Hnext : forall v local1, Z.testbit d p = negb (v =? 0) ->
              exists st' local' b' tr,
                search_bits n (p + 1) (st1 v) local1
                  (bus_write_slot (negb (v =? 0)) (mkSim ds (SimSearch [d] p 2)))
                = (true, st', local', b', tr)
                /\ pass_steps tr = Some (single_steps d (p + 1) n)).
    { intros v local1 Hv. rewrite (Hwrite v Hv).
      destruct (Z.ltb_spec (p + 1) 64) as [Hlt|Hge].
      - apply IH; lia.
      - destruct n; [|lia]. eexists _, _, _, _. split; reflexivity. }
    destruct (Z.testbit d p) eqn:Hbit; simpl negb at 1 2; cbv iota beta.
    + destruct (Hnext 1 local eq_refl) as (st' & local' & b' & tr & Hrun & Hsteps).
      fold (st1 1). rewrite Hrun. eexists _, _, _, _. split; [reflexivity|].
      simpl. rewrite Hsteps, Hbit. reflexivity.
    + destruct (Hnext 0 local eq_refl) as (st' & local' & b' & tr & Hrun & Hsteps).
      fold (st1 0). rewrite Hrun. eexists _, _, _, _. split; [reflexivity|].
      simpl. rewrite Hsteps, Hbit. reflexivity.
Qed.

Lemma testbit_u8_high (x j : Z) : 8 <= j -> Z.testbit (u8 x) j = false.
Proof.
  intros Hj. unfold u8. change 256 with (2 ^ 8).
  apply Z.mod_pow2_bits_high. lia.
Qed.

Lemma rom_of_bytes_testbit (a : list Z) :
  forall p, 0 <= p ->
    Z.testbit (rom_of_bytes a) p =
      if (Z.to_nat (p / 8) <? length a)%nat then address_bit a p else false.
Proof.
  induction a as [|x a IH]; intros p Hp; [apply Z.bits_0|].
  simpl rom_of_bytes. rewrite Z.lor_spec, Z.shiftl_spec by lia.
  pose proof (Z.div_mod p 8 ltac:(lia)) as Hdm.
  pose proof (Z.mod_pos_bound p 8 ltac:(lia)) as Hmod.
  destruct (Z.lt_ge_cases p 8) as [Hlow|Hhigh].
  - rewrite (Z.testbit_neg_r _ (p - 8)) by lia. rewrite orb_false_r.
    unfold address_bit. rewrite Z.div_small, Z.mod_small by lia. simpl.
    apply testbit_u8. lia.
  - rewrite testbit_u8_high by lia. rewrite orb_false_l.
    rewrite IH by lia. unfold address_bit.
    assert (Hq : p / 8 = (p - 8) / 8 + 1).
    { replace p with ((p - 8) + 1 * 8) at 1 by lia. apply Z.div_add. lia. }
    assert (Hr : p mod 8 = (p - 8) mod 8).
    { replace p with ((p - 8) + 1 * 8) at 1 by lia. apply Z_mod_plus_full. }
    rewrite Hq, Hr.
    assert (0 <= (p - 8) / 8) by (apply Z.div_pos; lia).
    replace (Z.to_nat ((p - 8) / 8 + 1)) with (S (Z.to_nat ((p - 8) / 8))) by lia.
    simpl length.
    change (S ?a <? S ?b)%nat with (a <? b)%nat.
    destruct (Z.to_nat ((p - 8) / 8) <? length a)%nat; reflexivity.
Qed.

Lemma rom_of_bytes_eq (a : list Z) (d : Z) :
  length a = 8%nat -> 0 <= d < 2 ^ 64 ->
  (forall p, 0 <= p < 64 -> address_bit a p = Z.testbit d p) ->
  rom_of_bytes a = d.
Proof.
  intros Hlen Hd Hbits. apply Z.bits_inj'. intros p Hp.
  rewrite rom_of_bytes_testbit by exact Hp. rewrite Hlen.
  destruct (Z.lt_ge_cases p 64) as [Hlow|Hhigh].
  - assert (p / 8 < 8) by (apply Z.div_lt_upper_bound; lia).
    assert (0 <= p / 8) by (apply Z.div_pos; lia).
    destruct (Nat.ltb_spec (Z.to_nat (p / 8)) 8); [|lia].
    apply Hbits. lia.
  - assert (8 <= p / 8) by (apply Z.div_le_lower_bound; lia).
    destruct (Nat.ltb_spec (Z.to_nat (p / 8)) 8); [lia|].
    symmetry. destruct (Z.eq_dec d 0) as [->|Hnz]; [apply Z.bits_0|].
    apply Z.bits_above_log2; [lia|].
    apply Z.lt_le_trans with 64; [|exact Hhigh].
    apply Z.log2_lt_pow2; lia.
Qed.

Lemma onewire_search_sim_start (ds : list Z) (st : onewire_search_state) :
  done st = false -> ds <> [] ->
  onewire_search st (sim_with ds) =
    let '(r, b', tr) := _search_next st (mkSim ds (SimSearch ds 0 0)) in
    (r, b', EvReset true :: search_rom_command ++ tr).
Proof.
  intros Hdone Hne. unfold onewire_search, _search_devices. rewrite Hdone.
  destruct ds as [|d0 ds']; [congruence|].
  assert (Hreset : onewire_reset (sim_with (d0 :: ds'))
                   = (true, mkSim (d0 :: ds') (SimCommand []), [EvReset true]))
    by reflexivity.
  assert (Hcmd : onewire_write 240 (mkSim (d0 :: ds') (SimCommand []))
                 = (tt, mkSim (d0 :: ds') (SimSearch (d0 :: ds') 0 0), search_rom_command))
    by reflexivity.
  unfold bind. rewrite Hreset. cbv beta iota.
  change (negb true) with false. cbv beta iota. rewrite Hcmd.
  destruct (_search_next st _) as [[r b'] tr]. reflexivity.
Qed.

(** C3. A pass that completes all 64 positions sets [done] and keeps
    [lastZeroBranch] when no ambiguous bit was resolved to 0, and otherwise
    sets [lastZeroBranch] to the highest such position and keeps [done]; on
    a line with exactly one device a search step that starts from a
    not-yet-done state returns true with that device's address and [done]
    set. *)
Theorem search_next_completion_and_single_device :
  (forall (B : Type) (bus : OneWireBus B) (st st' : onewire_search_state)
          (b b' : B) (tr : list event),
      length (address st) = 8%nat ->
      _search_next st b = (true, st', b', tr) ->
      exists steps,
        pass_steps tr = Some steps /\ length steps = 64%nat
        /\ match last (zero_branches 0 steps) with
           | None => done st' = true /\ lastZeroBranch st' = lastZeroBranch st
           | Some z =>
               lastZeroBranch st' = z /\ done st' = done st
               /\ Forall (fun y => y <= z) (zero_branches 0 steps)
           end)
  /\ (forall (d : Z) (st : onewire_search_state),
        0 <= d < 2 ^ 64 -> done st = false -> length (address st) = 8%nat ->
        exists st' b' tr,
          onewire_search st (sim_with [d]) = (true, st', b', tr)
          /\ done st' = true /\ rom_of_bytes (address st') = d).
Proof.
  split.
  - intros B bus st st' b b' tr Hlen Hrun.
    apply search_next_true in Hrun as (st1 & local & Hpass & ->).
    apply search_bits_pass in Hpass; [|lia|simpl; lia|exact Hlen].
    destruct Hpass as (steps & Hsteps & Hcount & Hlzb & Hdone & _ & Hloc & _).
    exists steps. split; [exact Hsteps|]. split; [exact Hcount|].
    destruct (last (zero_branches 0 steps)) as [z|] eqn:Hlast; simpl in Hloc; subst local.
    + assert (Hz : 0 <= z).
      { apply last_Some_elem_of, list_elem_of_In, zero_branches_range in Hlast. lia. }
      destruct (Z.eqb_spec z (-1)) as [Hneg|_]; [lia|].
      simpl. split; [reflexivity|]. split; [exact Hdone|].
      apply zero_branches_last_highest, Hlast.
    + simpl. split; [reflexivity|exact Hlzb].
  - intros d st Hd Hdone Hlen.
    rewrite onewire_search_sim_start by (exact Hdone || discriminate).
    destruct (search_bits_single [d] d 64 0 st (-1) ltac:(lia) ltac:(simpl; lia))
      as (st1 & local & b1 & tr1 & Hpass & Hsteps).
    pose proof Hpass as Hfacts.
    apply search_bits_pass in Hfacts; [|lia|simpl; lia|exact Hlen].
    destruct Hfacts as (steps & Hsteps' & _ & _ & _ & Hlen1 & Hloc & Hbits & _).
    assert (steps = single_steps d 0 64) as -> by congruence. clear Hsteps'.
    rewrite single_steps_no_zero_branch in Hloc. simpl in Hloc. subst local.
    unfold _search_next, bind. rewrite Hpass. simpl.
    eexists _, _, _. split; [reflexivity|]. split; [reflexivity|].
    simpl. apply rom_of_bytes_eq; [exact Hlen1|exact Hd|].
    intros p Hp. specialize (Hbits (Z.to_nat p) ltac:(lia)).
    rewrite single_steps_lookup in Hbits by lia.
    rewrite Z.add_0_l, Z2Nat.id in Hbits by lia. exact Hbits.
Qed.

(** ** Byte I/O *)

Lemma land_1_testbit (x : Z) : negb (Z.land x 1 =? 0) = Z.testbit x 0.
Proof.
  change 1 with (Z.ones 1) at 1. rewrite Z.land_ones by lia.
  rewrite Z.bit0_odd. change (2 ^ 1) with 2. rewrite Zmod_odd.
  destruct (Z.odd x); reflexivity.
Qed.

Section ByteIO.
Context {B : Type} `{OneWireBus B}.

Lemma bind_run {A C : Type} (m : M A) (k : A -> M C) (b : B) :
  bind m k b =
    let '(a, b1, t1) := m b in
    let '(c, b2, t2) := k a b1 in
    (c, b2, t1 ++ t2).
Proof. reflexivity. Qed.

Lemma bind_known {A C : Type} (m : M A) (k : A -> M C) (b : B)
    (a : A) (b1 : B) (t1 : list event) :
  m b = (a, b1, t1) -> bind m k b = bind_rest (k a b1) t1.
Proof. intros Hm. unfold bind, bind_rest. rewrite Hm. reflexivity. Qed.

Lemma onewire_reset_run (b : B) :
  exists p b', onewire_reset b = (p, b', [EvReset p]).
Proof.
  unfold onewire_reset. destruct (bus_reset_sample b) as [level b']. eauto.
Qed.

Lemma onewire_write_loop_run (n : nat) :
  forall (byte : Z) (b : B),
    exists b', onewire_write_loop n byte b = (tt, b', map EvWriteBit (bits_of_byte n byte)).
Proof.
  induction n as [|n IH]; intros byte b; [eexists; reflexivity|].
  simpl onewire_write_loop. rewrite bind_run. unfold onewire_write_bit.
  destruct (IH (Z.shiftr byte 1) (bus_write_slot (negb (Z.land byte 1 =? 0)) b)) as [b' Hrun].
  rewrite Hrun. eexists. simpl. rewrite land_1_testbit. reflexivity.
Qed.

Lemma onewire_write_run (byte : Z) (b : B) :
  exists b', onewire_write byte b = (tt, b', map EvWriteBit (bits_of_byte 8 (u8 byte))).
Proof. apply onewire_write_loop_run. Qed.

Lemma onewire_write_events (byte : Z) (b : B) :
  exists b' bits, onewire_write byte b = (tt, b', map EvWriteBit bits).
Proof. destruct (onewire_write_run byte b) as [b' Hrun]. eauto. Qed.

Lemma onewire_read_run (b : B) :
  exists levels b',
    length levels = 8%nat
    /\ onewire_read b = (byte_of_bits levels, b', map EvReadBit levels).
Proof.
  unfold onewire_read. simpl onewire_read_loop. unfold bind, onewire_read_bit, ret.
  destruct (bus_read_slot b) as [l0 b0]. destruct (bus_read_slot b0) as [l1 b1].
  destruct (bus_read_slot b1) as [l2 b2]. destruct (bus_read_slot b2) as [l3 b3].
  destruct (bus_read_slot b3) as [l4 b4]. destruct (bus_read_slot b4) as [l5 b5].
  destruct (bus_read_slot b5) as [l6 b6]. destruct (bus_read_slot b6) as [l7 b7].
  exists [l0; l1; l2; l3; l4; l5; l6; l7], b7. split; [reflexivity|].
  destruct l0, l1, l2, l3, l4, l5, l6, l7; reflexivity.
Qed.
End ByteIO.

(** ** Events of the transactions *)

Lemma reset_results_app (t1 t2 : list event) :
  reset_results (t1 ++ t2) = reset_results t1 ++ reset_results t2.
Proof. apply omap_app. Qed.

Lemma read_levels_app (t1 t2 : list event) :
  read_levels (t1 ++ t2) = read_levels t1 ++ read_levels t2.
Proof. apply omap_app. Qed.

Lemma written_bits_app (t1 t2 : list event) :
  written_bits (t1 ++ t2) = written_bits t1 ++ written_bits t2.
Proof. apply omap_app. Qed.

Lemma reset_results_writes (l : list bool) : reset_results (map EvWriteBit l) = [].
Proof. induction l; [reflexivity|assumption]. Qed.

Lemma reset_results_reads (l : list bool) : reset_results (map EvReadBit l) = [].
Proof. induction l; [reflexivity|assumption]. Qed.

Lemma read_levels_writes (l : list bool) : read_levels (map EvWriteBit l) = [].
Proof. induction l; [reflexivity|assumption]. Qed.

Lemma read_levels_reads (l : list bool) : read_levels (map EvReadBit l) = l.
Proof. induction l as [|x l IH]; [reflexivity|]. simpl. f_equal. exact IH. Qed.

Lemma written_bits_writes (l : list bool) : written_bits (map EvWriteBit l) = l.
Proof. induction l as [|x l IH]; [reflexivity|]. simpl. f_equal. exact IH. Qed.

Lemma written_bits_reads (l : list bool) : written_bits (map EvReadBit l) = [].
Proof. induction l; [reflexivity|assumption]. Qed.

Lemma reset_results_reset (v : bool) (t : list event) :
  reset_results (EvReset v :: t) = v :: reset_results t.
Proof. reflexivity. Qed.

Lemma read_levels_reset (v : bool) (t : list event) :
  read_levels (EvReset v :: t) = read_levels t.
Proof. reflexivity. Qed.

Lemma written_bits_reset (v : bool) (t : list event) :
  written_bits (EvReset v :: t) = written_bits t.
Proof. reflexivity. Qed.

Lemma reset_results_nil : reset_results [] = [].
Proof. reflexivity. Qed.

Lemma read_levels_nil : read_levels [] = [].
Proof. reflexivity. Qed.

Lemma written_bits_nil : written_bits [] = [].
Proof. reflexivity. Qed.

Create Rewrite HintDb events.
#[export] Hint Rewrite reset_results_app read_levels_app written_bits_app
  reset_results_writes reset_results_reads read_levels_writes read_levels_reads
  written_bits_writes written_bits_reads
  reset_results_reset read_levels_reset written_bits_reset
  reset_results_nil read_levels_nil written_bits_nil @app_nil_r @app_nil_l : events.

Lemma bits_of_byte_of_bits (levels : list bool) :
  length levels = 8%nat -> bits_of_byte 8 (byte_of_bits levels) = levels.
Proof.
  intros Hlen.
  do 8 (destruct levels as [|l levels]; [discriminate Hlen|]; destruct l);
    (destruct levels; [reflexivity|discriminate Hlen]).
Qed.

Lemma byte_of_bits_byte (levels : list bool) :
  length levels = 8%nat -> is_byte (byte_of_bits levels).
Proof.
  intros Hlen. unfold is_byte.
  do 8 (destruct levels as [|l levels]; [discriminate Hlen|]; destruct l);
    (destruct levels; [vm_compute; split; congruence|discriminate Hlen]).
Qed.

Lemma fill_from_app (bytes : list Z) :
  forall (pre old : list Z),
    length old = length bytes ->
    fill_from (length pre) bytes (pre ++ old) = pre ++ bytes.
Proof.
  induction bytes as [|v bytes IH]; intros pre old Hlen.
  - destruct old; [reflexivity|discriminate].
  - destruct old as [|o old]; [discriminate|]. simpl.
    replace (length pre) with (length pre + 0)%nat at 2 by lia.
    rewrite insert_app_r. simpl.
    specialize (IH (pre ++ [v]) old ltac:(simpl in Hlen; lia)).
    rewrite length_app, Nat.add_1_r in IH. rewrite <- !app_assoc in IH.
    exact IH.
Qed.

Lemma fill_from_all (bytes buffer : list Z) :
  length buffer = length bytes -> fill_from 0 bytes buffer = bytes.
Proof. intros Hlen. exact (fill_from_app bytes [] buffer Hlen). Qed.

(** Run the [onewire_write] at the head of the computation in [H]. *)
Ltac run_write H :=
  match type of H with
  | context [bind (onewire_write ?x) ?k ?b] =>
      let b' := fresh "b" in
      let bits := fresh "bits" in
      let Hw := fresh "Hw" in
      destruct (onewire_write_events x b) as (b' & bits & Hw);
      rewrite (bind_known _ k _ _ _ _ Hw) in H;
      cbv beta in H
  end.

Section Transactions.
Context {B : Type} `{OneWireBus B}.

Lemma read_scratchpad_run (n : nat) :
  forall (i : nat) (buffer : list Z) (b : B),
    exists bytes b',
      length bytes = n /\ Forall is_byte bytes
      /\ read_scratchpad n i buffer b
         = (fill_from i bytes buffer, b', map EvReadBit (levels_of_bytes bytes)).
Proof.
  induction n as [|n IH]; intros i buffer b.
  - exists [], b. repeat split; constructor.
  - simpl read_scratchpad. rewrite bind_run.
    destruct (onewire_read_run b) as (levels & b1 & Hlen & ->).
    destruct (IH (S i) (<[i := byte_of_bits levels]> buffer) b1) as (bytes & b2 & Hn & Hbytes & ->).
    exists (byte_of_bits levels :: bytes), b2.
    split; [simpl; lia|]. split; [constructor; auto using byte_of_bits_byte|].
    change (levels_of_bytes (byte_of_bits levels :: bytes))
      with (bits_of_byte 8 (byte_of_bits levels) ++ levels_of_bytes bytes).
    rewrite bits_of_byte_of_bits by exact Hlen.
    rewrite map_app. reflexivity.
Qed.

(** The outcomes of [ds2438_read_slave]. *)
Lemma read_slave_cases (page : Z) (buffer : list Z) (b : B)
    (status : Z) (buffer' : list Z) (b' : B) (tr : list event) :
  length buffer = 9%nat ->
  ds2438_read_slave page buffer b = (status, buffer', b', tr) ->
  (status = kDS2438_DeviceNotFound /\ buffer' = buffer
   /\ (reset_results tr = [false] \/ reset_results tr = [true; false])
   /\ read_levels tr = [])
  \/ (length buffer' = 9%nat /\ Forall is_byte buffer'
      /\ status = (if crc8 buffer' 8 =? buffer' !!! 8%nat then 0 else kDS2438_CrcCheckFailed)
      /\ reset_results tr = [true; true]
      /\ read_levels tr = levels_of_bytes buffer').
Proof.
  intros Hlen Hrun. unfold ds2438_read_slave in Hrun.
  destruct (onewire_reset_run b) as (p1 & b1 & Hr1).
  rewrite (bind_known _ _ _ _ _ _ Hr1) in Hrun.
  destruct p1; cbn [negb] in Hrun.
  2: { cbv beta iota delta [bind_rest ret] in Hrun.
       injection Hrun as <- <- <- <-. left. autorewrite with events. auto. }
  run_write Hrun. run_write Hrun. run_write Hrun.
  match type of Hrun with context [bind onewire_reset ?k ?b] =>
    destruct (onewire_reset_run b) as (p2 & b5 & Hr2);
    rewrite (bind_known _ k _ _ _ _ Hr2) in Hrun
  end.
  destruct p2; cbn [negb] in Hrun.
  2: { cbv beta iota delta [bind_rest ret] in Hrun.
       injection Hrun as <- <- <- <-. left. autorewrite with events. auto. }
  run_write Hrun. run_write Hrun. run_write Hrun.
  match type of Hrun with context [bind (read_scratchpad 9 0 buffer) ?k ?b] =>
    destruct (read_scratchpad_run 9 0 buffer b) as (bytes & b9 & Hn & Hbytes & Hrd);
    rewrite (bind_known _ k _ _ _ _ Hrd) in Hrun
  end.
  rewrite fill_from_all in Hrun by congruence.
  unfold kScratchPad_CRC in Hrun.
  right.
  destruct (crc8 bytes 8 =? bytes !!! 8%nat) eqn:Hcrc; cbn [negb] in Hrun;
    cbv beta iota delta [bind_rest ret] in Hrun;
    injection Hrun as <- <- <- <-;
    rewrite Hcrc; autorewrite with events; auto.
Qed.
End Transactions.

Lemma byte_of_bits_of_byte (x : Z) :
  is_byte x -> byte_of_bits (bits_of_byte 8 x) = x.
Proof.
  intros Hx. apply Z.eqb_eq. revert x Hx.
  apply (byte_forall (fun x => byte_of_bits (bits_of_byte 8 x) =? x)).
  vm_compute. reflexivity.
Qed.

Lemma length_bits_of_byte (n : nat) : forall byte, length (bits_of_byte n byte) = n.
Proof. induction n as [|n IH]; intros byte; [reflexivity|]. simpl. f_equal. apply IH. Qed.

Lemma length_levels_of_bytes (bytes : list Z) :
  length (levels_of_bytes bytes) = (8 * length bytes)%nat.
Proof.
  unfold levels_of_bytes. induction bytes as [|x bytes IH]; [reflexivity|].
  change (concat (map (bits_of_byte 8) (x :: bytes)))
    with (bits_of_byte 8 x ++ concat (map (bits_of_byte 8) bytes)).
  rewrite length_app, length_bits_of_byte, IH. simpl length. lia.
Qed.

Lemma levels_of_bytes_app (l1 l2 : list Z) :
  levels_of_bytes (l1 ++ l2) = levels_of_bytes l1 ++ levels_of_bytes l2.
Proof. unfold levels_of_bytes. rewrite map_app. apply concat_app. Qed.

Lemma crc_valid_frame9 (frame : list Z) :
  length frame = 9%nat -> crc_valid frame = (crc8 frame 8 =? frame !!! 8%nat).
Proof. intros Hlen. unfold crc_valid. rewrite Hlen. apply Z.eqb_sym. Qed.

Lemma crc_valid_rom (state : onewire_search_state) :
  length (address state) = 8%nat ->
  onewire_check_rom_crc state = crc_valid (address state).
Proof. intros Hlen. unfold crc_valid, onewire_check_rom_crc. rewrite Hlen. reflexivity. Qed.

(** C7. [ds2438_read_slave] makes at most two resets.  It returns
    DeviceNotFound exactly when one of them saw no presence pulse, and then
    it has read nothing and left the buffer alone; otherwise it has read
    nine bytes (72 slots) into the buffer and returns CrcCheckFailed exactly
    when the CRC-8 of the first eight differs from the ninth, and 0 exactly
    when they agree. *)
Theorem read_slave_status :
  forall (B : Type) (bus : OneWireBus B) (page : Z) (buffer : list Z) (b : B)
         (status : Z) (buffer' : list Z) (b' : B) (tr : list event),
    length buffer = 9%nat ->
    ds2438_read_slave page buffer b = (status, buffer', b', tr) ->
    (length (reset_results tr) <= 2)%nat
    /\ (status = kDS2438_DeviceNotFound <-> In false (reset_results tr))
    /\ (In false (reset_results tr) -> read_levels tr = [] /\ buffer' = buffer)
    /\ (~ In false (reset_results tr) ->
          length buffer' = 9%nat /\ Forall is_byte buffer'
          /\ read_levels tr = levels_of_bytes buffer'
          /\ length (read_levels tr) = 72%nat
          /\ (status = kDS2438_CrcCheckFailed <-> crc8 buffer' 8 <> buffer' !!! 8%nat)
          /\ (status = 0 <-> crc8 buffer' 8 = buffer' !!! 8%nat)).
Proof.
  intros B bus page buffer b status buffer' b' tr Hlen Hrun.
  apply read_slave_cases in Hrun; [|exact Hlen].
  destruct Hrun as [(-> & -> & Hresets & Hreads)|(Hlen' & Hbytes & -> & Hresets & Hreads)].
  - assert (Hin : In false (reset_results tr))
      by (destruct Hresets as [->| ->]; simpl; auto).
    split; [destruct Hresets as [->| ->]; simpl; lia|].
    split; [tauto|]. split; [auto|]. intros Hnot. contradiction.
  - rewrite Hresets. split; [simpl; lia|].
    assert (Hnot : ~ In false [true; true]) by (simpl; intuition discriminate).
    split.
    { split; [|intros Hin; contradiction].
      destruct (crc8 buffer' 8 =? buffer' !!! 8%nat); discriminate. }
    split; [intros Hin; contradiction|]. intros _.
    split; [exact Hlen'|]. split; [exact Hbytes|]. split; [exact Hreads|].
    split; [rewrite Hreads, length_levels_of_bytes, Hlen'; reflexivity|].
    destruct (Z.eqb_spec (crc8 buffer' 8) (buffer' !!! 8%nat)) as [Heq|Hne].
    + split; split; intros; try reflexivity; try discriminate; try assumption; contradiction.
    + split; split; intros; try reflexivity; try discriminate; try assumption; contradiction.
Qed.

(** ** The measurement sequence *)

(** Run the [onewire_reset] at the head of the computation in [H] and split
    on its answer; a missing presence pulse is the second goal. *)
Ltac run_reset H p :=
  match type of H with
  | context [bind onewire_reset ?k ?b] =>
      let b' := fresh "b" in
      let Hr := fresh "Hr" in
      destruct (onewire_reset_run b) as (p & b' & Hr);
      rewrite (bind_known _ k _ _ _ _ Hr) in H;
      cbv beta in H;
      destruct p; cbn [negb] in H; cbv iota in H
  end.

(** Run the [ds2438_read_slave] at the head of the computation in [H]. *)
Ltac run_read_slave H status frame tr Hcases :=
  match type of H with
  | context [bind (ds2438_read_slave ?page ?buf) ?k ?b] =>
      let b' := fresh "b" in
      destruct (ds2438_read_slave page buf b) as [[[status frame] b'] tr] eqn:Hcases;
      rewrite (bind_known _ k _ _ _ _ Hcases) in H;
      cbv beta iota in H;
      apply read_slave_cases in Hcases; [|first [reflexivity|assumption]]
  end.

Lemma status_ok_checks :
  (0 =? kDS2438_CrcCheckFailed) = false /\ (0 =? kDS2438_DeviceNotFound) = false
  /\ (kDS2438_CrcCheckFailed =? kDS2438_CrcCheckFailed) = true
  /\ (kDS2438_DeviceNotFound =? kDS2438_CrcCheckFailed) = false
  /\ (kDS2438_DeviceNotFound =? kDS2438_DeviceNotFound) = true.
Proof. repeat split. Qed.


(** ** The frames read off a trace *)

Lemma levels_of_bytes_cons (x : Z) (bytes : list Z) :
  levels_of_bytes (x :: bytes) = bits_of_byte 8 x ++ levels_of_bytes bytes.
Proof. reflexivity. Qed.

Lemma bytes_of_levels_of_bytes (bytes : list Z) (rest : list bool) :
  Forall is_byte bytes ->
  bytes_of_levels (length bytes) (levels_of_bytes bytes ++ rest) = bytes.
Proof.
  induction 1 as [|x bytes Hx _ IH]; [reflexivity|].
  rewrite levels_of_bytes_cons, <- app_assoc.
  cbn [length bytes_of_levels].
  rewrite (take_app_length' (bits_of_byte 8 x) _ 8) by (rewrite length_bits_of_byte; reflexivity).
  rewrite (drop_app_length' (bits_of_byte 8 x) _ 8) by (rewrite length_bits_of_byte; reflexivity).
  rewrite byte_of_bits_of_byte by exact Hx. rewrite IH. reflexivity.
Qed.

Lemma frames_of_levels_frames (frames : list (list Z)) :
  Forall (fun f => length f = 9%nat /\ Forall is_byte f) frames ->
  frames_of_levels (length frames) (levels_of_bytes (concat frames)) = frames.
Proof.
  induction 1 as [|f frames [Hlen Hbytes] _ IH]; [reflexivity|].
  cbn [concat length frames_of_levels]. rewrite levels_of_bytes_app.
  assert (Hl : length (levels_of_bytes f) = 72%nat)
    by (rewrite length_levels_of_bytes, Hlen; reflexivity).
  rewrite (take_app_length' (levels_of_bytes f) _ 72) by (symmetry; exact Hl).
  rewrite (drop_app_length' (levels_of_bytes f) _ 72) by (symmetry; exact Hl).
  rewrite IH. f_equal.
  rewrite <- (app_nil_r (levels_of_bytes f)), <- Hlen.
  apply bytes_of_levels_of_bytes, Hbytes.
Qed.

(** Frames of nine bytes are read back from the levels they were sent
    as. *)
Lemma frames_read_frames (tr : list event) (frames : list (list Z)) :
  Forall (fun f => length f = 9%nat /\ Forall is_byte f) frames ->
  read_levels tr = levels_of_bytes (concat frames) ->
  frames_read tr = frames.
Proof.
  intros Hframes Hlevels. unfold frames_read. rewrite Hlevels.
  assert (Hcount : length (concat frames) = (length frames * 9)%nat).
  { clear Hlevels. induction Hframes as [|f frames [Hlen _] _ IH]; [reflexivity|].
    cbn [concat length]. rewrite length_app, Hlen, IH. lia. }
  rewrite length_levels_of_bytes, Hcount.
  replace (8 * (length frames * 9))%nat with (length frames * 72)%nat by lia.
  rewrite Nat.div_mul by discriminate.
  apply frames_of_levels_frames, Hframes.
Qed.

Section Measure.
Context {B : Type} `{OneWireBus B}.
Variable render_temperature : Q -> string.
Variable render_humidity : Z -> Z -> Q -> string.

Abbreviation measure := (ds2438_measure render_temperature render_humidity).
Abbreviation line := (sprintf_TH render_temperature render_humidity).


(** The outcomes of [ds2438_measure]. *)
Lemma measure_cases (output : string) (b : B)
    (result : bool) (output' : string) (b' : B) (tr : list event) :
  measure output b = (result, output', b', tr) ->
  (result = false /\ output' = output
   /\ (In false (reset_results tr)
       \/ exists pre frame,
            Forall (fun f => length f = 9%nat /\ Forall is_byte f) (pre ++ [frame])
            /\ read_levels tr = levels_of_bytes (concat (pre ++ [frame]))
            /\ crc_valid frame = false))
  \/ (result = true /\ reset_results tr = repeat true 10
      /\ exists frame1 frame2,
           length frame1 = 9%nat /\ length frame2 = 9%nat
           /\ Forall is_byte frame1 /\ Forall is_byte frame2
           /\ read_levels tr = levels_of_bytes (frame1 ++ frame2)
           /\ crc_valid frame1 = true /\ crc_valid frame2 = true
           /\ output' = line (raw_voltage frame1) (raw_voltage frame2)
                          (temperature (temp_integer frame2) (temp_frac frame2))).
Proof.
  intros Hrun. unfold ds2438_measure in Hrun.
  destruct status_ok_checks as (Hc1 & Hc2 & Hc3 & Hc4 & Hc5).
  assert (Hfail : forall t1 t2, In false (reset_results (t1 ++ EvReset false :: t2))).
  { intros t1 t2. rewrite reset_results_app, reset_results_reset.
    apply in_or_app. right. left. reflexivity. }
  run_reset Hrun p1.
  2: { cbv beta iota delta [bind_rest ret] in Hrun. injection Hrun as <- <- <- <-.
       left. simpl. auto. }
  run_write Hrun. run_write Hrun. run_write Hrun. run_write Hrun.
  run_reset Hrun p2.
  2: { cbv beta iota delta [bind_rest ret] in Hrun. injection Hrun as <- <- <- <-.
       left. split; [reflexivity|]. split; [reflexivity|]. left.
       autorewrite with events. simpl. auto. }
  run_write Hrun. run_write Hrun.
  run_reset Hrun p3.
  2: { cbv beta iota delta [bind_rest ret] in Hrun. injection Hrun as <- <- <- <-.
       left. split; [reflexivity|]. split; [reflexivity|]. left.
       autorewrite with events. simpl. auto. }
  run_write Hrun. run_write Hrun.
  run_read_slave Hrun status1 frame1 tr1 Hrs1.
  destruct Hrs1 as [(-> & -> & Hresets1 & Hreads1)|(Hlen1 & Hbytes1 & -> & Hresets1 & Hreads1)].
  { rewrite Hc4, Hc5 in Hrun.
    cbv beta iota delta [bind_rest ret] in Hrun. injection Hrun as <- <- <- <-.
    left. split; [reflexivity|]. split; [reflexivity|]. left.
    autorewrite with events. destruct Hresets1 as [-> | ->]; simpl; auto 10. }
  destruct (crc8 frame1 8 =? frame1 !!! 8%nat) eqn:Hcrc1.
  2: { rewrite Hc3 in Hrun.
       cbv beta iota delta [bind_rest ret] in Hrun. injection Hrun as <- <- <- <-.
       left. split; [reflexivity|]. split; [reflexivity|]. right.
       exists [], frame1. split; [repeat constructor; assumption|].
       split; [autorewrite with events; rewrite Hreads1; cbn [app concat];
               rewrite app_nil_r; reflexivity|].
       rewrite crc_valid_frame9 by exact Hlen1. exact Hcrc1. }
  rewrite Hc1, Hc2 in Hrun. cbv zeta in Hrun.
  run_reset Hrun p4.
  2: { cbv beta iota delta [bind_rest ret] in Hrun. injection Hrun as <- <- <- <-.
       left. split; [reflexivity|]. split; [reflexivity|]. left.
       autorewrite with events. rewrite Hresets1. simpl. auto 10. }
  run_write Hrun. run_write Hrun. run_write Hrun. run_write Hrun.
  run_reset Hrun p5.
  2: { cbv beta iota delta [bind_rest ret] in Hrun. injection Hrun as <- <- <- <-.
       left. split; [reflexivity|]. split; [reflexivity|]. left.
       autorewrite with events. rewrite Hresets1. simpl. auto 10. }
  run_write Hrun. run_write Hrun.
  run_reset Hrun p6.
  2: { cbv beta iota delta [bind_rest ret] in Hrun. injection Hrun as <- <- <- <-.
       left. split; [reflexivity|]. split; [reflexivity|]. left.
       autorewrite with events. rewrite Hresets1. simpl. auto 10. }
  run_read_slave Hrun status2 frame2 tr2 Hrs2.
  destruct Hrs2 as [(-> & -> & Hresets2 & Hreads2)|(Hlen2 & Hbytes2 & -> & Hresets2 & Hreads2)].
  { rewrite Hc4, Hc5 in Hrun.
    cbv beta iota delta [bind_rest ret] in Hrun. injection Hrun as <- <- <- <-.
    left. split; [reflexivity|]. split; [reflexivity|]. left.
    autorewrite with events. rewrite Hresets1.
    destruct Hresets2 as [-> | ->]; simpl; auto 20. }
  destruct (crc8 frame2 8 =? frame2 !!! 8%nat) eqn:Hcrc2.
  2: { rewrite Hc3 in Hrun.
       cbv beta iota delta [bind_rest ret] in Hrun. injection Hrun as <- <- <- <-.
       left. split; [reflexivity|]. split; [reflexivity|]. right.
       exists [frame1], frame2. split; [repeat constructor; assumption|].
       split; [autorewrite with events; rewrite Hreads1, Hreads2; cbn [app concat];
               rewrite app_nil_r, levels_of_bytes_app; reflexivity|].
       rewrite crc_valid_frame9 by exact Hlen2. exact Hcrc2. }
  rewrite Hc1, Hc2 in Hrun. cbv zeta in Hrun.
  cbv beta iota delta [bind_rest ret] in Hrun. injection Hrun as <- <- <- <-.
  right. split; [reflexivity|].
  split; [autorewrite with events; rewrite Hresets1, Hresets2; reflexivity|].
  exists frame1, frame2. autorewrite with events. rewrite Hreads1, Hreads2.
  rewrite levels_of_bytes_app, !crc_valid_frame9 by assumption. auto 10.
Qed.
End Measure.


(** C6. On a line where the first reset sees no presence pulse,
    [ds2438_search] reports zero devices and leaves the buffer alone,
    [_search_devices] returns false with the search state untouched,
    [ds2438_measure] returns false, and none of them sends a single write
    slot: the only event is the failed reset. *)
Theorem no_presence_no_command :
  forall (B : Type) (bus : OneWireBus B)
         (render_temperature : Q -> string)
         (render_humidity : Z -> Z -> Q -> string)
         (b : B) (fuel : nat) (buf : list Z) (len : Z) (output : string)
         (state : onewire_search_state) (command : Z),
    fst (bus_reset_sample b) = true ->
    (exists b', ds2438_search (S fuel) buf len b = (Some (0, buf), b', [EvReset false]))
    /\ (exists b' tr, _search_devices command state b = (false, state, b', tr)
                      /\ written_bits tr = [])
    /\ (exists b', ds2438_measure render_temperature render_humidity output b
                   = (false, output, b', [EvReset false]))
    /\ written_bits [EvReset false] = [].
Proof.
  intros B bus rt rh b fuel buf len output state command Hline.
  assert (Hreset : exists b1, onewire_reset b = (false, b1, [EvReset false])).
  { unfold onewire_reset. destruct (bus_reset_sample b) as [level b1].
    simpl in Hline. subst level. eauto. }
  destruct Hreset as [b1 Hreset].
  assert (Hdev : forall cmd st, done st = false ->
            _search_devices cmd st b = (false, st, b1, [EvReset false])).
  { intros cmd st Hdone. unfold _search_devices. rewrite Hdone.
    rewrite (bind_known _ _ _ _ _ _ Hreset). reflexivity. }
  split; [|split; [|split]].
  - exists b1. unfold ds2438_search. generalize (u16 len). intros cap.
    simpl ds2438_search_loop. unfold onewire_search.
    rewrite (bind_known _ _ _ _ _ _ (Hdev 240 fresh_state eq_refl)). reflexivity.
  - destruct (done state) eqn:Hdone.
    + exists b, []. unfold _search_devices. rewrite Hdone. split; reflexivity.
    + exists b1, [EvReset false]. split; [apply Hdev, Hdone|reflexivity].
  - exists b1. unfold ds2438_measure.
    rewrite (bind_known _ _ _ _ _ _ Hreset). reflexivity.
  - reflexivity.
Qed.

(** ** The enumeration on concrete lines *)

Lemma onewire_search_done {B : Type} `{OneWireBus B} (st : onewire_search_state) (b : B) :
  done st = true -> onewire_search st b = (false, st, b, []).
Proof. intros Hdone. unfold onewire_search, _search_devices. rewrite Hdone. reflexivity. Qed.

(** C1 (the code departs from it). Four DS2438 devices with valid ROM codes
    whose serial numbers are 0x00, 0x02, 0x0A and 0x06: starting from the
    fresh state, the search returns true three times, yielding the first,
    the second and the fourth, sets [done] with the third yield, and never
    yields serial number 0x0A. *)
Theorem search_misses_a_device :
  NoDup four_devices /\ length four_devices = 4%nat
  /\ Forall (fun d => crc_valid (bytes_of_rom 8 d) = true) four_devices
  /\ let '(found, final, b) := enumerate 10 fresh_state (sim_with four_devices) in
     found = [rom_code 0x00 0; rom_code 0x02 0; rom_code 0x06 0]
     /\ ~ In (rom_code 0x0A 0) found
     /\ done final = true
     /\ onewire_search final b = (false, final, b, []).
Proof.
  split; [apply (bool_decide_unpack _); vm_compute; reflexivity|].
  split; [reflexivity|].
  split; [repeat constructor|].
  destruct (enumerate 10 fresh_state (sim_with four_devices)) as [[found final] b] eqn:Hrun.
  vm_compute in Hrun. injection Hrun as <- <- <-.
  split; [vm_compute; reflexivity|].
  split; [vm_compute; intuition discriminate|].
  split; [reflexivity|]. apply onewire_search_done. reflexivity.
Qed.

(** C2 (the code departs from it). On the same four devices, the third
    search call starts with [lastZeroBranch] 11 and bit 10 of the previous
    address clear; position 10 is ambiguous (both levels read low) and lies
    below [lastZeroBranch], yet the call resolves it to 1: handling the
    ambiguous position 9 has set bit 10 in the buffer before it is
    replayed. *)
Theorem replay_reads_overwritten_bit :
  let '(_, previous, b) := enumerate 2 fresh_state (sim_with four_devices) in
  let '(ok, _, _, tr) := onewire_search previous b in
  lastZeroBranch previous = 11
  /\ address_bit (address previous) 10 = false
  /\ ok = true
  /\ exists steps,
       pass_steps (drop 9 tr) = Some steps
       /\ steps !! 9%nat = Some (false, false, true)
       /\ steps !! 10%nat = Some (false, false, true).
Proof.
  destruct (enumerate 2 fresh_state (sim_with four_devices)) as [[found previous] b] eqn:Hrun.
  vm_compute in Hrun. injection Hrun as _ <- <-.
  destruct (onewire_search _ _) as [[[ok st3] b3] tr] eqn:Hcall.
  vm_compute in Hcall. injection Hcall as <- _ _ <-.
  split; [reflexivity|]. split; [reflexivity|]. split; [reflexivity|].
  eexists. split; [vm_compute; reflexivity|]. split; reflexivity.
Qed.

(** C5 (the code departs from it). 257 devices with valid ROM codes and a
    buffer of 4096 bytes: [ds2438_search] copies 257 distinct codes into the
    buffer and reports 1 in [*found]; the [uint8_t] counter wrapped. *)
Theorem search_count_wraps :
  let run := ds2438_search 300 (replicate 4096 0) 4096 (sim_with many_devices) in
  let codes := (stored_codes run.2).*2 in
  NoDup many_devices /\ length many_devices = 257%nat
  /\ option_map fst run.1.1 = Some 1
  /\ length codes = 257%nat
  /\ NoDup codes
  /\ Forall (fun c => crc_valid c = true) codes.
Proof.
  cbv zeta.
  split; [apply (bool_decide_unpack _); vm_compute; reflexivity|].
  split; [reflexivity|].
  split; [vm_compute; reflexivity|].
  split; [vm_compute; reflexivity|].
  split; apply (bool_decide_unpack _); vm_compute; reflexivity.
Qed.

(** ** The temperature fields *)

(** C10 as stated fails: the integer part is not a signed reading of the
    MSB byte.  For the frame of -0.5 degrees (MSB 0xFF) the code takes 255,
    the temperature it computes from 255 and 512 is 255.512 to three
    decimals, and that is what [ds2438_measure] formats. *)
Lemma temp_integer_is_not_signed :
  crc_valid cold_frame = true
  /\ temp_integer cold_frame = 255
  /\ s8 (cold_frame !!! kScratchPad_TMSB) = -1
  /\ temp_integer cold_frame <> s8 (cold_frame !!! kScratchPad_TMSB)
  /\ temp_frac cold_frame = 512
  /\ millis (temperature (temp_integer cold_frame) (temp_frac cold_frame)) = 255512
  /\ (ds2438_measure three_decimals plain_humidity "" cold_line).1.1
     = (true, "TH;255.512;h" +:+ CRLF).
Proof.
  split; [reflexivity|]. split; [reflexivity|]. split; [reflexivity|].
  split; [discriminate|]. split; [reflexivity|].
  split; vm_compute; reflexivity.
Qed.

(** ** The temperature value *)

Lemma below_forall (n : nat) (P : Z -> bool) :
  forallb P (map Z.of_nat (seq 0 n)) = true ->
  forall x, 0 <= x < Z.of_nat n -> P x = true.
Proof.
  intros Hall x Hx. rewrite forallb_forall in Hall. apply Hall.
  apply in_map_iff. exists (Z.to_nat x). split; [lia|]. apply in_seq. lia.
Qed.

(** The sum [temp_integer + temp_frac / 1000.0f] for every integer part
    and every five-bit fraction field, checked value by value: rounded to
    thousandths it is [1000 * msb + 32 * k], and it is within 0.00001 of
    [msb + 32 * k / 1000]. *)
Lemma temperature_value (msb k : Z) :
  0 <= msb < 256 -> 0 <= k < 32 ->
  millis (temperature msb (k * 32)) = 1000 * msb + 32 * k
  /\ Qle (Qabs (Qminus (temperature msb (k * 32))
                        (Qplus (inject_Z msb) (Qmake (32 * k) 1000))))
         (Qmake 1 100000).
Proof.
  intros Hmsb Hk.
  pose (P := fun msb k : Z =>
          (millis (temperature msb (k * 32)) =? 1000 * msb + 32 * k)
          && Qle_bool (Qabs (Qminus (temperature msb (k * 32))
                                    (Qplus (inject_Z msb) (Qmake (32 * k) 1000))))
                      (Qmake 1 100000)).
  assert (Hall : forallb (fun m => forallb (P m) (map Z.of_nat (seq 0 32)))
                   (map Z.of_nat (seq 0 256)) = true)
    by (vm_compute; reflexivity).
  pose proof (below_forall 256 _ Hall msb Hmsb) as Hrow. cbv beta in Hrow.
  pose proof (below_forall 32 _ Hrow k Hk) as Hcell. unfold P in Hcell.
  apply andb_true_iff in Hcell as [Hm Hq].
  split; [apply Z.eqb_eq, Hm|apply Qle_bool_iff, Hq].
Qed.

Lemma temperature_fields_of_frame (buffer : list Z) :
  Forall is_byte buffer -> length buffer = 9%nat ->
  temp_integer buffer = buffer !!! kScratchPad_TMSB
  /\ 0 <= temp_integer buffer <= 255
  /\ (temp_integer buffer = s8 (buffer !!! kScratchPad_TMSB)
      <-> buffer !!! kScratchPad_TMSB < 128)
  /\ temp_frac buffer = Z.shiftr (buffer !!! kScratchPad_TLSB) 3 * 32
  /\ 0 <= Z.shiftr (buffer !!! kScratchPad_TLSB) 3 < 32
  /\ (forall j, 0 <= j ->
        Z.testbit (Z.shiftr (buffer !!! kScratchPad_TLSB) 3) j
        = Z.testbit (buffer !!! kScratchPad_TLSB) (j + 3))
  /\ 0 <= temp_frac buffer <= 992
  /\ millis (temperature (temp_integer buffer) (temp_frac buffer))
     = 1000 * (buffer !!! kScratchPad_TMSB)
       + 32 * Z.shiftr (buffer !!! kScratchPad_TLSB) 3
  /\ Qle (Qabs (Qminus (temperature (temp_integer buffer) (temp_frac buffer))
                        (Qplus (inject_Z (buffer !!! kScratchPad_TMSB))
                               (Qmake (32 * Z.shiftr (buffer !!! kScratchPad_TLSB) 3) 1000))))
         (Qmake 1 100000).
Proof.
  intros Hbytes Hlen.
  assert (Hget : forall i, (i < 9)%nat -> is_byte (buffer !!! i)).
  { intros i Hi. rewrite Forall_forall in Hbytes. apply Hbytes.
    apply list_elem_of_lookup_total_2. lia. }
  pose proof (Hget kScratchPad_TMSB ltac:(unfold kScratchPad_TMSB; lia)) as Hmsb.
  pose proof (Hget kScratchPad_TLSB ltac:(unfold kScratchPad_TLSB; lia)) as Hlsb.
  unfold is_byte in Hmsb, Hlsb.
  assert (Hshift : 0 <= Z.shiftr (buffer !!! kScratchPad_TLSB) 3 < 32).
  { rewrite Z.shiftr_div_pow2 by lia. change (2 ^ 3) with 8.
    split; [apply Z.div_pos; lia|apply Z.div_lt_upper_bound; lia]. }
  assert (Hint : temp_integer buffer = buffer !!! kScratchPad_TMSB)
    by (unfold temp_integer, u8; apply Z.mod_small; lia).
  assert (Hfrac : temp_frac buffer = Z.shiftr (buffer !!! kScratchPad_TLSB) 3 * 32)
    by (unfold temp_frac, u16; apply Z.mod_small; lia).
  pose proof (temperature_value _ _ Hmsb Hshift) as [Hmillis Hclose].
  rewrite Hint, Hfrac.
  split; [reflexivity|]. split; [lia|].
  split; [unfold s8, u8; rewrite (Z.mod_small (buffer !!! kScratchPad_TMSB)) by lia;
          destruct (Z.ltb_spec (buffer !!! kScratchPad_TMSB) 128); lia|].
  split; [reflexivity|]. split; [exact Hshift|].
  split; [intros j Hj; apply Z.shiftr_spec; exact Hj|].
  split; [lia|]. split; [exact Hmillis|exact Hclose].
Qed.

(** C10 (amended). The integer part of the temperature is scratchpad byte 2
    taken as an unsigned 8-bit value, between 0 and 255; it equals the
    signed reading of that byte exactly when the byte is below 128.  The
    fractional part is byte 1 shifted right by 3, its top five bits, times
    32, between 0 and 992.  The temperature is the single-precision sum of
    the integer part and the fractional part divided by 1000: to three
    decimals it is byte 2 plus 0.032 times the five-bit field, and it is
    within 0.00001 of that value.  A successful [ds2438_measure] read two
    frames and formats its line from this temperature of the second. *)
Theorem temperature_fields :
  (forall buffer : list Z,
      Forall is_byte buffer -> length buffer = 9%nat ->
      temp_integer buffer = buffer !!! kScratchPad_TMSB
      /\ 0 <= temp_integer buffer <= 255
      /\ (temp_integer buffer = s8 (buffer !!! kScratchPad_TMSB)
          <-> buffer !!! kScratchPad_TMSB < 128)
      /\ temp_frac buffer = Z.shiftr (buffer !!! kScratchPad_TLSB) 3 * 32
      /\ 0 <= Z.shiftr (buffer !!! kScratchPad_TLSB) 3 < 32
      /\ (forall j, 0 <= j ->
            Z.testbit (Z.shiftr (buffer !!! kScratchPad_TLSB) 3) j
            = Z.testbit (buffer !!! kScratchPad_TLSB) (j + 3))
      /\ 0 <= temp_frac buffer <= 992
      /\ millis (temperature (temp_integer buffer) (temp_frac buffer))
         = 1000 * (buffer !!! kScratchPad_TMSB)
           + 32 * Z.shiftr (buffer !!! kScratchPad_TLSB) 3
      /\ Qle (Qabs (Qminus (temperature (temp_integer buffer) (temp_frac buffer))
                            (Qplus (inject_Z (buffer !!! kScratchPad_TMSB))
                                   (Qmake (32 * Z.shiftr (buffer !!! kScratchPad_TLSB) 3)
                                          1000))))
             (Qmake 1 100000))
  /\ (forall (B : Type) (bus : OneWireBus B)
             (render_temperature : Q -> string)
             (render_humidity : Z -> Z -> Q -> string)
             (output : string) (b : B) (output' : string) (b' : B) (tr : list event),
        ds2438_measure render_temperature render_humidity output b = (true, output', b', tr) ->
        exists frame1 frame2,
          frames_read tr = [frame1; frame2]
          /\ length frame2 = 9%nat /\ Forall is_byte frame2
          /\ read_levels tr = levels_of_bytes (frame1 ++ frame2)
          /\ output' = sprintf_TH render_temperature render_humidity
                         (raw_voltage frame1) (raw_voltage frame2)
                         (temperature (frame2 !!! kScratchPad_TMSB)
                                      (Z.shiftr (frame2 !!! kScratchPad_TLSB) 3 * 32))).
Proof.
  split; [exact temperature_fields_of_frame|].
  intros B bus rt rh output b output' b' tr Hrun.
  apply measure_cases in Hrun.
  destruct Hrun as [(Hfalse & _)|(_ & _ & f1 & f2 & Hl1 & Hl2 & Hb1 & Hb2 & Hreads & _ & _ & ->)];
    [discriminate|].
  exists f1, f2.
  split.
  { apply frames_read_frames.
    - repeat constructor; assumption.
    - cbn [concat]. rewrite app_nil_r. exact Hreads. }
  split; [exact Hl2|]. split; [exact Hb2|]. split; [exact Hreads|].
  destruct (temperature_fields_of_frame f2 Hb2 Hl2) as (Hint & _ & _ & Hfrac & _).
  rewrite Hint, Hfrac. reflexivity.
Qed.

(** ** What [ds2438_search] stores *)

Lemma stored_codes_app (t1 t2 : list event) :
  stored_codes (t1 ++ t2) = stored_codes t1 ++ stored_codes t2.
Proof. apply omap_app. Qed.

Lemma stored_codes_writes (l : list bool) : stored_codes (map EvWriteBit l) = [].
Proof. induction l; [reflexivity|assumption]. Qed.

Lemma stored_codes_reset (v : bool) (t : list event) :
  stored_codes (EvReset v :: t) = stored_codes t.
Proof. reflexivity. Qed.

Lemma stored_codes_nil : stored_codes [] = [].
Proof. reflexivity. Qed.

#[export] Hint Rewrite stored_codes_app stored_codes_writes stored_codes_reset
  stored_codes_nil : events.

Lemma if_negb_true {A : Type} (x y : A) : (if negb true then x else y) = y.
Proof. reflexivity. Qed.

Lemma if_negb_false {A : Type} (x y : A) : (if negb false then x else y) = x.
Proof. reflexivity. Qed.

Section SearchStores.
Context {B : Type} `{OneWireBus B}.

Lemma search_bits_quiet (n : nat) :
forall (p : Z) (st : onewire_search_state) (local : Z) (b : B)
       (ok : bool) (st' : onewire_search_state) (local' : Z) (b' : B) (tr : list event),
  search_bits n p st local b = (ok, st', local', b', tr) ->
  stored_codes tr = [] /\ length (address st') = length (address st).
Proof.
induction n as [|n IH]; intros p st local b ok st' local' b' tr Hrun.
- simpl in Hrun. unfold ret in Hrun. injection Hrun as <- <- <- <- <-. auto.
- rewrite search_bits_S in Hrun.
  destruct (bus_read_slot b) as [l0 b0]. destruct (bus_read_slot b0) as [l1 b1].
  cbv zeta in Hrun.
  destruct (search_switch _ _ _ _ _ _) as [[v local1]|].
  + destruct (search_bits n _ _ _ _) as [[[[ok2 st2] local2] b3] tr2] eqn:Hrest.
    injection Hrun as <- <- <- <- <-.
    apply IH in Hrest as [Hquiet Hlen]. split; [exact Hquiet|].
    rewrite Hlen. simpl. apply write_address_length.
  + injection Hrun as <- <- <- <- <-. auto.
Qed.

Lemma search_next_run (st : onewire_search_state) (b : B) :
exists complete st1 local b1 tr,
  search_bits 64 0 st (-1) b = (complete, st1, local, b1, tr)
  /\ _search_next st b =
       ((if complete
         then (true, if local =? -1 then set_done st1 true
                     else set_lastZeroBranch st1 local)
         else (false, st1)), b1, tr).
Proof.
unfold _search_next, bind, ret.
destruct (search_bits 64 0 st (-1) b) as [[[[complete st1] local] b1] tr].
exists complete, st1, local, b1, tr. split; [reflexivity|].
destruct complete; [destruct (local =? -1)|]; rewrite app_nil_r; reflexivity.
Qed.

Lemma onewire_search_quiet (st : onewire_search_state) (b : B)
  (ok : bool) (st' : onewire_search_state) (b' : B) (tr : list event) :
onewire_search st b = (ok, st', b', tr) ->
stored_codes tr = [] /\ length (address st') = length (address st).
Proof.
unfold onewire_search, _search_devices. intros Hrun.
destruct (done st).
{ unfold ret in Hrun. injection Hrun as <- <- <- <-. auto. }
destruct (onewire_reset_run b) as (p & b1 & Hr).
rewrite (bind_known _ _ _ _ _ _ Hr) in Hrun. cbv beta in Hrun.
destruct p; [rewrite if_negb_true in Hrun|rewrite if_negb_false in Hrun].
2: { cbv beta iota delta [bind_rest ret] in Hrun. injection Hrun as <- <- <- <-. auto. }
destruct (onewire_write_events 240 b1) as (b2 & bits & Hw).
rewrite (bind_known _ _ _ _ _ _ Hw) in Hrun. cbv beta in Hrun.
destruct (search_next_run st b2) as (complete & st1 & local & b3 & tr1 & Hpass & Hnext).
rewrite Hnext in Hrun.
apply search_bits_quiet in Hpass as [Hquiet Hlen].
destruct complete; [destruct (local =? -1)|];
  cbv beta iota delta [bind_rest] in Hrun; injection Hrun as <- <- <- <-;
  autorewrite with events; rewrite Hquiet; auto.
Qed.

(** Every code [ds2438_search] copies passes the CRC check and lies inside
  the first [len] bytes of the buffer; the reported count is the number of
  copies modulo 256 and eight times it does not exceed [len]. *)
Lemma ds2438_search_loop_stores (fuel : nat) :
forall (len : Z) (st : onewire_search_state) (i : Z) (buf : list Z) (b : B)
       (found : Z) (buf' : list Z) (b' : B) (tr : list event),
  length (address st) = 8%nat -> 0 <= i < 256 -> 8 * i <= len ->
  ds2438_search_loop fuel len st i buf b = (Some (found, buf'), b', tr) ->
  Forall (fun s => 0 <= s.1 /\ s.1 + 8 <= len /\ crc_valid s.2 = true) (stored_codes tr)
  /\ found = u8 (i + Z.of_nat (length (stored_codes tr)))
  /\ 8 * found <= len.
Proof.
induction fuel as [|fuel IH]; intros len st i buf b found buf' b' tr Hlen Hi Hcap Hrun.
- simpl in Hrun. unfold ret in Hrun. discriminate.
- simpl ds2438_search_loop in Hrun.
  destruct (onewire_search st b) as [[[ok st1] b1] t1] eqn:Hcall.
  rewrite (bind_known _ _ _ _ _ _ Hcall) in Hrun. cbv beta iota in Hrun.
  apply onewire_search_quiet in Hcall as [Hquiet Hlen1]. rewrite Hlen in Hlen1.
  destruct (ok && (8 * (i + 1) <=? len)) eqn:Hgo.
  + apply andb_true_iff in Hgo as [_ Hroom]. apply Z.leb_le in Hroom.
    destruct (onewire_check_rom_crc st1) eqn:Hcrc.
    * rewrite (bind_known _ _ b1 tt b1 [EvStore (8 * i) (take 8 (address st1))] eq_refl) in Hrun.
      destruct (ds2438_search_loop fuel len st1 (u8 (i + 1)) _ b1)
        as [[r b2] t2] eqn:Hrest.
      cbv beta iota delta [bind_rest] in Hrun. injection Hrun as -> <- <-.
      assert (Hnext : 0 <= u8 (i + 1) < 256) by apply u8_byte.
      assert (Hle : u8 (i + 1) <= i + 1) by (unfold u8; apply Z.mod_le; lia).
      apply IH in Hrest as (Hall & Hcount & Hbound); [|exact Hlen1|exact Hnext|lia].
      rewrite !stored_codes_app, Hquiet. simpl.
      split; [|split; [|exact Hbound]].
      -- constructor; [|exact Hall]. simpl.
         split; [lia|]. split; [lia|].
         rewrite firstn_all2 by lia. rewrite <- crc_valid_rom by exact Hlen1. exact Hcrc.
      -- rewrite Hcount. unfold u8. rewrite Zplus_mod_idemp_l. f_equal. lia.
    * destruct (ds2438_search_loop fuel len st1 i buf b1) as [[r b2] t2] eqn:Hrest.
      cbv beta iota delta [bind_rest] in Hrun. injection Hrun as -> <- <-.
      apply IH in Hrest as (Hall & Hcount & Hbound); [|exact Hlen1|exact Hi|exact Hcap].
      rewrite stored_codes_app, Hquiet. auto.
  + cbv beta iota delta [bind_rest ret] in Hrun. injection Hrun as <- <- <- <-.
    rewrite app_nil_r, Hquiet. simpl. rewrite Z.add_0_r.
    split; [constructor|]. split; [symmetry; apply u8_small; exact Hi|exact Hcap].
Qed.
(** The same for the entry point, whose capacity is [len] as a
    [uint16_t]. *)
Lemma ds2438_search_stores (fuel : nat) (buf : list Z) (len : Z) (b : B)
    (found : Z) (buf' : list Z) (b' : B) (tr : list event) :
  ds2438_search fuel buf len b = (Some (found, buf'), b', tr) ->
  Forall (fun s => 0 <= s.1 /\ s.1 + 8 <= u16 len /\ crc_valid s.2 = true) (stored_codes tr)
  /\ found = u8 (Z.of_nat (length (stored_codes tr)))
  /\ 8 * found <= u16 len.
Proof.
  intros Hrun. unfold ds2438_search in Hrun.
  assert (Hcap : 0 <= u16 len) by (unfold u16; apply Z.mod_pos_bound; lia).
  apply ds2438_search_loop_stores in Hrun; [exact Hrun|reflexivity|lia|lia].
Qed.

End SearchStores.

(** ** The theorems at concrete inputs *)

Lemma Forall_is_byte_check (l : list Z) :
  forallb is_byteb l = true -> Forall is_byte l.
Proof.
  intros Hall. apply Forall_forall. intros x Hx.
  apply is_byteb_spec. rewrite forallb_forall in Hall.
  apply Hall. apply list_elem_of_In. exact Hx.
Qed.

Lemma search_next_completion_and_single_device_witness :
  (length (address fresh_state) = 8%nat
   /\ _search_next fresh_state four_devices_line = four_devices_pass
   /\ exists steps,
        pass_steps four_devices_pass.2 = Some steps /\ length steps = 64%nat
        /\ match last (zero_branches 0 steps) with
           | None => done four_devices_pass.1.1.2 = true
                     /\ lastZeroBranch four_devices_pass.1.1.2 = lastZeroBranch fresh_state
           | Some z =>
               lastZeroBranch four_devices_pass.1.1.2 = z
               /\ done four_devices_pass.1.1.2 = done fresh_state
               /\ Forall (fun y => y <= z) (zero_branches 0 steps)
           end)
  /\ (0 <= 5 < 2 ^ 64 /\ done fresh_state = false
      /\ exists st' b' tr,
           onewire_search fresh_state (sim_with [5]) = (true, st', b', tr)
           /\ done st' = true /\ rom_of_bytes (address st') = 5).
Proof.
  split.
  - split; [reflexivity|]. split; [vm_compute; reflexivity|].
    apply (proj1 search_next_completion_and_single_device sim_bus _ fresh_state
             four_devices_pass.1.1.2 four_devices_line four_devices_pass.1.2
             four_devices_pass.2);
      [reflexivity|vm_compute; reflexivity].
  - split; [vm_compute; split; congruence|]. split; [reflexivity|].
    apply (proj2 search_next_completion_and_single_device 5 fresh_state);
      [vm_compute; split; congruence|reflexivity|reflexivity].
Defined.

Lemma search_next_address_holds_chosen_bits_witness :
  length (address fresh_state) = 8%nat /\ Forall is_byte (address fresh_state)
  /\ _search_next fresh_state four_devices_line = four_devices_pass
  /\ length (written_bits four_devices_pass.2) = 64%nat
  /\ length (address four_devices_pass.1.1.2) = 8%nat
  /\ Forall is_byte (address four_devices_pass.1.1.2)
  /\ forall p, 0 <= p < 64 ->
       address_bit (address four_devices_pass.1.1.2) p
       = written_bits four_devices_pass.2 !!! Z.to_nat p.
Proof.
  assert (Hbytes : Forall is_byte (address fresh_state))
    by (apply Forall_is_byte_check; vm_compute; reflexivity).
  split; [reflexivity|]. split; [exact Hbytes|]. split; [vm_compute; reflexivity|].
  apply (search_next_address_holds_chosen_bits sim_bus _ fresh_state
           four_devices_pass.1.1.2 four_devices_line four_devices_pass.1.2
           four_devices_pass.2);
    [reflexivity|exact Hbytes|vm_compute; reflexivity].
Defined.

Lemma no_presence_no_command_witness :
  fst (bus_reset_sample (sim_with [])) = true
  /\ (exists b', ds2438_search 1 [] 0 (sim_with []) = (Some (0, []), b', [EvReset false]))
  /\ (exists b' tr, _search_devices 0xF0 fresh_state (sim_with [])
                    = (false, fresh_state, b', tr) /\ written_bits tr = [])
  /\ (exists b', ds2438_measure plain_temperature plain_humidity "" (sim_with [])
                 = (false, "", b', [EvReset false]))
  /\ written_bits [EvReset false] = [].
Proof.
  split; [reflexivity|].
  apply (no_presence_no_command sim_bus _ plain_temperature plain_humidity
           (sim_with []) 0 [] 0 "" fresh_state 0xF0).
  reflexivity.
Defined.

Lemma read_slave_status_witness :
  length (replicate 9 0 : list Z) = 9%nat
  /\ ds2438_read_slave 0 (replicate 9 0) read_line = read_run
  /\ read_run.1.1.1 = 0 /\ read_run.1.1.2 = vad_frame
  /\ (read_run.1.1.1 = kDS2438_DeviceNotFound <-> In false (reset_results read_run.2))
  /\ (read_run.1.1.1 = 0 <-> crc8 read_run.1.1.2 8 = read_run.1.1.2 !!! 8%nat).
Proof.
  split; [reflexivity|]. split; [vm_compute; reflexivity|].
  split; [reflexivity|]. split; [reflexivity|].
  assert (Hrun : ds2438_read_slave 0 (replicate 9 0) read_line
                 = (read_run.1.1.1, read_run.1.1.2, read_run.1.2, read_run.2))
    by (vm_compute; reflexivity).
  destruct (read_slave_status script_bus _ 0 (replicate 9 0) read_line
              read_run.1.1.1 read_run.1.1.2 read_run.1.2 read_run.2 eq_refl Hrun)
    as (_ & Hnotfound & _ & Hread).
  split; [exact Hnotfound|].
  apply Hread. clear. vm_compute. intros [Hin|[Hin|[]]]; discriminate Hin.
Defined.


Lemma crc8_single_bit_detection_and_round_trip_witness :
  (Forall is_byte (rom_code 2 0) /\ (length (rom_code 2 0) <= 256)%nat
   /\ crc_valid (rom_code 2 0) = true /\ (3 < length (rom_code 2 0))%nat /\ 0 <= 5 < 8
   /\ crc_valid (flip_bit (rom_code 2 0) 3 5) = false)
  /\ ((length [1; 2; 3] <= 255)%nat
      /\ crc_valid ([1; 2; 3] ++ [crc8 [1; 2; 3] (Z.of_nat (length [1; 2; 3]))]) = true).
Proof.
  assert (Hbytes : Forall is_byte (rom_code 2 0))
    by (apply Forall_is_byte_check; vm_compute; reflexivity).
  split.
  - split; [exact Hbytes|]. split; [vm_compute; lia|]. split; [reflexivity|].
    split; [vm_compute; lia|]. split; [lia|].
    apply (proj1 crc8_single_bit_detection_and_round_trip (rom_code 2 0) 3%nat 5);
      [exact Hbytes|vm_compute; lia|reflexivity|vm_compute; lia|lia].
  - split; [simpl; lia|].
    apply (proj2 crc8_single_bit_detection_and_round_trip [1; 2; 3]). simpl. lia.
Defined.

Lemma temperature_fields_witness :
  (Forall is_byte cold_frame /\ length cold_frame = 9%nat
   /\ temp_integer cold_frame = cold_frame !!! kScratchPad_TMSB
   /\ temp_frac cold_frame = Z.shiftr (cold_frame !!! kScratchPad_TLSB) 3 * 32
   /\ millis (temperature (temp_integer cold_frame) (temp_frac cold_frame))
      = 1000 * (cold_frame !!! kScratchPad_TMSB)
        + 32 * Z.shiftr (cold_frame !!! kScratchPad_TLSB) 3)
  /\ (ds2438_measure plain_temperature plain_humidity "" measure_line
      = (true, measure_run.1.1.2, measure_run.1.2, measure_run.2)
      /\ exists frame1 frame2,
           frames_read measure_run.2 = [frame1; frame2]
           /\ length frame2 = 9%nat /\ Forall is_byte frame2
           /\ read_levels measure_run.2 = levels_of_bytes (frame1 ++ frame2)
           /\ measure_run.1.1.2
              = sprintf_TH plain_temperature plain_humidity
                  (raw_voltage frame1) (raw_voltage frame2)
                  (temperature (frame2 !!! kScratchPad_TMSB)
                               (Z.shiftr (frame2 !!! kScratchPad_TLSB) 3 * 32))).
Proof.
  assert (Hbytes : Forall is_byte cold_frame)
    by (apply Forall_is_byte_check; vm_compute; reflexivity).
  assert (Hrun : ds2438_measure plain_temperature plain_humidity "" measure_line
                 = (true, measure_run.1.1.2, measure_run.1.2, measure_run.2))
    by (vm_compute; reflexivity).
  split.
  - split; [exact Hbytes|]. split; [reflexivity|].
    destruct (proj1 temperature_fields cold_frame Hbytes eq_refl)
      as (Hint & _ & _ & Hfrac & _ & _ & _ & Hmillis & _).
    split; [exact Hint|]. split; [exact Hfrac|exact Hmillis].
  - split; [exact Hrun|].
    exact (proj2 temperature_fields script_bus _ plain_temperature plain_humidity ""
             measure_line measure_run.1.1.2 measure_run.1.2 measure_run.2 Hrun).
Defined.

(** * Further properties of the driver *)

(** ** Byte I/O *)

(** X1. [onewire_write] causes exactly eight write slots and nothing else;
    the bits sent, least significant first, are those of the byte as a
    [uint8_t]. *)
Theorem onewire_write_sends_byte :
  forall (B : Type) (bus : OneWireBus B) (byte : Z) (b : B),
    exists b',
      onewire_write byte b = (tt, b', map EvWriteBit (bits_of_byte 8 (u8 byte)))
      /\ length (bits_of_byte 8 (u8 byte)) = 8%nat
      /\ byte_of_bits (bits_of_byte 8 (u8 byte)) = u8 byte.
Proof.
  intros B bus byte b. destruct (onewire_write_run byte b) as [b' Hrun].
  exists b'. split; [exact Hrun|]. split; [apply length_bits_of_byte|].
  apply byte_of_bits_of_byte, u8_byte.
Qed.

(** X2. [onewire_read] causes exactly eight read slots and nothing else;
    its value is the byte whose bits, least significant first, are the
    levels sampled. *)
Theorem onewire_read_assembles_byte :
  forall (B : Type) (bus : OneWireBus B) (b : B),
    exists levels b',
      length levels = 8%nat
      /\ onewire_read b = (byte_of_bits levels, b', map EvReadBit levels)
      /\ is_byte (byte_of_bits levels)
      /\ bits_of_byte 8 (byte_of_bits levels) = levels.
Proof.
  intros B bus b. destruct (onewire_read_run b) as (levels & b' & Hlen & Hrun).
  exists levels, b'. split; [exact Hlen|]. split; [exact Hrun|].
  split; [apply byte_of_bits_byte, Hlen|apply bits_of_byte_of_bits, Hlen].
Qed.

(** X3. A byte sent by [onewire_write] and sampled back slot by slot by
    [onewire_read] is read as the same byte: whenever the levels read are
    the bits written, the value read is the byte written (as a
    [uint8_t]). *)
Theorem write_then_read_round_trip :
  forall (B1 B2 : Type) (bus1 : OneWireBus B1) (bus2 : OneWireBus B2)
         (byte : Z) (b1 : B1) (b2 : B2),
    read_levels (onewire_read b2).2 = written_bits (onewire_write byte b1).2 ->
    (onewire_read b2).1.1 = u8 byte.
Proof.
  intros B1 B2 bus1 bus2 byte b1 b2.
  destruct (onewire_write_run byte b1) as [b1' Hw].
  destruct (onewire_read_run b2) as (levels & b2' & Hlen & Hr).
  rewrite Hw, Hr. cbn [fst snd].
  rewrite read_levels_reads, written_bits_writes. intros ->.
  apply byte_of_bits_of_byte, u8_byte.
Qed.

Lemma write_then_read_round_trip_witness :
  read_levels (onewire_read (mkScript [] (bits_of_byte 8 0xA5))).2
  = written_bits (onewire_write 0xA5 (sim_with [])).2
  /\ (onewire_read (mkScript [] (bits_of_byte 8 0xA5))).1.1 = u8 0xA5.
Proof.
  split; [reflexivity|].
  apply (write_then_read_round_trip sim_bus script_bus _ _ 0xA5 (sim_with [])
           (mkScript [] (bits_of_byte 8 0xA5))).
  reflexivity.
Defined.

(** ** CRC-8 residue *)

Lemma crc_shift8_zero (x : Z) : is_byte x -> (crc_shift8 x = 0 <-> x = 0).
Proof.
  intros Hx. split.
  - intros Hz. apply (crc_shift8_inj x 0); [exact Hx|unfold is_byte; lia|].
    rewrite Hz. reflexivity.
  - intros ->. reflexivity.
Qed.

(** X4. The CRC-8 of a whole frame, check byte included, is zero exactly
    when the frame passes validation; and [crc8] of bytes is a byte. *)
Theorem crc8_residue :
  forall frame : list Z,
    Forall is_byte frame -> (0 < length frame <= 255)%nat ->
    is_byte (crc8 frame (Z.of_nat (length frame)))
    /\ (crc8 frame (Z.of_nat (length frame)) = 0 <-> crc_valid frame = true).
Proof.
  intros frame Hbytes Hlen.
  rewrite crc8_fold by lia. rewrite firstn_all.
  split; [apply crc_fold_byte; [exact Hbytes|unfold is_byte; lia]|].
  destruct (frame_split frame) as (s & c & ->).
  { intros ->. simpl in Hlen. lia. }
  rewrite length_app in Hlen. simpl in Hlen.
  apply Forall_app in Hbytes as [Hs Hc]. inversion Hc as [|? ? Hcb _]; subst.
  rewrite crc_valid_snoc by lia. rewrite crc_fold_app. simpl.
  assert (Hfold : is_byte (crc_fold s 0))
    by (apply crc_fold_byte; [exact Hs|unfold is_byte; lia]).
  unfold _crc_ibutton_update. fold (crc_shift8 (Z.lxor (crc_fold s 0) c)).
  rewrite crc_shift8_zero by (apply lxor_byte; assumption).
  rewrite Z.lxor_eq_0_iff, Z.eqb_eq. split; congruence.
Qed.

Lemma crc8_residue_witness :
  Forall is_byte (rom_code 2 0) /\ (0 < length (rom_code 2 0) <= 255)%nat
  /\ (crc8 (rom_code 2 0) (Z.of_nat (length (rom_code 2 0))) = 0
      <-> crc_valid (rom_code 2 0) = true).
Proof.
  assert (Hbytes : Forall is_byte (rom_code 2 0))
    by (apply Forall_is_byte_check; vm_compute; reflexivity).
  split; [exact Hbytes|]. split; [vm_compute; lia|].
  apply (crc8_residue (rom_code 2 0) Hbytes). vm_compute. lia.
Defined.

(** ** Raw voltages *)

Lemma lor_shiftl_byte (x y : Z) :
  is_byte x -> is_byte y -> Z.lor (Z.shiftl x 8) y = 256 * x + y.
Proof.
  intros Hx Hy. apply Z.eqb_eq. revert x y Hx Hy.
  apply (byte_forall2 (fun x y => Z.lor (Z.shiftl x 8) y =? 256 * x + y)).
  vm_compute. reflexivity.
Qed.

(** X5. The voltage taken from a scratchpad frame is ten times the 16-bit
    register value (MSB byte 4, LSB byte 3) modulo 65536; it is exactly ten
    times the register value when that is at most 6553, which covers the
    10-bit range of the converter. *)
Theorem raw_voltage_value :
  forall buffer : list Z,
    Forall is_byte buffer -> length buffer = 9%nat ->
    let reg := 256 * (buffer !!! kScratchPad_VMSB) + buffer !!! kScratchPad_VLSB in
    0 <= reg < 65536
    /\ raw_voltage buffer = (reg * 10) mod 65536
    /\ (reg <= 6553 -> raw_voltage buffer = reg * 10)
    /\ (6553 < reg -> raw_voltage buffer < reg * 10).
Proof.
  intros buffer Hbytes Hlen reg.
  assert (Hget : forall i, (i < 9)%nat -> is_byte (buffer !!! i)).
  { intros i Hi. rewrite Forall_forall in Hbytes. apply Hbytes.
    apply list_elem_of_lookup_total_2. lia. }
  pose proof (Hget kScratchPad_VMSB ltac:(unfold kScratchPad_VMSB; lia)) as Hmsb.
  pose proof (Hget kScratchPad_VLSB ltac:(unfold kScratchPad_VLSB; lia)) as Hlsb.
  unfold raw_voltage, u16. rewrite lor_shiftl_byte by assumption. fold reg.
  unfold is_byte in Hmsb, Hlsb.
  assert (Hreg : 0 <= reg < 65536) by (unfold reg; lia).
  split; [exact Hreg|]. split; [reflexivity|]. split.
  - intros Hsmall. apply Z.mod_small. lia.
  - intros Hbig. pose proof (Z.mod_pos_bound (reg * 10) 65536 ltac:(lia)). lia.
Qed.

Lemma raw_voltage_value_witness :
  Forall is_byte vdd_frame /\ length vdd_frame = 9%nat
  /\ raw_voltage vdd_frame = 5000.
Proof.
  assert (Hbytes : Forall is_byte vdd_frame)
    by (apply Forall_is_byte_check; vm_compute; reflexivity).
  split; [exact Hbytes|]. split; [reflexivity|].
  destruct (raw_voltage_value vdd_frame Hbytes eq_refl) as (_ & _ & Hexact & _).
  rewrite Hexact; [reflexivity|vm_compute; congruence].
Defined.

(** ** The events of a search pass *)

Lemma pass_steps_events (steps : list (bool * bool * bool)) :
  pass_steps (steps_events steps) = Some steps.
Proof.
  induction steps as [|[[r0 r1] w] steps IH]; [reflexivity|].
  change (pass_steps (steps_events ((r0, r1, w) :: steps)))
    with (option_map (cons (r0, r1, w)) (pass_steps (steps_events steps))).
  rewrite IH. reflexivity.
Qed.

Lemma steps_events_cons (s : bool * bool * bool) (steps : list (bool * bool * bool)) :
  steps_events (s :: steps)
  = EvReadBit s.1.1 :: EvReadBit s.1.2 :: EvWriteBit s.2 :: steps_events steps.
Proof. reflexivity. Qed.

Section SearchTrace.
Context {B : Type} `{OneWireBus B}.

(** A pass over [n] positions from [p], whatever its outcome. *)
Lemma search_bits_trace (n : nat) :
  forall (p : Z) (st : onewire_search_state) (local : Z) (b : B)
         (ok : bool) (st' : onewire_search_state) (local' : Z) (b' : B) (tr : list event),
    0 <= p -> p + Z.of_nat n <= 64 ->
    search_bits n p st local b = (ok, st', local', b', tr) ->
    lastZeroBranch st' = lastZeroBranch st /\ done st' = done st
    /\ length (address st') = length (address st)
    /\ (Forall is_byte (address st) -> Forall is_byte (address st'))
    /\ exists steps,
         steps_rule (lastZeroBranch st) p steps = true
         /\ tr = steps_events steps ++ (if ok then [] else bus_fault)
         /\ (if ok then length steps = n else (length steps < n)%nat).
Proof.
  induction n as [|n IH]; intros p st local b ok st' local' b' tr Hp Hn Hrun.
  - simpl in Hrun. unfold ret in Hrun. injection Hrun as <- <- <- <- <-.
    repeat split; auto. exists []. repeat split.
  - rewrite search_bits_S in Hrun.
    destruct (bus_read_slot b) as [l0 b0]. destruct (bus_read_slot b0) as [l1 b1].
    cbv zeta in Hrun.
    rewrite position_byteIndex, position_bitIndex in Hrun by lia.
    change (Z.lor (Z.lor 0 (if l0 then 1 else 0)) (Z.shiftl (if l1 then 1 else 0) 1))
      with (reading_of l0 l1) in Hrun.
    rewrite search_switch_levels in Hrun.
    assert (Hcase :
      (l0 = true /\ l1 = true
       /\ (false, st, local, b1, [EvReadBit l0; EvReadBit l1]) = (ok, st', local', b', tr))
      \/ exists v local1,
           step_rule (lastZeroBranch st) p (l0, l1, negb (v =? 0)) = true
           /\ (let '(res, b3, tr1) :=
                 search_bits n (p + 1)
                   (set_address st (write_address (address st) (p / 8) (p mod 8) v))
                   local1 (bus_write_slot (negb (v =? 0)) b1) in
               (res, b3, EvReadBit l0 :: EvReadBit l1 :: EvWriteBit (negb (v =? 0)) :: tr1))
              = (ok, st', local', b', tr)).
    { destruct l0, l1.
      - left. auto.
      - right. exists 1, local. split; [reflexivity|exact Hrun].
      - right. exists 0, local. split; [reflexivity|exact Hrun].
      - right. exists (conflict_value st p),
          (if conflict_value st p =? 0 then p else local).
        split; [|exact Hrun].
        destruct (conflict_value_resolution st p ltac:(lia)) as (Hpivot & _ & Habove).
        cbn [step_rule].
        destruct (Z.eqb_spec p (lastZeroBranch st)) as [Heq|Hne].
        + rewrite (Hpivot Heq). reflexivity.
        + destruct (Z.ltb_spec (lastZeroBranch st) p) as [Hlt|Hge]; [|reflexivity].
          rewrite (Habove Hlt). reflexivity. }
    clear Hrun. destruct Hcase as [(-> & -> & Hstop)|(v & local1 & Hrule & Hrun)].
    + injection Hstop as <- <- <- <- <-. repeat split; auto.
      exists []. repeat split. simpl. lia.
    + destruct (search_bits n _ _ _ _) as [[[[res st2] local2] b3] tr1] eqn:Hrest.
      injection Hrun as <- <- <- <- <-.
      apply IH in Hrest; [|lia|lia].
      destruct Hrest as (Hlzb & Hdone & Hlen & Hbytes & steps & Hrules & Htr & Hcount).
      simpl in Hlzb, Hdone, Hlen, Hbytes, Hrules.
      rewrite write_address_length in Hlen.
      split; [exact Hlzb|]. split; [exact Hdone|]. split; [exact Hlen|].
      split; [intros Hst; apply Hbytes, write_address_bytes, Hst|].
      exists ((l0, l1, negb (v =? 0)) :: steps).
      split; [cbn [steps_rule]; rewrite Hrule, Hrules; reflexivity|].
      split; [rewrite Htr; reflexivity|].
      destruct res; simpl; lia.
Qed.
End SearchTrace.

Section SearchOutcomes.
Context {B : Type} `{OneWireBus B}.

(** [_search_next] in terms of its loop. *)
Lemma search_next_cases (st st' : onewire_search_state) (b b' : B) (ok : bool)
    (tr : list event) :
  _search_next st b = (ok, st', b', tr) ->
  exists st1 local,
    search_bits 64 0 st (-1) b = (ok, st1, local, b', tr)
    /\ st' = (if ok then (if local =? -1 then set_done st1 true
                          else set_lastZeroBranch st1 local)
              else st1).
Proof.
  intros Hrun.
  destruct (search_next_run st b) as (complete & st1 & local & b1 & tr1 & Hpass & Hnext).
  rewrite Hnext in Hrun. exists st1, local.
  destruct complete; injection Hrun as <- <- <- <-; auto.
Qed.

Lemma onewire_write_search_rom (b : B) :
  exists b', onewire_write 240 b = (tt, b', search_rom_command).
Proof. destruct (onewire_write_run 240 b) as [b' Hrun]. exists b'. exact Hrun. Qed.

(** The outcomes of [onewire_search]. *)
Lemma onewire_search_cases (st st' : onewire_search_state) (b b' : B) (ok : bool)
    (tr : list event) :
  onewire_search st b = (ok, st', b', tr) ->
  (done st = true /\ ok = false /\ st' = st /\ b' = b /\ tr = [])
  \/ (done st = false /\ ok = false /\ st' = st /\ tr = [EvReset false])
  \/ (done st = false
      /\ exists b2 pass,
           tr = EvReset true :: search_rom_command ++ pass
           /\ _search_next st b2 = (ok, st', b', pass)).
Proof.
  unfold onewire_search, _search_devices. intros Hrun.
  destruct (done st) eqn:Hdone.
  { unfold ret in Hrun. injection Hrun as <- <- <- <-. left. auto. }
  right.
  destruct (onewire_reset_run b) as (p & b1 & Hr).
  rewrite (bind_known _ _ _ _ _ _ Hr) in Hrun. cbv beta in Hrun.
  destruct p; [rewrite if_negb_true in Hrun|rewrite if_negb_false in Hrun].
  2: { cbv beta iota delta [bind_rest ret] in Hrun. injection Hrun as <- <- <- <-.
       left. auto. }
  right. split; [reflexivity|].
  destruct (onewire_write_search_rom b1) as (b2 & Hw).
  rewrite (bind_known _ _ _ _ _ _ Hw) in Hrun. cbv beta in Hrun.
  destruct (_search_next st b2) as [[[ok2 st2] b3] pass] eqn:Hnext.
  cbv beta iota delta [bind_rest] in Hrun. injection Hrun as <- <- <- <-.
  exists b2, pass. split; [reflexivity|exact Hnext].
Qed.
End SearchOutcomes.

(** X6. Every pass of [_search_next] follows its readings.  Its events are
    a sequence of steps (two read slots, one write slot), one per bit
    position from 0, in which two high levels never occur, an unambiguous
    bit is sent back as read, and an ambiguous bit is sent as 1 at the
    previous [lastZeroBranch] and as 0 above it.  A pass that returns true
    has 64 steps; a pass that returns false has fewer, followed by the two
    high levels that stopped it, and sends nothing after them. *)
Theorem search_next_obeys_readings :
  forall (B : Type) (bus : OneWireBus B) (st st' : onewire_search_state)
         (b b' : B) (ok : bool) (tr : list event),
    _search_next st b = (ok, st', b', tr) ->
    exists steps,
      steps_rule (lastZeroBranch st) 0 steps = true
      /\ tr = steps_events steps ++ (if ok then [] else bus_fault)
      /\ (if ok then length steps = 64%nat else (length steps < 64)%nat).
Proof.
  intros B bus st st' b b' ok tr Hrun.
  apply search_next_cases in Hrun as (st1 & local & Hpass & _).
  apply search_bits_trace in Hpass; [|lia|simpl; lia].
  destruct Hpass as (_ & _ & _ & _ & steps & Hrules & Htr & Hcount).
  exists steps. auto.
Qed.

Lemma search_next_obeys_readings_witness :
  _search_next fresh_state four_devices_line = four_devices_pass
  /\ exists steps,
       steps_rule (lastZeroBranch fresh_state) 0 steps = true
       /\ four_devices_pass.2 = steps_events steps ++ []
       /\ length steps = 64%nat.
Proof.
  split; [vm_compute; reflexivity|].
  apply (search_next_obeys_readings sim_bus _ fresh_state four_devices_pass.1.1.2
           four_devices_line four_devices_pass.1.2 true four_devices_pass.2).
  vm_compute. reflexivity.
Defined.

(** X7. [onewire_search] has four outcomes.  With [done] set it returns
    false and touches neither the line nor the state.  Without a presence
    pulse it returns false after the reset alone, state untouched.
    Otherwise it sends "Search ROM" (0xF0, least significant bit first)
    right after the reset and runs one pass: a pass that gives up returns
    false with [done] and [lastZeroBranch] as they were, and a complete pass
    returns true. *)
Theorem onewire_search_outcomes :
  forall (B : Type) (bus : OneWireBus B) (st st' : onewire_search_state)
         (b b' : B) (ok : bool) (tr : list event),
    onewire_search st b = (ok, st', b', tr) ->
    (done st = true /\ ok = false /\ st' = st /\ b' = b /\ tr = [])
    \/ (done st = false /\ ok = false /\ st' = st /\ tr = [EvReset false])
    \/ (done st = false /\ ok = false
        /\ lastZeroBranch st' = lastZeroBranch st /\ done st' = false
        /\ exists steps,
             (length steps < 64)%nat
             /\ tr = EvReset true :: search_rom_command ++ steps_events steps ++ bus_fault)
    \/ (done st = false /\ ok = true
        /\ exists steps,
             length steps = 64%nat
             /\ tr = EvReset true :: search_rom_command ++ steps_events steps).
Proof.
  intros B bus st st' b b' ok tr Hrun.
  apply onewire_search_cases in Hrun.
  destruct Hrun as [Hdone|[Hquiet|(Hdone & b2 & pass & -> & Hnext)]]; [auto|auto|].
  right. right.
  apply search_next_cases in Hnext as (st1 & local & Hpass & ->).
  apply search_bits_trace in Hpass; [|lia|simpl; lia].
  destruct Hpass as (Hlzb & Hdone1 & _ & _ & steps & _ & -> & Hcount).
  destruct ok.
  - right. split; [exact Hdone|]. split; [reflexivity|].
    exists steps. rewrite app_nil_r. auto.
  - left. split; [exact Hdone|]. split; [reflexivity|].
    split; [exact Hlzb|]. split; [congruence|]. exists steps. auto.
Qed.

Lemma onewire_search_outcomes_witness :
  exists st' b' tr,
    onewire_search fresh_state (sim_with four_devices) = (true, st', b', tr)
    /\ exists steps,
         length steps = 64%nat
         /\ tr = EvReset true :: search_rom_command ++ steps_events steps.
Proof.
  destruct (onewire_search fresh_state (sim_with four_devices))
    as [[[ok st'] b'] tr] eqn:Hrun.
  assert (Hok : ok = true) by (apply (f_equal (fun r => r.1.1.1)) in Hrun;
                               vm_compute in Hrun; congruence).
  subst ok. exists st', b', tr. split; [reflexivity|].
  destruct (onewire_search_outcomes sim_bus _ fresh_state st' (sim_with four_devices)
              b' true tr Hrun)
    as [(_ & Hno & _)|[(_ & Hno & _)|[(_ & Hno & _)|(_ & _ & Hsteps)]]];
    try discriminate Hno.
  exact Hsteps.
Defined.

(** ** The search state across calls *)

Lemma zero_branches_step (steps : list (bool * bool * bool)) :
  forall p z, In z (zero_branches p steps) ->
    exists i : nat, z = p + Z.of_nat i /\ steps !! i = Some (false, false, false).
Proof.
  induction steps as [|[[r0 r1] w] rest IH]; intros p z Hin; [destruct Hin|].
  simpl in Hin.
  destruct r0, r1, w; simpl in Hin;
    try (apply IH in Hin as (i & -> & Hi); exists (S i); split; [lia|exact Hi]).
  destruct Hin as [<-|Hin].
  - exists 0%nat. split; [lia|reflexivity].
  - apply IH in Hin as (i & -> & Hi). exists (S i). split; [lia|exact Hi].
Qed.

(** X8. [onewire_search] keeps the search state well formed: eight address
    bytes and a [lastZeroBranch] that is -1 or a bit position.  It never
    clears [done].  When it returns true without setting [done], the new
    [lastZeroBranch] is a bit position at which the address just found has a
    0; when it returns true and sets [done], [lastZeroBranch] is as it
    was. *)
Theorem onewire_search_keeps_state_ok :
  forall (B : Type) (bus : OneWireBus B) (st st' : onewire_search_state)
         (b b' : B) (ok : bool) (tr : list event),
    state_ok st ->
    onewire_search st b = (ok, st', b', tr) ->
    state_ok st'
    /\ (done st = true -> done st' = true)
    /\ (ok = true -> done st' = false ->
          0 <= lastZeroBranch st' < 64
          /\ address_bit (address st') (lastZeroBranch st') = false)
    /\ (ok = true -> done st' = true -> lastZeroBranch st' = lastZeroBranch st).
Proof.
  intros B bus st st' b b' ok tr (Hlen & Hbytes & Hlzb) Hrun.
  apply onewire_search_cases in Hrun.
  destruct Hrun as [(Hdone & -> & -> & _)|[(Hdone & -> & -> & _)|(Hdone & b2 & pass & _ & Hnext)]].
  - split; [exact (conj Hlen (conj Hbytes Hlzb))|]. split; [auto|]. split; discriminate.
  - split; [exact (conj Hlen (conj Hbytes Hlzb))|]. split; [auto|]. split; discriminate.
  - apply search_next_cases in Hnext as (st1 & local & Hpass & ->).
    destruct ok.
    + apply search_bits_pass in Hpass; [|lia|simpl; lia|exact Hlen].
      destruct Hpass
        as (steps & _ & Hcount & Hlzb1 & Hdone1 & Hlen1 & Hloc & Hbits & _ & Hbytes1).
      destruct (last (zero_branches 0 steps)) as [z|] eqn:Hlast; simpl in Hloc; subst local.
      * apply last_Some_elem_of, list_elem_of_In in Hlast.
        pose proof (zero_branches_range _ _ _ Hlast) as Hz. rewrite Hcount in Hz.
        apply zero_branches_step in Hlast as (i & Hzi & Hi).
        destruct (Z.eqb_spec z (-1)) as [Hneg|_]; [lia|].
        unfold state_ok. simpl.
        split; [split; [exact Hlen1|split; [auto|lia]]|].
        split; [congruence|]. split; [|intros _ Hd; congruence].
        intros _ _. split; [lia|].
        assert (Hi' : (i < 64)%nat) by (apply lookup_lt_Some in Hi; lia).
        rewrite Hzi, (Hbits i Hi').
        rewrite (list_lookup_total_correct _ _ _ Hi). reflexivity.
      * unfold state_ok. simpl.
        split; [split; [exact Hlen1|split; [auto|lia]]|].
        split; [reflexivity|]. split; [discriminate|]. intros _ _. exact Hlzb1.
    + apply search_bits_trace in Hpass; [|lia|simpl; lia].
      destruct Hpass as (Hlzb1 & Hdone1 & Hlen1 & Hbytes1 & _).
      unfold state_ok.
      split; [split; [congruence|split; [auto|lia]]|].
      split; [congruence|]. split; discriminate.
Qed.

Lemma onewire_search_keeps_state_ok_witness :
  state_ok fresh_state
  /\ exists st' b' tr,
       onewire_search fresh_state (sim_with four_devices) = (true, st', b', tr)
       /\ state_ok st'.
Proof.
  assert (Hok : state_ok fresh_state).
  { split; [reflexivity|]. split; [|simpl; lia].
    apply Forall_is_byte_check. reflexivity. }
  split; [exact Hok|].
  destruct (onewire_search fresh_state (sim_with four_devices))
    as [[[ok st'] b'] tr] eqn:Hrun.
  assert (Hyes : ok = true) by (apply (f_equal (fun r => r.1.1.1)) in Hrun;
                                vm_compute in Hrun; congruence).
  subst ok. exists st', b', tr. split; [reflexivity|].
  exact (proj1 (onewire_search_keeps_state_ok sim_bus _ fresh_state st'
                  (sim_with four_devices) b' true tr Hok Hrun)).
Defined.

(** ** What an ambiguous bit below [lastZeroBranch] is replayed from *)

Lemma land_mask_value (x j : Z) :
  0 <= j -> Z.land x (Z.shiftl 1 j) = if Z.testbit x j then 2 ^ j else 0.
Proof.
  intros Hj. apply Z.bits_inj'. intros i Hi.
  rewrite Z.land_spec, Z.shiftl_1_l, Z.pow2_bits_eqb by lia.
  destruct (Z.testbit x j) eqn:Hbit.
  - rewrite Z.pow2_bits_eqb by lia.
    destruct (Z.eqb_spec j i) as [<-|]; [rewrite Hbit; reflexivity|apply andb_false_r].
  - rewrite Z.bits_0.
    destruct (Z.eqb_spec j i) as [<-|]; [rewrite Hbit; reflexivity|apply andb_false_r].
Qed.

Lemma conflict_value_below (st : onewire_search_state) (p : Z) :
  0 <= p < 64 -> p < lastZeroBranch st ->
  conflict_value st p = if address_bit (address st) p then 2 ^ (p mod 8) else 0.
Proof.
  intros Hp Hlt. unfold conflict_value, address_bit.
  pose proof (Z.mod_pos_bound p 8 ltac:(lia)) as Hk.
  destruct (Z.eqb_spec p (lastZeroBranch st)); [lia|].
  destruct (Z.ltb_spec p (lastZeroBranch st)); [|lia].
  rewrite land_mask_value by lia.
  destruct (Z.testbit _ _); [|reflexivity].
  apply u8_small. unfold is_byte. split; [apply Z.pow_nonneg; lia|].
  change 256 with (2 ^ 8). apply Z.pow_lt_mono_r; lia.
Qed.

(** The other bits of the buffer after "write bit into address". *)
Lemma write_address_bit_other (a : list Z) (p q v : Z) :
  0 <= p < 64 -> 0 <= q < 64 -> q <> p -> length a = 8%nat ->
  address_bit (write_address a (p / 8) (p mod 8) v) q
  = address_bit a q
    || (negb (v =? 0) && (q / 8 =? p / 8) && Z.testbit v (q mod 8 - p mod 8)).
Proof.
  intros Hp Hq Hne Hlen.
  pose proof (Z.mod_pos_bound p 8 ltac:(lia)) as Hk.
  pose proof (Z.mod_pos_bound q 8 ltac:(lia)) as Hj.
  assert (0 <= p / 8 < 8) by (split; [apply Z.div_pos|apply Z.div_lt_upper_bound]; lia).
  assert (0 <= q / 8 < 8) by (split; [apply Z.div_pos|apply Z.div_lt_upper_bound]; lia).
  unfold address_bit.
  destruct (Z.eqb_spec (q / 8) (p / 8)) as [Heq|Hbyte].
  - assert (Hbit : q mod 8 <> p mod 8).
    { pose proof (Z.div_mod p 8 ltac:(lia)). pose proof (Z.div_mod q 8 ltac:(lia)). lia. }
    rewrite Heq. unfold write_address.
    destruct (Z.eqb_spec v 0) as [->|Hnz]; cbn [negb andb];
      rewrite list_lookup_total_insert_eq by lia; rewrite testbit_u8 by exact Hj.
    + rewrite Z.land_spec, Z.lnot_spec, Z.shiftl_1_l, Z.pow2_bits_eqb by lia.
      destruct (Z.eqb_spec (p mod 8) (q mod 8)); [lia|].
      rewrite andb_true_r, orb_false_r. reflexivity.
    + rewrite Z.lor_spec, Z.shiftl_spec by lia. reflexivity.
  - rewrite andb_false_r, orb_false_r. unfold write_address.
    destruct (v =? 0); rewrite list_lookup_total_insert_ne by lia; reflexivity.
Qed.

Lemma spilled_not_before (lzb : Z) (steps : list (bool * bool * bool)) :
  forall p q, 0 <= p -> q <= p -> spilled lzb p steps q = false.
Proof.
  induction steps as [|[[r0 r1] w] rest IH]; intros p q Hp Hq; [reflexivity|].
  cbn [spilled]. rewrite IH by lia. rewrite orb_false_r.
  destruct r0, r1, w; try reflexivity. cbn [replay_spills].
  pose proof (Z.mod_pos_bound p 8 ltac:(lia)).
  destruct (Z.leb_spec 1 (p mod 8)); [|rewrite andb_false_r; reflexivity].
  destruct (Z.eqb_spec q (p + p mod 8)); [lia|apply andb_false_r].
Qed.

Section SearchReplay.
Context {B : Type} `{OneWireBus B}.

Lemma search_bits_replay (n : nat) :
  forall (p : Z) (st : onewire_search_state) (local : Z) (b : B)
         (ok : bool) (st' : onewire_search_state) (local' : Z) (b' : B) (tr : list event),
    0 <= p -> p + Z.of_nat n <= 64 -> length (address st) = 8%nat ->
    search_bits n p st local b = (ok, st', local', b', tr) ->
    exists steps,
      tr = steps_events steps ++ (if ok then [] else bus_fault)
      /\ (length steps <= n)%nat
      /\ forall (i : nat) (w : bool),
           steps !! i = Some (false, false, w) ->
           p + Z.of_nat i < lastZeroBranch st ->
           w = address_bit (address st) (p + Z.of_nat i)
               || spilled (lastZeroBranch st) p steps (p + Z.of_nat i).
Proof.
  induction n as [|n IH]; intros p st local b ok st' local' b' tr Hp Hn Hlen Hrun.
  - simpl in Hrun. unfold ret in Hrun. injection Hrun as <- <- <- <- <-.
    exists []. split; [reflexivity|]. split; [reflexivity|].
    intros i w Hi. discriminate Hi.
  - rewrite search_bits_S in Hrun.
    destruct (bus_read_slot b) as [l0 b0]. destruct (bus_read_slot b0) as [l1 b1].
    cbv zeta in Hrun.
    rewrite position_byteIndex, position_bitIndex in Hrun by lia.
    change (Z.lor (Z.lor 0 (if l0 then 1 else 0)) (Z.shiftl (if l1 then 1 else 0) 1))
      with (reading_of l0 l1) in Hrun.
    rewrite search_switch_levels in Hrun.
    set (lzb := lastZeroBranch st) in *.
    assert (Hcase :
      ((false, st, local, b1, [EvReadBit l0; EvReadBit l1]) = (ok, st', local', b', tr)
       /\ l0 = true /\ l1 = true)
      \/ exists v local1,
           (let '(res, b3, tr1) :=
              search_bits n (p + 1)
                (set_address st (write_address (address st) (p / 8) (p mod 8) v))
                local1 (bus_write_slot (negb (v =? 0)) b1) in
            (res, b3, EvReadBit l0 :: EvReadBit l1 :: EvWriteBit (negb (v =? 0)) :: tr1))
           = (ok, st', local', b', tr)
           /\ (l0 = false -> l1 = false -> p < lzb ->
               negb (v =? 0) = address_bit (address st) p)
           /\ forall q, p < q < 64 ->
                address_bit (write_address (address st) (p / 8) (p mod 8) v) q
                = address_bit (address st) q
                  || replay_spills lzb p (l0, l1, negb (v =? 0)) q).
    { assert (Hplain : forall v, v = 0 \/ v = 1 -> forall q (s : bool * bool * bool),
                p < q < 64 -> replay_spills lzb p s q = false ->
                address_bit (write_address (address st) (p / 8) (p mod 8) v) q
                = address_bit (address st) q || replay_spills lzb p s q).
      { intros v Hv q s Hq ->. rewrite write_address_bit_other by lia.
        f_equal. destruct Hv as [-> | ->]; [reflexivity|].
        cbn [Z.eqb negb andb].
        destruct (q / 8 =? p / 8) eqn:Hbyte; [|reflexivity]. cbn [andb].
        apply Z.eqb_eq in Hbyte.
        pose proof (Z.div_mod p 8 ltac:(lia)). pose proof (Z.div_mod q 8 ltac:(lia)).
        rewrite (Z.bits_above_log2 1) by (simpl; lia). reflexivity. }
      destruct l0, l1.
      - left. auto.
      - right. exists 1, local. split; [exact Hrun|]. split; [discriminate|].
        intros q Hq. apply Hplain; auto.
      - right. exists 0, local. split; [exact Hrun|]. split; [discriminate|].
        intros q Hq. apply Hplain; auto.
      - right. exists (conflict_value st p),
          (if conflict_value st p =? 0 then p else local).
        split; [exact Hrun|].
        destruct (conflict_value_resolution st p ltac:(lia)) as (Hpivot & Hbelow & Habove).
        fold lzb in Hpivot, Hbelow, Habove.
        split; [intros _ _ Hlt; apply Hbelow, Hlt|].
        intros q Hq.
        destruct (Z.lt_trichotomy p lzb) as [Hlt|[Heq|Hgt]].
        + rewrite conflict_value_below by (fold lzb; lia).
          pose proof (Z.mod_pos_bound p 8 ltac:(lia)) as Hk.
          destruct (address_bit (address st) p) eqn:Hbit.
          * rewrite write_address_bit_other by lia. f_equal.
            assert (Hpow : 2 ^ (p mod 8) <> 0) by (apply Z.pow_nonzero; lia).
            destruct (Z.eqb_spec (2 ^ (p mod 8)) 0) as [|_]; [contradiction|].
            cbn [negb andb replay_spills].
            destruct (Z.ltb_spec p lzb); [|lia]. cbn [andb].
            pose proof (Z.div_mod p 8 ltac:(lia)) as Hdp.
            pose proof (Z.div_mod q 8 ltac:(lia)) as Hdq.
            pose proof (Z.mod_pos_bound q 8 ltac:(lia)) as Hj.
            destruct (Z.eqb_spec (q / 8) (p / 8)) as [Hbyte|Hbyte]; cbn [andb].
            -- destruct (Z.lt_ge_cases (q mod 8 - p mod 8) 0) as [Hneg|Hpos].
               ++ lia.
               ++ rewrite Z.pow2_bits_eqb by lia.
                  destruct (Z.eqb_spec (p mod 8) (q mod 8 - p mod 8)) as [He|Hn'].
                  ** destruct (Z.leb_spec 1 (p mod 8)); [|lia].
                     destruct (Z.leb_spec (p mod 8) 3); [|lia].
                     destruct (Z.eqb_spec q (p + p mod 8)); [reflexivity|lia].
                  ** destruct (Z.eqb_spec q (p + p mod 8)); [lia|].
                     rewrite andb_false_r. reflexivity.
            -- destruct (Z.leb_spec 1 (p mod 8)); [|reflexivity].
               destruct (Z.leb_spec (p mod 8) 3); [|reflexivity].
               destruct (Z.eqb_spec q (p + p mod 8)) as [He|]; [|reflexivity].
               exfalso. apply Hbyte. subst q.
               replace (p + p mod 8) with (2 * (p mod 8) + p / 8 * 8) by lia.
               rewrite Z.div_add by lia. rewrite Z.div_small by lia. lia.
          * apply Hplain; auto.
        + rewrite (Hpivot Heq). apply Hplain; auto.
          cbn [Z.eqb negb replay_spills].
          destruct (Z.ltb_spec p lzb); [lia|reflexivity].
        + rewrite (Habove Hgt). apply Hplain; auto. }
    clear Hrun. destruct Hcase as [(Hstop & -> & ->)|(v & local1 & Hrun & Hfirst & Hwrite)].
    + injection Hstop as <- <- <- <- <-. exists [].
      split; [reflexivity|]. split; [simpl; lia|]. intros i w Hi. discriminate Hi.
    + destruct (search_bits n _ _ _ _) as [[[[res st2] local2] b3] tr1] eqn:Hrest.
      injection Hrun as <- <- <- <- <-.
      apply IH in Hrest; [|lia|lia|simpl; rewrite write_address_length; exact Hlen].
      destruct Hrest as (steps & Htr & Hcount & Hreplay).
      simpl in Hreplay. fold lzb in Hreplay.
      exists ((l0, l1, negb (v =? 0)) :: steps).
      split; [rewrite Htr; reflexivity|]. split; [simpl; lia|].
      intros [|i] w Hi Hlt.
      * simpl in Hi. injection Hi as -> -> <-.
        rewrite Z.add_0_r in *. rewrite (Hfirst eq_refl eq_refl Hlt).
        rewrite spilled_not_before by lia. rewrite orb_false_r. reflexivity.
      * simpl in Hi.
        replace (p + Z.of_nat (S i)) with (p + 1 + Z.of_nat i) in * by lia.
        assert (Hi' : (i < length steps)%nat) by (eapply lookup_lt_Some; exact Hi).
        rewrite (Hreplay i w Hi Hlt).
        cbn [spilled].
        destruct (Z.lt_ge_cases (p + 1 + Z.of_nat i) 64) as [Hin|Hout].
        -- rewrite Hwrite by lia. rewrite orb_assoc. reflexivity.
        -- exfalso. clear - Hcount Hout Hn Hi' Hp. lia.
Qed.
End SearchReplay.

Lemma spilled_index (lzb : Z) (steps : list (bool * bool * bool)) :
  forall p q, 0 <= p -> spilled lzb p steps q = true ->
    q mod 8 = 2 \/ q mod 8 = 4 \/ q mod 8 = 6.
Proof.
  induction steps as [|[[r0 r1] w] rest IH]; intros p q Hp Hs; [discriminate|].
  cbn [spilled] in Hs. apply orb_true_iff in Hs as [Hs|Hs]; [|eapply IH; [|exact Hs]; lia].
  destruct r0, r1, w; try discriminate. cbn [replay_spills] in Hs.
  rewrite !andb_true_iff in Hs. destruct Hs as (((_ & Hlo) & Hhi) & Hq).
  apply Z.leb_le in Hlo, Hhi. apply Z.eqb_eq in Hq. subst q.
  pose proof (Z.div_mod p 8 ltac:(lia)) as Hdp.
  replace (p + p mod 8) with (2 * (p mod 8) + p / 8 * 8) by lia.
  rewrite Z_mod_plus_full. rewrite Z.mod_small by lia. lia.
Qed.

(** X9. What [_search_next] sends at an ambiguous position below the
    previous [lastZeroBranch]: the bit the address had there when the pass
    began, or 1 when an earlier step of the pass left a 1 there.  A step
    does that when it is itself an ambiguous position [p] below
    [lastZeroBranch] replayed as 1, with [p mod 8] equal to 1, 2 or 3, and
    the position is [p + p mod 8].  So at bit indexes 0, 1, 3, 5 and 7 of
    every byte the previous address is replayed as it was. *)
Theorem search_next_replay :
  forall (B : Type) (bus : OneWireBus B) (st st' : onewire_search_state)
         (b b' : B) (ok : bool) (tr : list event),
    length (address st) = 8%nat ->
    _search_next st b = (ok, st', b', tr) ->
    exists steps,
      tr = steps_events steps ++ (if ok then [] else bus_fault)
      /\ forall (i : nat) (w : bool),
           steps !! i = Some (false, false, w) ->
           Z.of_nat i < lastZeroBranch st ->
           w = address_bit (address st) (Z.of_nat i)
               || spilled (lastZeroBranch st) 0 steps (Z.of_nat i)
           /\ (Z.of_nat i mod 8 <> 2 -> Z.of_nat i mod 8 <> 4 -> Z.of_nat i mod 8 <> 6 ->
               w = address_bit (address st) (Z.of_nat i)).
Proof.
  intros B bus st st' b b' ok tr Hlen Hrun.
  apply search_next_cases in Hrun as (st1 & local & Hpass & _).
  apply search_bits_replay in Hpass; [|lia|simpl; lia|exact Hlen].
  destruct Hpass as (steps & Htr & _ & Hreplay).
  exists steps. split; [exact Htr|]. intros i w Hi Hlt.
  specialize (Hreplay i w Hi). rewrite Z.add_0_l in Hreplay.
  specialize (Hreplay Hlt). split; [exact Hreplay|].
  intros H2 H4 H6.
  destruct (spilled (lastZeroBranch st) 0 steps (Z.of_nat i)) eqn:Hs.
  - apply spilled_index in Hs; lia.
  - rewrite orb_false_r in Hreplay. exact Hreplay.
Qed.

Lemma search_next_replay_witness :
  length (address after_two_yields.1.2) = 8%nat
  /\ _search_next after_two_yields.1.2 four_devices_line = third_pass
  /\ exists steps,
       third_pass.2 = steps_events steps ++ []
       /\ forall (i : nat) (w : bool),
            steps !! i = Some (false, false, w) ->
            Z.of_nat i < lastZeroBranch after_two_yields.1.2 ->
            w = address_bit (address after_two_yields.1.2) (Z.of_nat i)
                || spilled (lastZeroBranch after_two_yields.1.2) 0 steps (Z.of_nat i)
            /\ (Z.of_nat i mod 8 <> 2 -> Z.of_nat i mod 8 <> 4 -> Z.of_nat i mod 8 <> 6 ->
                w = address_bit (address after_two_yields.1.2) (Z.of_nat i)).
Proof.
  split; [reflexivity|]. split; [vm_compute; reflexivity|].
  apply (search_next_replay sim_bus _ after_two_yields.1.2 third_pass.1.1.2
           four_devices_line third_pass.1.2 true third_pass.2);
    [reflexivity|vm_compute; reflexivity].
Defined.

(** ** The search on the simulated line *)

Lemma sim_narrow (active : list Z) (p : Z) (w : bool) :
  (forallb (fun d => Z.testbit d p) active = true -> w = true) ->
  (forallb (fun d => negb (Z.testbit d p)) active = true -> w = false) ->
  List.filter (fun d => Bool.eqb (Z.testbit d p) w) active <> [].
Proof.
  intros H0 H1 Hempty.
  assert (Hall : forall d, In d active -> Bool.eqb (Z.testbit d p) w = false).
  { intros d Hd. destruct (Bool.eqb (Z.testbit d p) w) eqn:He; [|reflexivity].
    assert (Hin : In d (List.filter (fun d => Bool.eqb (Z.testbit d p) w) active))
      by (apply filter_In; auto).
    rewrite Hempty in Hin. destruct Hin. }
  destruct w.
  - assert (false = true) as Habs; [|discriminate]. symmetry. apply H1.
    apply forallb_forall. intros d Hd. apply Hall in Hd.
    destruct (Z.testbit d p); [discriminate|reflexivity].
  - assert (true = false) as Habs; [|discriminate]. symmetry. apply H0.
    apply forallb_forall. intros d Hd. apply Hall in Hd.
    destruct (Z.testbit d p); [reflexivity|discriminate].
Qed.

Lemma sim_levels_differ (active : list Z) (p : Z) :
  active <> [] ->
  forallb (fun d => Z.testbit d p) active = true ->
  forallb (fun d => negb (Z.testbit d p)) active = true -> False.
Proof.
  destruct active as [|d rest]; [congruence|]. intros _ H0 H1.
  simpl in H0, H1. apply andb_true_iff in H0 as [H0 _], H1 as [H1 _].
  rewrite H0 in H1. discriminate.
Qed.

(** A pass on the simulated line with the devices [active] still
    responding: it completes, and the bits it sends from [p] on are those of
    one of them. *)
Lemma search_bits_sim (ds : list Z) (n : nat) :
  forall (p : Z) (st : onewire_search_state) (local : Z) (active : list Z),
    active <> [] -> 0 <= p -> p + Z.of_nat n <= 64 ->
    exists st' local' ph' tr steps d,
      search_bits n p st local (mkSim ds (SimSearch active p 0))
        = (true, st', local', mkSim ds ph', tr)
      /\ pass_steps tr = Some steps
      /\ In d active
      /\ forall i, (i < n)%nat -> (steps !!! i).2 = Z.testbit d (p + Z.of_nat i).
Proof.
  induction n as [|n IH]; intros p st local active Hne Hp Hn.
  - destruct active as [|d rest]; [congruence|].
    exists st, local, (SimSearch (d :: rest) p 0), [], [], d.
    split; [reflexivity|]. split; [reflexivity|]. split; [left; reflexivity|].
    intros i Hi. lia.
  - rewrite search_bits_S.
    change (bus_read_slot (mkSim ds (SimSearch active p 0)))
      with (forallb (fun d => Z.testbit d p) active, mkSim ds (SimSearch active p 1)).
    cbv iota beta.
    change (bus_read_slot (mkSim ds (SimSearch active p 1)))
      with (forallb (fun d => negb (Z.testbit d p)) active, mkSim ds (SimSearch active p 2)).
    cbv iota beta zeta.
    rewrite position_byteIndex, position_bitIndex by lia.
    pose proof (sim_levels_differ active p Hne) as Hdiff.
    pose proof (sim_narrow active p) as Hnarrow.
    set (l0 := forallb (fun d => Z.testbit d p) active) in *.
    set (l1 := forallb (fun d => negb (Z.testbit d p)) active) in *.
    change (Z.lor (Z.lor 0 (if l0 then 1 else 0)) (Z.shiftl (if l1 then 1 else 0) 1))
      with (reading_of l0 l1).
    rewrite search_switch_levels.
    set (st1 v := set_address st (write_address (address st) (p / 8) (p mod 8) v)).
    assert (Hnext : forall v local1,
              (l0 = true -> negb (v =? 0) = true) ->
              (l1 = true -> negb (v =? 0) = false) ->
              exists st' local' ph' tr steps d,
                search_bits n (p + 1) (st1 v) local1
                  (bus_write_slot (negb (v =? 0)) (mkSim ds (SimSearch active p 2)))
                = (true, st', local', mkSim ds ph', tr)
                /\ pass_steps tr = Some steps
                /\ In d active /\ Z.testbit d p = negb (v =? 0)
                /\ forall i, (i < n)%nat ->
                     (steps !!! i).2 = Z.testbit d (p + 1 + Z.of_nat i)).
    { intros v local1 H0 H1.
      specialize (Hnarrow (negb (v =? 0)) H0 H1).
      set (active' := List.filter (fun d => Bool.eqb (Z.testbit d p) (negb (v =? 0))) active)
        in *.
      assert (Hsub : forall d, In d active' ->
                In d active /\ Z.testbit d p = negb (v =? 0)).
      { intros d Hd. apply filter_In in Hd as [Hd He]. split; [exact Hd|].
        apply eqb_prop. exact He. }
      change (bus_write_slot (negb (v =? 0)) (mkSim ds (SimSearch active p 2)))
        with (if p + 1 <? 64 then mkSim ds (SimSearch active' (p + 1) 0)
              else mkSim ds SimIdle).
      destruct (Z.ltb_spec (p + 1) 64) as [Hlt|Hge].
      - destruct (IH (p + 1) (st1 v) local1 active' Hnarrow ltac:(lia) ltac:(lia))
          as (st' & local' & ph' & tr & steps & d & Hrun & Hsteps & Hd & Hbits).
        apply Hsub in Hd as [Hd Hbit].
        exists st', local', ph', tr, steps, d. auto.
      - destruct n; [|lia].
        destruct active' as [|d rest] eqn:Hact; [congruence|].
        destruct (Hsub d ltac:(left; reflexivity)) as [Hd Hbit].
        exists (st1 v), local1, SimIdle, [], [], d.
        split; [reflexivity|]. split; [reflexivity|]. split; [exact Hd|].
        split; [exact Hbit|]. intros i Hi. lia. }
    assert (Hdone : forall v local1,
              (l0 = true -> negb (v =? 0) = true) ->
              (l1 = true -> negb (v =? 0) = false) ->
              exists st' local' ph' tr steps d,
                (let '(res, b3, tr0) :=
                   search_bits n (p + 1) (st1 v) local1
                     (bus_write_slot (negb (v =? 0)) (mkSim ds (SimSearch active p 2))) in
                 (res, b3, EvReadBit l0 :: EvReadBit l1 :: EvWriteBit (negb (v =? 0)) :: tr0))
                = (true, st', local', mkSim ds ph', tr)
                /\ pass_steps tr = Some steps
                /\ In d active
                /\ forall i, (i < S n)%nat ->
                     (steps !!! i).2 = Z.testbit d (p + Z.of_nat i)).
    { intros v local1 H0 H1.
      destruct (Hnext v local1 H0 H1)
        as (st' & local' & ph' & tr & steps & d & Hrun & Hsteps & Hd & Hbit & Hbits).
      rewrite Hrun.
      exists st', local', ph', (EvReadBit l0 :: EvReadBit l1 :: EvWriteBit (negb (v =? 0)) :: tr),
        ((l0, l1, negb (v =? 0)) :: steps), d.
      split; [reflexivity|]. split; [simpl; rewrite Hsteps; reflexivity|].
      split; [exact Hd|]. intros [|i] Hi.
      - rewrite Z.add_0_r. simpl. symmetry. exact Hbit.
      - simpl. rewrite Hbits by lia. f_equal. lia. }
    destruct l0 eqn:E0, l1 eqn:E1.
    + destruct Hdiff; reflexivity.
    + apply Hdone; [reflexivity|discriminate].
    + apply Hdone; [discriminate|reflexivity].
    + apply Hdone; discriminate.
Qed.

Lemma onewire_search_sim_run (ds : list Z) (ph : sim_phase) (st : onewire_search_state) :
  done st = false -> ds <> [] ->
  onewire_search st (mkSim ds ph) =
    let '(r, b', tr) := _search_next st (mkSim ds (SimSearch ds 0 0)) in
    (r, b', EvReset true :: search_rom_command ++ tr).
Proof.
  intros Hdone Hne. unfold onewire_search, _search_devices. rewrite Hdone.
  destruct ds as [|d0 ds']; [congruence|].
  assert (Hreset : onewire_reset (mkSim (d0 :: ds') ph)
                   = (true, mkSim (d0 :: ds') (SimCommand []), [EvReset true]))
    by reflexivity.
  assert (Hcmd : onewire_write 240 (mkSim (d0 :: ds') (SimCommand []))
                 = (tt, mkSim (d0 :: ds') (SimSearch (d0 :: ds') 0 0), search_rom_command))
    by reflexivity.
  unfold bind. rewrite Hreset. cbv beta iota.
  change (negb true) with false. cbv beta iota. rewrite Hcmd.
  destruct (_search_next st _) as [[r b'] tr]. reflexivity.
Qed.

(** One [onewire_search] call on the simulated line. *)
Lemma onewire_search_sim (ds : list Z) (ph : sim_phase) (st : onewire_search_state) :
  Forall (fun d => 0 <= d < 2 ^ 64) ds -> length (address st) = 8%nat ->
  exists ok st' ph' tr,
    onewire_search st (mkSim ds ph) = (ok, st', mkSim ds ph', tr)
    /\ length (address st') = 8%nat
    /\ (ok = true -> In (rom_of_bytes (address st')) ds)
    /\ (ok = false -> done st = true \/ ds = []).
Proof.
  intros Hrange Hlen.
  destruct (done st) eqn:Hdone.
  { exists false, st, ph, []. unfold onewire_search, _search_devices. rewrite Hdone.
    split; [reflexivity|]. split; [exact Hlen|]. split; [discriminate|auto]. }
  destruct ds as [|d0 ds'] eqn:Hds.
  { exists false, st, SimIdle, [EvReset false].
    unfold onewire_search, _search_devices. rewrite Hdone.
    split; [reflexivity|]. split; [exact Hlen|]. split; [discriminate|auto]. }
  rewrite <- Hds in *.
  assert (Hne : ds <> []) by (rewrite Hds; discriminate).
  rewrite onewire_search_sim_run by assumption.
  destruct (search_bits_sim ds 64 0 st (-1) ds Hne ltac:(lia) ltac:(simpl; lia))
    as (st1 & local & ph' & tr & steps & d & Hpass & Hsteps & Hd & Hbits).
  pose proof Hpass as Hfacts.
  apply search_bits_pass in Hfacts; [|lia|simpl; lia|exact Hlen].
  destruct Hfacts as (steps' & Hsteps' & _ & _ & _ & Hlen1 & _ & Haddr & _).
  assert (steps' = steps) as -> by congruence.
  unfold _search_next, bind. rewrite Hpass. cbv beta iota.
  set (st' := if local =? -1 then set_done st1 true else set_lastZeroBranch st1 local).
  assert (Haddr' : address st' = address st1)
    by (unfold st'; destruct (local =? -1); reflexivity).
  exists true, st', ph', (EvReset true :: search_rom_command ++ tr ++ []).
  split.
  { unfold st'. destruct (local =? -1); reflexivity. }
  rewrite Haddr'. split; [exact Hlen1|]. split; [|discriminate].
  intros _. rewrite Forall_forall in Hrange.
  assert (Hrom : rom_of_bytes (address st1) = d).
  { apply rom_of_bytes_eq; [exact Hlen1|apply Hrange, list_elem_of_In, Hd|].
    intros q Hq. specialize (Haddr (Z.to_nat q) ltac:(lia)).
    specialize (Hbits (Z.to_nat q) ltac:(lia)).
    rewrite Z.add_0_l, Z2Nat.id in Haddr, Hbits by lia. congruence. }
  rewrite Hrom. exact Hd.
Qed.

(** X10. On the simulated line with at least one device, whatever the
    devices were doing before, an [onewire_search] call from a state that is
    not done returns true, and the address it leaves is the ROM code of a
    device that is on the line. *)
Theorem sim_search_yields_present_device :
  forall (ds : list Z) (ph : sim_phase) (st : onewire_search_state),
    ds <> [] -> Forall (fun d => 0 <= d < 2 ^ 64) ds ->
    done st = false -> length (address st) = 8%nat ->
    exists st' b' tr,
      onewire_search st (mkSim ds ph) = (true, st', b', tr)
      /\ In (rom_of_bytes (address st')) ds.
Proof.
  intros ds ph st Hne Hrange Hdone Hlen.
  destruct (onewire_search_sim ds ph st Hrange Hlen)
    as (ok & st' & ph' & tr & Hrun & _ & Hin & Hfail).
  destruct ok.
  - exists st', (mkSim ds ph'), tr. auto.
  - destruct (Hfail eq_refl); congruence.
Qed.

Lemma rom_range_check (ds : list Z) :
  forallb (fun d => (0 <=? d) && (d <? 2 ^ 64)) ds = true ->
  Forall (fun d => 0 <= d < 2 ^ 64) ds.
Proof.
  intros Hall. apply Forall_forall. intros d Hd. apply list_elem_of_In in Hd.
  rewrite forallb_forall in Hall. apply Hall in Hd.
  apply andb_true_iff in Hd as [Hlo Hhi]. apply Z.leb_le in Hlo. apply Z.ltb_lt in Hhi.
  split; assumption.
Qed.

Lemma nonempty_check {A : Type} (l : list A) : (0 <? length l)%nat = true -> l <> [].
Proof. destruct l; [discriminate|intros _; discriminate]. Qed.

Lemma sim_search_yields_present_device_witness :
  exists st' b' tr,
    onewire_search fresh_state (mkSim four_devices SimIdle) = (true, st', b', tr)
    /\ In (rom_of_bytes (address st')) four_devices.
Proof.
  apply (sim_search_yields_present_device four_devices SimIdle fresh_state).
  - apply nonempty_check. vm_compute. reflexivity.
  - apply rom_range_check. vm_compute. reflexivity.
  - reflexivity.
  - reflexivity.
Defined.

(** ** The buffer filled by [ds2438_search] *)

Lemma memcpy_spec (src : list Z) (n : nat) :
  forall (dst : list Z) (off : nat),
    (off + n <= length dst)%nat -> (n <= length src)%nat ->
    memcpy dst off src n = take off dst ++ take n src ++ drop (off + n) dst.
Proof.
  unfold memcpy. induction n as [|n IH]; intros dst off Hdst Hsrc.
  - simpl. rewrite Nat.add_0_r, take_drop. reflexivity.
  - rewrite seq_S, foldl_app. simpl. rewrite IH by lia.
    destruct (lookup_lt_is_Some_2 dst (off + n) ltac:(lia)) as [y Hy].
    destruct (lookup_lt_is_Some_2 src n ltac:(lia)) as [x Hx].
    rewrite (list_lookup_total_correct _ _ _ Hx).
    rewrite (drop_S _ _ _ Hy).
    rewrite (take_S_r _ _ _ Hx).
    rewrite app_assoc.
    rewrite insert_app_r_alt by (rewrite length_app, !length_take; lia).
    replace (off + n - length (take off dst ++ take n src))%nat with 0%nat
      by (rewrite length_app, !length_take; lia).
    simpl. rewrite <- !app_assoc. simpl.
    replace (off + S n)%nat with (S (off + n)) by lia. reflexivity.
Qed.

Section SearchBuffer.
Context {B : Type} `{OneWireBus B}.

(** The loop of [ds2438_search] when the counter cannot wrap: the codes are
    packed one after the other from offset [8 * i]. *)
Lemma ds2438_search_loop_buffer (fuel : nat) :
  forall (len : Z) (st : onewire_search_state) (i : Z) (buf : list Z) (b : B)
         (found : Z) (buf' : list Z) (b' : B) (tr : list event),
    length (address st) = 8%nat -> 0 <= i -> 8 * i <= len -> len < 2048 ->
    len <= Z.of_nat (length buf) ->
    ds2438_search_loop fuel len st i buf b = (Some (found, buf'), b', tr) ->
    found = i + Z.of_nat (length (stored_codes tr))
    /\ Forall (fun c => length c = 8%nat) (stored_codes tr).*2
    /\ buf' = take (Z.to_nat (8 * i)) buf ++ concat (stored_codes tr).*2
                ++ drop (Z.to_nat (8 * found)) buf.
Proof.
  induction fuel as [|fuel IH];
    intros len st i buf b found buf' b' tr Hlen Hi Hcap Hsmall Hbuf Hrun.
  - simpl in Hrun. unfold ret in Hrun. discriminate.
  - simpl ds2438_search_loop in Hrun.
    destruct (onewire_search st b) as [[[ok st1] b1] t1] eqn:Hcall.
    rewrite (bind_known _ _ _ _ _ _ Hcall) in Hrun. cbv beta iota in Hrun.
    apply onewire_search_quiet in Hcall as [Hquiet Hlen1]. rewrite Hlen in Hlen1.
    destruct (ok && (8 * (i + 1) <=? len)) eqn:Hgo.
    + apply andb_true_iff in Hgo as [_ Hroom]. apply Z.leb_le in Hroom.
      destruct (onewire_check_rom_crc st1) eqn:Hcrc.
      * rewrite (bind_known _ _ b1 tt b1 [EvStore (8 * i) (take 8 (address st1))] eq_refl)
          in Hrun.
        destruct (ds2438_search_loop fuel len st1 (u8 (i + 1)) _ b1)
          as [[r b2] t2] eqn:Hrest.
        cbv beta iota delta [bind_rest] in Hrun. injection Hrun as -> <- <-.
        assert (Hnext : u8 (i + 1) = i + 1) by (apply u8_small; unfold is_byte; lia).
        rewrite Hnext in Hrest.
        assert (Hcopy : memcpy buf (Z.to_nat (8 * i)) (address st1) 8
                        = take (Z.to_nat (8 * i)) buf ++ address st1
                            ++ drop (Z.to_nat (8 * i) + 8) buf).
        { rewrite memcpy_spec by lia. rewrite (take_ge (address st1)) by lia. reflexivity. }
        rewrite Hcopy in Hrest.
        apply IH in Hrest as (Hcount & Hall & Hres);
          [|exact Hlen1|lia|lia|exact Hsmall
           |rewrite !length_app, length_take, length_drop; lia].
        rewrite !stored_codes_app, Hquiet. simpl.
        rewrite (take_ge (address st1)) by lia.
        split; [lia|]. split; [constructor; [exact Hlen1|exact Hall]|].
        rewrite Hres. clear Hres.
        set (codes := concat (stored_codes t2).*2).
        assert (Hfound : i + 1 <= found) by lia.
        remember (Z.to_nat (8 * i)) as n eqn:Hn.
        replace (Z.to_nat (8 * (i + 1))) with (n + 8)%nat by lia.
        rewrite (app_assoc (take n buf) (address st1) (drop (n + 8) buf)).
        assert (Hpre : length (take n buf ++ address st1) = (n + 8)%nat)
          by (rewrite length_app, length_take; lia).
        rewrite (take_app_length' (take n buf ++ address st1) _ (n + 8)) by lia.
        rewrite drop_app_ge by lia.
        rewrite Hpre, drop_drop.
        replace (n + 8 + (Z.to_nat (8 * found) - (n + 8)))%nat
          with (Z.to_nat (8 * found)) by lia.
        rewrite <- !app_assoc. reflexivity.
      * destruct (ds2438_search_loop fuel len st1 i buf b1) as [[r b2] t2] eqn:Hrest.
        cbv beta iota delta [bind_rest] in Hrun. injection Hrun as -> <- <-.
        apply IH in Hrest as (Hcount & Hall & Hres);
          [|exact Hlen1|exact Hi|exact Hcap|exact Hsmall|exact Hbuf].
        rewrite stored_codes_app, Hquiet. auto.
    + cbv beta iota delta [bind_rest ret] in Hrun. injection Hrun as <- <- <- <-.
      rewrite app_nil_r, Hquiet. simpl. rewrite Z.add_0_r.
      split; [reflexivity|]. split; [constructor|].
      rewrite take_drop. reflexivity.
Qed.
End SearchBuffer.

Lemma length_concat_codes (l : list (list Z)) :
  Forall (fun c => length c = 8%nat) l -> length (concat l) = (8 * length l)%nat.
Proof.
  induction 1 as [|c l Hc _ IH]; [reflexivity|].
  simpl. rewrite length_app, Hc, IH. lia.
Qed.

(** X11. [ds2438_search] with a capacity below 2048 bytes, on a buffer that
    has that many bytes: the count returned is the number of codes stored,
    eight times it fits the capacity, and the buffer returned is the codes
    in the order they were found, each of eight bytes with a matching CRC,
    followed by what the buffer held from offset [8 * found] on. *)
Theorem ds2438_search_packs_codes :
  forall (B : Type) (bus : OneWireBus B) (fuel : nat) (buf : list Z) (len : Z) (b : B)
         (found : Z) (buf' : list Z) (b' : B) (tr : list event),
    u16 len < 2048 -> u16 len <= Z.of_nat (length buf) ->
    ds2438_search fuel buf len b = (Some (found, buf'), b', tr) ->
    found = Z.of_nat (length (stored_codes tr))
    /\ 8 * found <= u16 len
    /\ Forall (fun c => length c = 8%nat /\ crc_valid c = true) (stored_codes tr).*2
    /\ buf' = concat (stored_codes tr).*2 ++ drop (Z.to_nat (8 * found)) buf
    /\ length buf' = length buf.
Proof.
  intros B bus fuel buf len b found buf' b' tr Hsmall Hbuf Hrun.
  unfold ds2438_search in Hrun.
  assert (Hcap : 0 <= u16 len) by (unfold u16; apply Z.mod_pos_bound; lia).
  pose proof Hrun as Hstores.
  apply ds2438_search_loop_stores in Hstores as (Hall & _ & Hbound);
    [|reflexivity|lia|lia].
  apply ds2438_search_loop_buffer in Hrun as (Hcount & Hlens & Hres);
    [|reflexivity|lia|lia|exact Hsmall|exact Hbuf].
  rewrite Z.add_0_l in Hcount. simpl in Hres.
  split; [exact Hcount|]. split; [exact Hbound|]. split; [|split; [exact Hres|]].
  - rewrite Forall_fmap. rewrite Forall_fmap in Hlens.
    rewrite Forall_forall in Hall, Hlens. apply Forall_forall. intros s Hs.
    split; [apply Hlens, Hs|apply Hall, Hs].
  - rewrite Hres, length_app, length_drop.
    rewrite (length_concat_codes _ Hlens), length_fmap. lia.
Qed.

Lemma ds2438_search_packs_codes_witness :
  u16 24 < 2048 /\ u16 24 <= Z.of_nat (length (replicate 24 7))
  /\ ds2438_search 5 (replicate 24 7) 24 (sim_with two_sensors) = two_sensors_run
  /\ two_sensors_run.1.1 = Some (2, rom_code 0 0 ++ rom_code 1 0 ++ replicate 8 7)
  /\ 2 = Z.of_nat (length (stored_codes two_sensors_run.2))
  /\ 8 * 2 <= u16 24
  /\ Forall (fun c => length c = 8%nat /\ crc_valid c = true)
       (stored_codes two_sensors_run.2).*2
  /\ rom_code 0 0 ++ rom_code 1 0 ++ replicate 8 7
     = concat (stored_codes two_sensors_run.2).*2
         ++ drop (Z.to_nat (8 * 2)) (replicate 24 7)
  /\ length (rom_code 0 0 ++ rom_code 1 0 ++ replicate 8 7) = length (replicate 24 7).
Proof.
  split; [vm_compute; reflexivity|]. split; [vm_compute; discriminate|].
  split; [vm_compute; reflexivity|]. split; [vm_compute; reflexivity|].
  apply (ds2438_search_packs_codes sim_bus _ 5 (replicate 24 7) 24 (sim_with two_sensors)
           2 (rom_code 0 0 ++ rom_code 1 0 ++ replicate 8 7)
           two_sensors_run.1.2 two_sensors_run.2).
  - vm_compute. reflexivity.
  - vm_compute. discriminate.
  - vm_compute. reflexivity.
Defined.

(** The loop of [ds2438_search] on the simulated line: whatever it stores
    is the ROM code of a device on the line. *)
Lemma ds2438_search_loop_sim (ds : list Z) (fuel : nat) :
  forall (len : Z) (st : onewire_search_state) (i : Z) (buf : list Z) (ph : sim_phase)
         (r : option (Z * list Z)) (b' : sim_bus) (tr : list event),
    Forall (fun d => 0 <= d < 2 ^ 64) ds -> length (address st) = 8%nat ->
    ds2438_search_loop fuel len st i buf (mkSim ds ph) = (r, b', tr) ->
    Forall (fun s => In (rom_of_bytes s.2) ds) (stored_codes tr).
Proof.
  induction fuel as [|fuel IH]; intros len st i buf ph r b' tr Hrange Hlen Hrun.
  - simpl in Hrun. unfold ret in Hrun. injection Hrun as <- <- <-. constructor.
  - simpl ds2438_search_loop in Hrun.
    destruct (onewire_search_sim ds ph st Hrange Hlen)
      as (ok & st1 & ph1 & t1 & Hcall & Hlen1 & Hin & _).
    rewrite (bind_known _ _ _ _ _ _ Hcall) in Hrun. cbv beta iota in Hrun.
    apply onewire_search_quiet in Hcall as [Hquiet _].
    destruct (ok && (8 * (i + 1) <=? len)) eqn:Hgo.
    + apply andb_true_iff in Hgo as [Hok _].
      destruct (onewire_check_rom_crc st1) eqn:Hcrc.
      * rewrite (bind_known _ _ (mkSim ds ph1) tt (mkSim ds ph1)
                   [EvStore (8 * i) (take 8 (address st1))] eq_refl) in Hrun.
        destruct (ds2438_search_loop fuel len st1 (u8 (i + 1)) _ (mkSim ds ph1))
          as [[r2 b2] t2] eqn:Hrest.
        cbv beta iota delta [bind_rest] in Hrun. injection Hrun as <- <- <-.
        apply IH in Hrest; [|exact Hrange|exact Hlen1].
        rewrite !stored_codes_app, Hquiet. simpl.
        constructor; [|exact Hrest]. simpl.
        rewrite (take_ge (address st1)) by lia. apply Hin, Hok.
      * destruct (ds2438_search_loop fuel len st1 i buf (mkSim ds ph1))
          as [[r2 b2] t2] eqn:Hrest.
        cbv beta iota delta [bind_rest] in Hrun. injection Hrun as <- <- <-.
        apply IH in Hrest; [|exact Hrange|exact Hlen1].
        rewrite stored_codes_app, Hquiet. exact Hrest.
    + cbv beta iota delta [bind_rest ret] in Hrun. injection Hrun as <- <- <-.
      rewrite app_nil_r, Hquiet. constructor.
Qed.

(** X12. [ds2438_search] on the simulated line: every code it copies into
    the buffer is the ROM code of a device that is on the line; this holds
    for any bound on the number of search calls, reached or not. *)
Theorem ds2438_search_sim_stores_present_devices :
  forall (ds : list Z) (fuel : nat) (buf : list Z) (len : Z)
         (r : option (Z * list Z)) (b' : sim_bus) (tr : list event),
    Forall (fun d => 0 <= d < 2 ^ 64) ds ->
    ds2438_search fuel buf len (sim_with ds) = (r, b', tr) ->
    Forall (fun s => In (rom_of_bytes s.2) ds) (stored_codes tr).
Proof.
  intros ds fuel buf len r b' tr Hrange Hrun. unfold ds2438_search, sim_with in Hrun.
  apply ds2438_search_loop_sim in Hrun; [exact Hrun|exact Hrange|reflexivity].
Qed.

Lemma ds2438_search_sim_stores_present_devices_witness :
  Forall (fun d => 0 <= d < 2 ^ 64) two_sensors
  /\ ds2438_search 5 (replicate 24 7) 24 (sim_with two_sensors) = two_sensors_run
  /\ length (stored_codes two_sensors_run.2) = 2%nat
  /\ Forall (fun s => In (rom_of_bytes s.2) two_sensors) (stored_codes two_sensors_run.2).
Proof.
  assert (Hrange : Forall (fun d => 0 <= d < 2 ^ 64) two_sensors)
    by (apply rom_range_check; vm_compute; reflexivity).
  split; [exact Hrange|]. split; [vm_compute; reflexivity|].
  split; [vm_compute; reflexivity|].
  apply (ds2438_search_sim_stores_present_devices two_sensors 5 (replicate 24 7) 24
           two_sensors_run.1.1 two_sensors_run.1.2 two_sensors_run.2 Hrange).
  vm_compute. reflexivity.
Defined.

(** ** The commands written by the transactions *)

Lemma command_bits_cons (x : Z) (l : list Z) :
  command_bits (x :: l) = byte_bits x ++ command_bits l.
Proof. reflexivity. Qed.

Lemma command_bits_app (l1 l2 : list Z) :
  command_bits (l1 ++ l2) = command_bits l1 ++ command_bits l2.
Proof. unfold command_bits. apply flat_map_app. Qed.

(** Read the results off a finished run without unfolding its events. *)
Ltac run_done H :=
  cbv beta iota delta [bind_rest ret] in H;
  match type of H with
  | (_, _, _, ?t) = _ =>
      let t0 := fresh "t" in
      set (t0 := t) in H; injection H as <- <- <- <-; subst t0
  end.

Ltac run_write_byte H :=
  match type of H with
  | context [bind (onewire_write ?x) ?k ?b] =>
      let b' := fresh "b" in
      let Hw := fresh "Hw" in
      destruct (onewire_write_run x b) as (b' & Hw);
      fold (byte_bits x) in Hw;
      rewrite (bind_known _ k _ _ _ _ Hw) in H;
      cbv beta in H
  end.

Section Commands.
Context {B : Type} `{OneWireBus B}.

(** The events of [ds2438_read_slave], whole. *)
Lemma read_slave_trace (page : Z) (buffer : list Z) (b : B)
    (status : Z) (buffer' : list Z) (b' : B) (tr : list event) :
  ds2438_read_slave page buffer b = (status, buffer', b', tr) ->
  (status = kDS2438_DeviceNotFound /\ buffer' = buffer /\ tr = [EvReset false])
  \/ (status = kDS2438_DeviceNotFound /\ buffer' = buffer
      /\ tr = EvReset true :: map EvWriteBit (command_bits [0xCC; kRecallPage; page])
                ++ [EvReset false])
  \/ (exists levels,
        length levels = 72%nat
        /\ status <> kDS2438_DeviceNotFound
        /\ tr = EvReset true :: map EvWriteBit (command_bits [0xCC; kRecallPage; page])
                  ++ EvReset true
                  :: map EvWriteBit (command_bits [0xCC; kReadScatchPad; page])
                  ++ map EvReadBit levels).
Proof.
  intros Hrun. unfold ds2438_read_slave in Hrun.
  destruct (onewire_reset_run b) as (p1 & b1 & Hr1).
  rewrite (bind_known _ _ _ _ _ _ Hr1) in Hrun.
  destruct p1; [rewrite if_negb_true in Hrun|rewrite if_negb_false in Hrun].
  2: { run_done Hrun. left. auto. }
  run_write_byte Hrun. run_write_byte Hrun. run_write_byte Hrun.
  match type of Hrun with context [bind onewire_reset ?k ?b] =>
    destruct (onewire_reset_run b) as (p2 & b5 & Hr2);
    rewrite (bind_known _ k _ _ _ _ Hr2) in Hrun
  end.
  destruct p2; [rewrite if_negb_true in Hrun|rewrite if_negb_false in Hrun].
  2: { run_done Hrun. right. left.
       split; [reflexivity|]. split; [reflexivity|].
       rewrite !command_bits_cons, !map_app. change (command_bits []) with (@nil bool).
       rewrite <- ?app_assoc, ?app_nil_r. reflexivity. }
  run_write_byte Hrun. run_write_byte Hrun. run_write_byte Hrun.
  match type of Hrun with context [bind (read_scratchpad 9 0 buffer) ?k ?b] =>
    destruct (read_scratchpad_run 9 0 buffer b) as (bytes & b9 & Hn & Hbytes & Hrd);
    rewrite (bind_known _ k _ _ _ _ Hrd) in Hrun
  end.
  right. right. exists (levels_of_bytes bytes).
  split; [rewrite length_levels_of_bytes, Hn; reflexivity|].
  set (frame := fill_from 0 bytes buffer) in Hrun.
  destruct (crc8 frame 8 =? frame !!! kScratchPad_CRC);
    [rewrite if_negb_true in Hrun|rewrite if_negb_false in Hrun];
    run_done Hrun;
    (split; [discriminate|]);
    rewrite !command_bits_cons, !map_app; change (command_bits []) with (@nil bool);
    rewrite <- ?app_assoc, ?app_nil_r; reflexivity.
Qed.
End Commands.

(** X13. The events of one [ds2438_read_slave] call on any line, in order:
    a reset; when it shows presence, the bytes 0xCC, 0xB8 and the page; a
    second reset; when that shows presence too, the bytes 0xCC, 0xBE and
    the page, followed by 72 read slots and nothing else.  The call stops
    with "device not found" and an untouched buffer at the first reset
    without presence. *)
Theorem read_slave_transaction :
  forall (B : Type) (bus : OneWireBus B) (page : Z) (buffer : list Z) (b : B)
         (status : Z) (buffer' : list Z) (b' : B) (tr : list event),
    ds2438_read_slave page buffer b = (status, buffer', b', tr) ->
    (status = kDS2438_DeviceNotFound /\ buffer' = buffer /\ tr = [EvReset false])
    \/ (status = kDS2438_DeviceNotFound /\ buffer' = buffer
        /\ tr = EvReset true :: map EvWriteBit (command_bits [0xCC; 0xB8; page])
                  ++ [EvReset false])
    \/ (exists levels,
          length levels = 72%nat
          /\ status <> kDS2438_DeviceNotFound
          /\ tr = EvReset true :: map EvWriteBit (command_bits [0xCC; 0xB8; page])
                    ++ EvReset true
                    :: map EvWriteBit (command_bits [0xCC; 0xBE; page])
                    ++ map EvReadBit levels).
Proof.
  intros B bus page buffer b status buffer' b' tr Hrun.
  apply read_slave_trace in Hrun. exact Hrun.
Qed.

Lemma read_slave_transaction_witness :
  ds2438_read_slave 0 (replicate 9 0) read_line = read_run
  /\ exists levels,
       length levels = 72%nat
       /\ read_run.2 = EvReset true :: map EvWriteBit (command_bits [0xCC; 0xB8; 0])
                         ++ EvReset true
                         :: map EvWriteBit (command_bits [0xCC; 0xBE; 0])
                         ++ map EvReadBit levels.
Proof.
  assert (Hrun : ds2438_read_slave 0 (replicate 9 0) read_line
                 = (read_run.1.1.1, read_run.1.1.2, read_run.1.2, read_run.2))
    by (vm_compute; reflexivity).
  split; [exact Hrun|].
  destruct (read_slave_transaction script_bus _ 0 (replicate 9 0) read_line
              read_run.1.1.1 read_run.1.1.2 read_run.1.2 read_run.2 Hrun)
    as [(_ & _ & Htr)|[(_ & _ & Htr)|(levels & Hlen & _ & Htr)]]; clear Hrun.
  - vm_compute in Htr. discriminate.
  - vm_compute in Htr. discriminate.
  - exists levels. split; assumption.
Defined.

Section CommandsWritten.
Context {B : Type} `{OneWireBus B}.

(** The bytes written by [ds2438_read_slave]: none, the first three or all
    six of its commands. *)
Lemma read_slave_writes (page : Z) (buffer : list Z) (b : B)
    (status : Z) (buffer' : list Z) (b' : B) (tr : list event) :
  ds2438_read_slave page buffer b = (status, buffer', b', tr) ->
  exists k,
    written_bits tr = command_bits (take k (read_slave_commands page))
    /\ (((k = 0 \/ k = 3)%nat /\ status = kDS2438_DeviceNotFound)
        \/ (k = 6%nat /\ status <> kDS2438_DeviceNotFound)).
Proof.
  intros Hrun.
  apply read_slave_trace in Hrun
    as [(-> & _ & ->)|[(-> & _ & ->)|(levels & _ & Hst & ->)]].
  - exists 0%nat. split; [reflexivity|]. left. auto.
  - exists 3%nat. split; [|left; auto].
    autorewrite with events. reflexivity.
  - exists 6%nat. split; [|right; auto].
    autorewrite with events. rewrite <- command_bits_app. reflexivity.
Qed.

Variable render_temperature : Q -> string.
Variable render_humidity : Z -> Z -> Q -> string.

(** The bytes written by [ds2438_measure]: its commands up to the point
    where it gave up, and all of them when it returns true. *)
Lemma measure_writes (output : string) (b : B)
    (result : bool) (output' : string) (b' : B) (tr : list event) :
  ds2438_measure render_temperature render_humidity output b = (result, output', b', tr) ->
  exists n,
    written_bits tr = command_bits (take n measure_commands)
    /\ In n [0; 4; 6; 8; 11; 14; 18; 20; 23; 26]%nat
    /\ (result = true -> n = 26%nat).
Proof.
  intros Hrun. unfold ds2438_measure in Hrun.
  destruct status_ok_checks as (_ & _ & _ & Hc4 & Hc5).
  assert (Hexit : forall (n : nat) (t : list event),
            written_bits t = command_bits (take n measure_commands) ->
            In n [0; 4; 6; 8; 11; 14; 18; 20; 23; 26]%nat ->
            exists n,
              written_bits t = command_bits (take n measure_commands)
              /\ In n [0; 4; 6; 8; 11; 14; 18; 20; 23; 26]%nat
              /\ (false = true -> n = 26%nat)).
  { intros n t Ht Hn. exists n. split; [exact Ht|]. split; [exact Hn|discriminate]. }
  run_reset Hrun p1.
  2: { run_done Hrun. apply (Hexit 0%nat); [reflexivity|simpl; auto 20]. }
  run_write_byte Hrun. run_write_byte Hrun. run_write_byte Hrun. run_write_byte Hrun.
  run_reset Hrun p2.
  2: { run_done Hrun. apply (Hexit 4%nat); [|simpl; auto 20].
       autorewrite with events. reflexivity. }
  run_write_byte Hrun. run_write_byte Hrun.
  run_reset Hrun p3.
  2: { run_done Hrun. apply (Hexit 6%nat); [|simpl; auto 20].
       autorewrite with events. reflexivity. }
  run_write_byte Hrun. run_write_byte Hrun.
  match type of Hrun with
  | context [bind (ds2438_read_slave ?page ?buf) ?k ?b] =>
      destruct (ds2438_read_slave page buf b) as [[[status1 frame1] b11] tr1] eqn:Hrs1;
      rewrite (bind_known _ k _ _ _ _ Hrs1) in Hrun;
      cbv beta iota in Hrun;
      apply read_slave_writes in Hrs1 as (k1 & Hk1 & Hcase1)
  end.
  destruct Hcase1 as [[Hk ->]|[-> Hst1]].
  { rewrite Hc4, Hc5 in Hrun. run_done Hrun.
    destruct Hk as [-> | ->].
    - apply (Hexit 8%nat); [|simpl; auto 20].
      autorewrite with events. rewrite Hk1. reflexivity.
    - apply (Hexit 11%nat); [|simpl; auto 20].
      autorewrite with events. rewrite Hk1. reflexivity. }
  destruct (status1 =? kDS2438_CrcCheckFailed).
  { run_done Hrun. apply (Hexit 14%nat); [|simpl; auto 20].
    autorewrite with events. rewrite Hk1. reflexivity. }
  destruct (Z.eqb_spec status1 kDS2438_DeviceNotFound) as [Heq|_]; [contradiction|].
  cbv zeta in Hrun.
  run_reset Hrun p4.
  2: { run_done Hrun. apply (Hexit 14%nat); [|simpl; auto 20].
       autorewrite with events. rewrite Hk1. reflexivity. }
  run_write_byte Hrun. run_write_byte Hrun. run_write_byte Hrun. run_write_byte Hrun.
  run_reset Hrun p5.
  2: { run_done Hrun. apply (Hexit 18%nat); [|simpl; auto 20].
       autorewrite with events. rewrite Hk1. reflexivity. }
  run_write_byte Hrun. run_write_byte Hrun.
  run_reset Hrun p6.
  2: { run_done Hrun. apply (Hexit 20%nat); [|simpl; auto 20].
       autorewrite with events. rewrite Hk1. reflexivity. }
  match type of Hrun with
  | context [bind (ds2438_read_slave ?page ?buf) ?k ?b] =>
      destruct (ds2438_read_slave page buf b) as [[[status2 frame2] b22] tr2] eqn:Hrs2;
      rewrite (bind_known _ k _ _ _ _ Hrs2) in Hrun;
      cbv beta iota in Hrun;
      apply read_slave_writes in Hrs2 as (k2 & Hk2 & Hcase2)
  end.
  destruct Hcase2 as [[Hk ->]|[-> Hst2]].
  { rewrite Hc4, Hc5 in Hrun. run_done Hrun.
    destruct Hk as [-> | ->].
    - apply (Hexit 20%nat); [|simpl; auto 20].
      autorewrite with events. rewrite Hk1, Hk2. reflexivity.
    - apply (Hexit 23%nat); [|simpl; auto 20].
      autorewrite with events. rewrite Hk1, Hk2. reflexivity. }
  destruct (status2 =? kDS2438_CrcCheckFailed).
  { run_done Hrun. apply (Hexit 26%nat); [|simpl; auto 20].
    autorewrite with events. rewrite Hk1, Hk2. reflexivity. }
  destruct (Z.eqb_spec status2 kDS2438_DeviceNotFound) as [Heq|_]; [contradiction|].
  cbv zeta in Hrun. run_done Hrun.
  exists 26%nat. split; [|split; [simpl; auto 20|reflexivity]].
  autorewrite with events. rewrite Hk1, Hk2. reflexivity.
Qed.
End CommandsWritten.

(** X14. The bytes [ds2438_measure] writes on any line are an initial part
    of one fixed sequence of 26 command bytes, cut only where a reset comes
    next or a scratchpad read ends: after 0, 4, 6, 8, 11, 14, 18, 20, 23 or
    26 bytes.  A call that returns true has written all 26. *)
Theorem measure_command_sequence :
  forall (B : Type) (bus : OneWireBus B)
         (render_temperature : Q -> string)
         (render_humidity : Z -> Z -> Q -> string)
         (output : string) (b : B)
         (result : bool) (output' : string) (b' : B) (tr : list event),
    ds2438_measure render_temperature render_humidity output b = (result, output', b', tr) ->
    exists n,
      written_bits tr = command_bits (take n measure_commands)
      /\ In n [0; 4; 6; 8; 11; 14; 18; 20; 23; 26]%nat
      /\ (result = true -> n = 26%nat).
Proof.
  intros B bus render_temperature render_humidity output b result output' b' tr Hrun.
  apply measure_writes in Hrun. exact Hrun.
Qed.

Lemma measure_command_sequence_witness :
  ds2438_measure plain_temperature plain_humidity "" measure_line = measure_run
  /\ measure_run.1.1.1 = true
  /\ exists n,
       written_bits measure_run.2 = command_bits (take n measure_commands)
       /\ In n [0; 4; 6; 8; 11; 14; 18; 20; 23; 26]%nat
       /\ (measure_run.1.1.1 = true -> n = 26%nat).
Proof.
  assert (Hrun : ds2438_measure plain_temperature plain_humidity "" measure_line
                 = (measure_run.1.1.1, measure_run.1.1.2, measure_run.1.2, measure_run.2))
    by (vm_compute; reflexivity).
  split; [exact Hrun|]. split; [reflexivity|].
  exact (measure_command_sequence script_bus _ plain_temperature plain_humidity ""
           measure_line measure_run.1.1.1 measure_run.1.1.2 measure_run.1.2 measure_run.2
           Hrun).
Defined.

(** ** Two devices on the simulated line *)

Lemma first_difference_some (x y : Z) (n : nat) :
  forall p ps, first_difference n p x y = Some ps ->
    p <= ps < p + Z.of_nat n
    /\ (forall q, p <= q < ps -> Z.testbit x q = Z.testbit y q)
    /\ Z.testbit x ps = negb (Z.testbit y ps).
Proof.
  induction n as [|n IH]; intros p ps Hfd; [discriminate|].
  simpl in Hfd. destruct (Bool.eqb (Z.testbit x p) (Z.testbit y p)) eqn:He.
  - apply IH in Hfd as (Hr & Hagree & Hdiff). split; [lia|]. split; [|exact Hdiff].
    intros q Hq. destruct (Z.eq_dec q p) as [->|Hne]; [apply eqb_prop, He|].
    apply Hagree. lia.
  - injection Hfd as <-. split; [lia|]. split; [intros q Hq; lia|].
    destruct (Z.testbit x p), (Z.testbit y p); try reflexivity; discriminate.
Qed.

Lemma first_difference_none (x y : Z) (n : nat) :
  forall p, first_difference n p x y = None ->
    forall q, p <= q < p + Z.of_nat n -> Z.testbit x q = Z.testbit y q.
Proof.
  induction n as [|n IH]; intros p Hfd q Hq; [lia|].
  simpl in Hfd. destruct (Bool.eqb (Z.testbit x p) (Z.testbit y p)) eqn:He; [|discriminate].
  destruct (Z.eq_dec q p) as [->|Hne]; [apply eqb_prop, He|].
  apply (IH (p + 1) Hfd). lia.
Qed.

Lemma testbit_high_in_range (d q : Z) : 0 <= d < 2 ^ 64 -> 64 <= q -> Z.testbit d q = false.
Proof.
  intros Hd Hq. destruct (Z.eq_dec d 0) as [->|Hnz]; [apply Z.bits_0|].
  apply Z.bits_above_log2; [lia|].
  apply Z.lt_le_trans with 64; [|exact Hq]. apply Z.log2_lt_pow2; lia.
Qed.

Lemma first_difference_exists (x y : Z) :
  0 <= x < 2 ^ 64 -> 0 <= y < 2 ^ 64 -> x <> y ->
  exists ps, first_difference 64 0 x y = Some ps.
Proof.
  intros Hx Hy Hne. destruct (first_difference 64 0 x y) as [ps|] eqn:Hfd; [eauto|].
  destruct Hne. apply Z.bits_inj'. intros q Hq.
  destruct (Z.lt_ge_cases q 64) as [Hlow|Hhigh].
  - apply (first_difference_none x y 64 0 Hfd). simpl. lia.
  - rewrite !testbit_high_in_range by assumption. reflexivity.
Qed.

Lemma search_bits_sim_devices (n : nat) :
  forall (p : Z) (st : onewire_search_state) (local : Z) (b : sim_bus)
         (ok : bool) (st' : onewire_search_state) (local' : Z) (b' : sim_bus)
         (tr : list event),
    search_bits n p st local b = (ok, st', local', b', tr) ->
    sim_devices b' = sim_devices b.
Proof.
  assert (Hread : forall b : sim_bus, sim_devices (bus_read_slot b).2 = sim_devices b).
  { intros [ds ph]. change (bus_read_slot ?x) with (sim_read x). unfold sim_read. simpl.
    destruct ph as [| |active pos [|[|slot]]]; reflexivity. }
  assert (Hwrite : forall v (b : sim_bus), sim_devices (bus_write_slot v b) = sim_devices b).
  { intros v [ds ph]. change (bus_write_slot ?x ?y) with (sim_write x y).
    unfold sim_write. simpl.
    destruct ph as [|received|active pos [|[|[|slot]]]]; try reflexivity.
    - destruct (_ <? 8)%nat; [reflexivity|]. destruct (_ =? 240); reflexivity.
    - destruct (pos + 1 <? 64); reflexivity. }
  induction n as [|n IH]; intros p st local b ok st' local' b' tr Hrun.
  - simpl in Hrun. unfold ret in Hrun. congruence.
  - rewrite search_bits_S in Hrun.
    pose proof (Hread b) as H0.
    destruct (bus_read_slot b) as [l0 b0]. pose proof (Hread b0) as H1.
    destruct (bus_read_slot b0) as [l1 b1]. simpl in H0, H1. cbv zeta in Hrun.
    destruct (search_switch _ _ _ _ _ _) as [[v local1]|].
    + destruct (search_bits n _ _ _ _) as [[[[res st2] local2] b3] tr'] eqn:Hrest.
      apply IH in Hrest. rewrite Hwrite in Hrest.
      assert (b' = b3) as -> by congruence. congruence.
    + assert (b' = b1) as -> by congruence. congruence.
Qed.

(** A pass over the line with two devices that agree from [p] up to [ps]
    and differ at [ps], for a state whose [lastZeroBranch] is not above
    [ps]: the pass follows the device that has, at [ps], the bit the state
    asks for. *)
Lemma search_bits_pair (ds : list Z) (da db ps : Z) (n : nat) :
  forall (p : Z) (st : onewire_search_state) (local : Z),
    0 <= p <= ps -> ps < p + Z.of_nat n -> p + Z.of_nat n <= 64 ->
    (forall q, p <= q < ps -> Z.testbit da q = Z.testbit db q) ->
    Z.testbit da ps = negb (Z.testbit db ps) ->
    lastZeroBranch st <= ps ->
    exists st' local' ph' tr steps,
      search_bits n p st local (mkSim ds (SimSearch [da; db] p 0))
        = (true, st', local', mkSim ds ph', tr)
      /\ pass_steps tr = Some steps
      /\ (forall i, (i < n)%nat ->
            (steps !!! i).2
            = Z.testbit (if Bool.eqb (Z.testbit da ps) (ps =? lastZeroBranch st)
                         then da else db) (p + Z.of_nat i))
      /\ zero_branches p steps = if ps =? lastZeroBranch st then [] else [ps].
Proof.
  induction n as [|n IH]; intros p st local Hp Hps Hn Hagree Hdiff Hlzb; [lia|].
  rewrite search_bits_S.
  change (bus_read_slot (mkSim ds (SimSearch [da; db] p 0)))
    with (Z.testbit da p && (Z.testbit db p && true), mkSim ds (SimSearch [da; db] p 1)).
  cbv iota beta.
  change (bus_read_slot (mkSim ds (SimSearch [da; db] p 1)))
    with (negb (Z.testbit da p) && (negb (Z.testbit db p) && true),
          mkSim ds (SimSearch [da; db] p 2)).
  cbv iota beta zeta.
  rewrite position_byteIndex, position_bitIndex by lia.
  rewrite !andb_true_r.
  set (l0 := Z.testbit da p && Z.testbit db p).
  set (l1 := negb (Z.testbit da p) && negb (Z.testbit db p)).
  change (Z.lor (Z.lor 0 (if l0 then 1 else 0)) (Z.shiftl (if l1 then 1 else 0) 1))
    with (reading_of l0 l1).
  rewrite search_switch_levels.
  set (st1 v := set_address st (write_address (address st) (p / 8) (p mod 8) v)).
  set (w := ps =? lastZeroBranch st).
  set (dw := if Bool.eqb (Z.testbit da ps) w then da else db).
  destruct (Z.eq_dec p ps) as [->|Hbelow].
  - (* the position where the two devices differ *)
    assert (Hl0 : l0 = false) by (unfold l0; rewrite Hdiff; destruct (Z.testbit db ps); reflexivity).
    assert (Hl1 : l1 = false) by (unfold l1; rewrite Hdiff; destruct (Z.testbit db ps); reflexivity).
    rewrite Hl0, Hl1.
    assert (Hv : conflict_value st ps = if w then 1 else 0).
    { unfold conflict_value, w. destruct (Z.eqb_spec ps (lastZeroBranch st)); [reflexivity|].
      destruct (Z.ltb_spec ps (lastZeroBranch st)); [lia|reflexivity]. }
    rewrite Hv.
    assert (Hw : negb ((if w then 1 else 0) =? 0) = w) by (destruct w; reflexivity).
    rewrite Hw.
    assert (Hbit : Z.testbit dw ps = w).
    { unfold dw. destruct (Bool.eqb (Z.testbit da ps) w) eqn:He; [apply eqb_prop, He|].
      rewrite Hdiff in He. destruct (Z.testbit db ps), w; try reflexivity; discriminate. }
    assert (Hbus : bus_write_slot w (mkSim ds (SimSearch [da; db] ps 2))
                   = if ps + 1 <? 64 then mkSim ds (SimSearch [dw] (ps + 1) 0)
                     else mkSim ds SimIdle).
    { change (bus_write_slot ?x ?y) with (sim_write x y). unfold sim_write. simpl.
      unfold dw. rewrite Hdiff.
      destruct (Z.testbit db ps), w; reflexivity. }
    rewrite Hbus.
    assert (Hrest : exists st' local' ph' tr,
              search_bits n (ps + 1) (st1 (if w then 1 else 0))
                (if (if w then 1 else 0) =? 0 then ps else local)
                (if ps + 1 <? 64 then mkSim ds (SimSearch [dw] (ps + 1) 0)
                 else mkSim ds SimIdle)
              = (true, st', local', mkSim ds ph', tr)
              /\ pass_steps tr = Some (single_steps dw (ps + 1) n)).
    { destruct (Z.ltb_spec (ps + 1) 64) as [Hlt|Hge].
      - destruct (search_bits_single ds dw n (ps + 1) (st1 (if w then 1 else 0))
                    (if (if w then 1 else 0) =? 0 then ps else local)
                    ltac:(lia) ltac:(lia))
          as (st' & local' & b' & tr & Hrun & Hsteps).
        pose proof (search_bits_sim_devices _ _ _ _ _ _ _ _ _ _ Hrun) as Hdev.
        destruct b' as [ds' ph']. simpl in Hdev. subst ds'.
        exists st', local', ph', tr. auto.
      - destruct n; [|lia]. eexists _, _, _, _. split; reflexivity. }
    destruct Hrest as (st' & local' & ph' & tr & Hrun & Hsteps).
    exists st', local', ph', (EvReadBit false :: EvReadBit false :: EvWriteBit w :: tr),
      ((false, false, w) :: single_steps dw (ps + 1) n).
    split; [unfold st1 in Hrun; rewrite Hrun; reflexivity|]. split; [simpl; rewrite Hsteps; reflexivity|]. split.
    + intros [|i] Hi.
      * rewrite Z.add_0_r. simpl. symmetry. exact Hbit.
      * simpl. rewrite single_steps_lookup by lia. f_equal. lia.
    + simpl. rewrite single_steps_no_zero_branch. destruct w; reflexivity.
  - (* a position where they agree *)
    assert (Hsame : Z.testbit db p = Z.testbit da p) by (symmetry; apply Hagree; lia).
    assert (Hbus : bus_write_slot (Z.testbit da p) (mkSim ds (SimSearch [da; db] p 2))
                   = mkSim ds (SimSearch [da; db] (p + 1) 0)).
    { change (bus_write_slot ?x ?y) with (sim_write x y). unfold sim_write. simpl.
      rewrite Hsame, eqb_reflx.
      destruct (Z.ltb_spec (p + 1) 64); [reflexivity|lia]. }
    assert (Hnext : forall v local1, negb (v =? 0) = Z.testbit da p ->
              exists st' local' ph' tr steps,
                (let '(res, b3, tr0) :=
                   search_bits n (p + 1) (st1 v) local1
                     (bus_write_slot (negb (v =? 0)) (mkSim ds (SimSearch [da; db] p 2))) in
                 (res, b3, EvReadBit (Z.testbit da p) :: EvReadBit (negb (Z.testbit da p))
                             :: EvWriteBit (negb (v =? 0)) :: tr0))
                = (true, st', local', mkSim ds ph', tr)
                /\ pass_steps tr = Some steps
                /\ (forall i, (i < S n)%nat -> (steps !!! i).2 = Z.testbit dw (p + Z.of_nat i))
                /\ zero_branches p steps = if w then [] else [ps]).
    { intros v local1 Hv. rewrite Hv, Hbus.
      destruct (IH (p + 1) (st1 v) local1 ltac:(lia) ltac:(lia) ltac:(lia)
                  ltac:(intros q Hq; apply Hagree; lia) Hdiff Hlzb)
        as (st' & local' & ph' & tr & steps & Hrun & Hsteps & Hbits & Hzb).
      rewrite Hrun.
      exists st', local', ph',
        (EvReadBit (Z.testbit da p) :: EvReadBit (negb (Z.testbit da p))
           :: EvWriteBit (Z.testbit da p) :: tr),
        ((Z.testbit da p, negb (Z.testbit da p), Z.testbit da p) :: steps).
      split; [reflexivity|]. split; [simpl; rewrite Hsteps; reflexivity|]. split.
      - intros [|i] Hi.
        + rewrite Z.add_0_r. simpl. unfold dw.
          destruct (Bool.eqb (Z.testbit da ps) w); [reflexivity|exact (eq_sym Hsame)].
        + simpl. rewrite Hbits by lia. f_equal. lia.
      - simpl. destruct (Z.testbit da p); simpl; exact Hzb. }
    unfold l0, l1. rewrite Hsame.
    destruct (Z.testbit da p) eqn:Hx; simpl andb; cbv iota.
    + apply (Hnext 1 local). reflexivity.
    + apply (Hnext 0 local). reflexivity.
Qed.

(** One [onewire_search] call on the line with those two devices. *)
Lemma onewire_search_pair (da db ps : Z) (ph : sim_phase) (st : onewire_search_state) :
  0 <= da < 2 ^ 64 -> 0 <= db < 2 ^ 64 -> 0 <= ps < 64 ->
  (forall q, 0 <= q < ps -> Z.testbit da q = Z.testbit db q) ->
  Z.testbit da ps = negb (Z.testbit db ps) ->
  done st = false -> length (address st) = 8%nat -> lastZeroBranch st <= ps ->
  exists st' ph' tr,
    onewire_search st (mkSim [da; db] ph) = (true, st', mkSim [da; db] ph', tr)
    /\ length (address st') = 8%nat
    /\ rom_of_bytes (address st')
       = (if Bool.eqb (Z.testbit da ps) (ps =? lastZeroBranch st) then da else db)
    /\ (if ps =? lastZeroBranch st then done st' = true
        else done st' = false /\ lastZeroBranch st' = ps).
Proof.
  intros Hda Hdb Hps Hagree Hdiff Hdone Hlen Hlzb.
  rewrite onewire_search_sim_run by (exact Hdone || discriminate).
  destruct (search_bits_pair [da; db] da db ps 64 0 st (-1)
              ltac:(lia) ltac:(simpl; lia) ltac:(simpl; lia) Hagree Hdiff Hlzb)
    as (st1 & local & ph' & tr & steps & Hpass & Hsteps & Hbits & Hzb).
  pose proof Hpass as Hfacts.
  apply search_bits_pass in Hfacts; [|lia|simpl; lia|exact Hlen].
  destruct Hfacts as (steps' & Hsteps' & _ & _ & Hdone1 & Hlen1 & Hloc & Haddr & _).
  assert (steps' = steps) as -> by congruence.
  rewrite Hzb in Hloc.
  unfold _search_next, bind. rewrite Hpass. cbv beta iota.
  set (w := ps =? lastZeroBranch st) in *.
  set (dw := if Bool.eqb (Z.testbit da ps) w then da else db) in *.
  assert (Hrom : rom_of_bytes (address st1) = dw).
  { apply rom_of_bytes_eq; [exact Hlen1|unfold dw; destruct (Bool.eqb _ _); assumption|].
    intros q Hq. specialize (Haddr (Z.to_nat q) ltac:(lia)).
    specialize (Hbits (Z.to_nat q) ltac:(lia)).
    rewrite Z.add_0_l, Z2Nat.id in Haddr, Hbits by lia. congruence. }
  destruct w.
  - simpl in Hloc. subst local.
    exists (set_done st1 true), ph', (EvReset true :: search_rom_command ++ tr ++ []).
    split; [reflexivity|]. split; [exact Hlen1|]. split; [exact Hrom|reflexivity].
  - simpl in Hloc. subst local.
    destruct (Z.eqb_spec ps (-1)) as [Hneg|_]; [lia|].
    exists (set_lastZeroBranch st1 ps), ph', (EvReset true :: search_rom_command ++ tr ++ []).
    split; [reflexivity|]. split; [exact Hlen1|]. split; [exact Hrom|].
    split; [simpl; congruence|reflexivity].
Qed.

(** X15. Two distinct devices on the simulated line are both found:
    enumerating from a fresh state yields exactly two addresses and ends
    with [done] set; the first address is the device that has a 0 at the
    lowest bit position where the two ROM codes differ, the second is the
    other device. *)
Theorem two_devices_both_found :
  forall da db : Z,
    0 <= da < 2 ^ 64 -> 0 <= db < 2 ^ 64 -> da <> db ->
    exists ps a1 a2 st b,
      first_difference 64 0 da db = Some ps
      /\ enumerate 3 fresh_state (sim_with [da; db]) = ([a1; a2], st, b)
      /\ done st = true
      /\ rom_of_bytes a1 = (if Z.testbit da ps then db else da)
      /\ rom_of_bytes a2 = (if Z.testbit da ps then da else db).
Proof.
  intros da db Hda Hdb Hne.
  destruct (first_difference_exists da db Hda Hdb Hne) as [ps Hfd].
  pose proof (first_difference_some da db 64 0 ps Hfd) as (Hps & Hagree & Hdiff).
  simpl in Hps.
  destruct (onewire_search_pair da db ps SimIdle fresh_state Hda Hdb ltac:(lia) Hagree Hdiff
              eq_refl eq_refl ltac:(simpl; lia))
    as (st1 & ph1 & tr1 & Hrun1 & Hlen1 & Hrom1 & Hst1).
  change (lastZeroBranch fresh_state) with (-1) in Hrom1, Hst1.
  destruct (Z.eqb_spec ps (-1)) as [Hneg|_]; [lia|]. destruct Hst1 as [Hdone1 Hlzb1].
  destruct (onewire_search_pair da db ps ph1 st1 Hda Hdb ltac:(lia) Hagree Hdiff
              Hdone1 Hlen1 ltac:(lia))
    as (st2 & ph2 & tr2 & Hrun2 & Hlen2 & Hrom2 & Hst2).
  rewrite Hlzb1, Z.eqb_refl in Hrom2, Hst2.
  assert (Hrun3 : onewire_search st2 (mkSim [da; db] ph2) = (false, st2, mkSim [da; db] ph2, []))
    by (unfold onewire_search, _search_devices; rewrite Hst2; reflexivity).
  exists ps, (address st1), (address st2), st2, (mkSim [da; db] ph2).
  split; [exact Hfd|]. split.
  { unfold sim_with. simpl enumerate. rewrite Hrun1, Hrun2, Hrun3. reflexivity. }
  split; [exact Hst2|]. rewrite Hrom1, Hrom2.
  destruct (Z.testbit da ps); split; reflexivity.
Qed.

Lemma two_devices_both_found_witness :
  exists ps a1 a2 st b,
    first_difference 64 0 (rom_of_bytes (rom_code 1 0)) (rom_of_bytes (rom_code 0 0)) = Some ps
    /\ enumerate 3 fresh_state
         (sim_with [rom_of_bytes (rom_code 1 0); rom_of_bytes (rom_code 0 0)])
       = ([a1; a2], st, b)
    /\ done st = true
    /\ rom_of_bytes a1 = (if Z.testbit (rom_of_bytes (rom_code 1 0)) ps
                          then rom_of_bytes (rom_code 0 0) else rom_of_bytes (rom_code 1 0))
    /\ rom_of_bytes a2 = (if Z.testbit (rom_of_bytes (rom_code 1 0)) ps
                          then rom_of_bytes (rom_code 1 0) else rom_of_bytes (rom_code 0 0)).
Proof.
  assert (Ha : 0 <= rom_of_bytes (rom_code 1 0) < 2 ^ 64)
    by (vm_compute; split; [discriminate|reflexivity]).
  assert (Hb : 0 <= rom_of_bytes (rom_code 0 0) < 2 ^ 64)
    by (vm_compute; split; [discriminate|reflexivity]).
  assert (Hne : rom_of_bytes (rom_code 1 0) <> rom_of_bytes (rom_code 0 0))
    by (vm_compute; discriminate).
  exact (two_devices_both_found _ _ Ha Hb Hne).
Defined.
